(** * simulations-platform: the answer-generation pipeline and the re-run job

    A shallow embedding of [llm/generate.py] (query classification, context
    aggregation, generation dispatch, the deterministic fallback parser) and
    of [routes/experiment_details.py] ([re_run_experiment]), with the
    properties of the design document stated and settled against it.

    Conventions.
    - A Python [str] is a [string]; a character is a code point below 256.
    - A Python [dict] with string keys and string values (a retrieved
      document, an experiment record) is a [gmap string string];
      [d.get(k, dflt)] is [default dflt (d !! k)].
    - A Python [set] of strings is a [gset string]; the order in which
      CPython iterates it is not specified and is a parameter.
    - A call that may raise returns a [Res]; [try]/[except] is [try_catch].
    - Calls to collaborators whose code is not embedded here (retrieval,
      the bandwidth analysis, the step-by-step reasoner, the two
      generation backends, pandas) are fields of a record of oracles, and
      every call of a collaborator of the pipeline is logged in a trace. *)

From Stdlib Require Import String Ascii List ZArith QArith Lia Bool DecimalString.
From stdpp Require Import base option list gmap strings.

#[local] Set Warnings "-clear-no-such-hyp".

Local Open Scope string_scope.
Local Open Scope list_scope.
Local Open Scope nat_scope.

(** ** Python string primitives *)

Module Py.

Definition chr (n : nat) : string := String (ascii_of_nat n) EmptyString.

(** [chr(10)], the newline. *)
Definition nl : string := chr 10.

Definition len (s : string) : nat := String.length s.

(** [bool(s)] for a string: non-empty. *)
Definition truthy (s : string) : bool :=
  match s with EmptyString => false | String _ _ => true end.

(** [s[:n]] *)
Fixpoint take (n : nat) (s : string) : string :=
  match n, s with
  | S n', String c s' => String c (take n' s')
  | _, _ => EmptyString
  end.

(** [s[n:]] *)
Fixpoint drop (n : nat) (s : string) : string :=
  match n, s with
  | S n', String _ s' => drop n' s'
  | _, _ => s
  end.

(** [s.startswith(p)] *)
Fixpoint startswith (p s : string) : bool :=
  match p, s with
  | EmptyString, _ => true
  | String a p', String b s' => if Ascii.eqb a b then startswith p' s' else false
  | String _ _, EmptyString => false
  end.

(** [needle in hay] *)
Fixpoint contains (needle hay : string) : bool :=
  startswith needle hay ||
  match hay with
  | EmptyString => false
  | String _ hay' => contains needle hay'
  end.

(** [s.endswith(suffix)] *)
Definition endswith (suffix s : string) : bool :=
  String.eqb (drop (len s - len suffix) s) suffix.

(** [str.lower] on code points below 256: A-Z and the Latin-1 capitals
    (0xC0-0xDE without the multiplication sign 0xD7) move up by 32. *)
Definition lower_char (c : ascii) : ascii :=
  let n := nat_of_ascii c in
  if ((65 <=? n) && (n <=? 90)) || ((192 <=? n) && (n <=? 222) && negb (n =? 215))
  then ascii_of_nat (n + 32) else c.

Fixpoint lower (s : string) : string :=
  match s with
  | EmptyString => EmptyString
  | String c s' => String (lower_char c) (lower s')
  end.

(** [str.isspace] on one code point below 256. *)
Definition isspace (c : ascii) : bool :=
  let n := nat_of_ascii c in
  ((9 <=? n) && (n <=? 13)) || ((28 <=? n) && (n <=? 32)) || (n =? 133) || (n =? 160).

Fixpoint lstrip (s : string) : string :=
  match s with
  | EmptyString => EmptyString
  | String c s' => if isspace c then lstrip s' else s
  end.

Fixpoint rstrip (s : string) : string :=
  match s with
  | EmptyString => EmptyString
  | String c s' =>
      let r := rstrip s' in
      if isspace c && negb (truthy r) then EmptyString else String c r
  end.

(** [s.strip()] *)
Definition strip (s : string) : string := rstrip (lstrip s).

(** [s.split(sep)] for a separator of one character. *)
Fixpoint split (sep : ascii) (s : string) : list string :=
  match s with
  | EmptyString => [EmptyString]
  | String c s' =>
      if Ascii.eqb c sep then EmptyString :: split sep s'
      else match split sep s' with
           | [] => [String c EmptyString]
           | w :: ws => String c w :: ws
           end
  end.

(** [sep.join(l)] *)
Fixpoint join (sep : string) (l : list string) : string :=
  match l with
  | [] => EmptyString
  | [x] => x
  | x :: (_ :: _) as l' => x +:+ sep +:+ join sep l'
  end.

(** [l[-n:]] for a positive [n]. *)
Definition last_n {A} (n : nat) (l : list A) : list A :=
  List.skipn (length l - n) l.

(** [str(n)] for a non-negative integer. *)
Definition str_nat (n : nat) : string := NilZero.string_of_uint (Nat.to_uint n).

(** [any(f(x) for x in l)] *)
Definition any {A} (f : A -> bool) (l : list A) : bool := existsb f l.

End Py.

(** ** Documents and pools *)

(** A retrieved document: a dict with the keys ["filename"], ["text"],
    ["experiment_name"] and ["experiment_params"], any of which may be
    absent. *)
Abbreviation Doc := (gmap string string).

(** [doc.get(key, dflt)] *)
Definition get (doc : Doc) (key dflt : string) : string := default dflt (doc !! key).

(** What an f-string prints for [doc.get(key)]: the value, or [None]. *)
Definition fmt_get (doc : Doc) (key : string) : string := default "None" (doc !! key).

(** ** pandas and float arithmetic

    The fallback parser calls pandas and Python's float arithmetic, which
    are no part of this repository. They are taken as an interface; [None]
    stands for a raised exception. *)

Record Pandas := {
  DataFrame : Type;
  Float : Type;
  (** [pd.read_csv(io.StringIO(text), header=None)] *)
  read_csv : string -> option DataFrame;
  (** [df[0].nunique()] *)
  first_column_nunique : DataFrame -> option nat;
  (** [pd.to_numeric(df[df.columns[-1]], errors='coerce').mean()] *)
  last_column_numeric_mean : DataFrame -> option Float;
  (** [float(num)] *)
  py_float : string -> option Float;
  (** [x > 0] *)
  gt0 : Float -> bool;
  (** [float(n)] for an integer, [x + y] and [x / y] *)
  of_nat : nat -> Float;
  fadd : Float -> Float -> Float;
  fdiv : Float -> Float -> Float;
  (** [f"{x:.2f}"] *)
  format_2f : Float -> string
}.

(** ** The deterministic fallback parser ([fallback_parser]) *)

(** [re.findall(r'[\d.]+', text)]: the maximal runs of digits and dots. *)
Definition is_num_char (c : ascii) : bool :=
  let n := nat_of_ascii c in ((48 <=? n) && (n <=? 57)) || (n =? 46).

Fixpoint findall_numbers (s : string) : list string :=
  match s with
  | EmptyString => []
  | String c s' =>
      if is_num_char c then
        match s' with
        | String c' _ =>
            if is_num_char c' then
              match findall_numbers s' with
              | w :: ws => String c w :: ws
              | [] => [String c EmptyString]
              end
            else String c EmptyString :: findall_numbers s'
        | EmptyString => [String c EmptyString]
        end
      else findall_numbers s'
  end.

(** A dict from experiment name to a list of filenames, in insertion
    order: [if k not in d: d[k] = []] followed by [d[k].append(v)]. *)
Fixpoint dict_append (k v : string) (d : list (string * list string))
  : list (string * list string) :=
  match d with
  | [] => [(k, [v])]
  | (k', vs) :: d' =>
      if String.eqb k' k then (k', vs ++ [v]) :: d' else (k', vs) :: dict_append k v d'
  end.

Section Fallback.

Context (P : Pandas).
(** The order in which CPython iterates a set of strings. *)
Context (set_iter : gset string -> list string).

(** Lines 402-406: the experiment names of the pool. *)
Definition fallback_experiments_found (context_docs : list Doc) : gset string :=
  fold_left
    (fun found doc =>
       let experiment_name := get doc "experiment_name" EmptyString in
       if Py.truthy experiment_name then found ∪ {[experiment_name]} else found)
    context_docs ∅.

(** Line 408. *)
Definition fallback_is_multi_experiment (context_docs : list Doc) : bool :=
  bool_decide (1 < size (fallback_experiments_found context_docs)).

(** [for doc in context_docs: body], where the body may [return]: [Some]
    is the first [return], [None] is the loop running to its end. *)
Fixpoint first_answer (body : Doc -> option string) (context_docs : list Doc)
  : option string :=
  match context_docs with
  | [] => None
  | doc :: rest =>
      match body doc with
      | Some answer => Some answer
      | None => first_answer body rest
      end
  end.

(** Lines 414-426: the body of the loop of the node-count handler. *)
Definition node_count_answer (doc : Doc) : option string :=
  if bool_decide (doc !! "filename" = Some "node_info.csv") then
    let text := get doc "text" EmptyString in
    if Py.truthy text then
      match read_csv P text ≫= first_column_nunique P with
      | Some node_count =>
          Some ("Based on the node_info.csv file, there are "
                +:+ Py.str_nat node_count +:+ " unique nodes in the simulation.")
      | None =>
          let lines := Py.split (ascii_of_nat 10) (Py.strip text) in
          Some ("Based on the node_info.csv file, there appear to be approximately "
                +:+ Py.str_nat (length lines) +:+ " nodes in the simulation.")
      end
    else None
  else None.

(** [sum(values) / len(values)] *)
Definition py_mean (values : list (Float P)) : Float P :=
  fdiv P (fold_left (fadd P) values (of_nat P 0)) (of_nat P (length values)).

(** Lines 448-456: the regular-expression handler that runs when the
    structural parse raised. [None]: nothing was returned. *)
Definition regex_average (doc : Doc) (text : string) : option string :=
  let numbers := findall_numbers text in
  match numbers with
  | [] => None
  | _ :: _ =>
      match mapM (py_float P) numbers with
      | None => None
      | Some floats =>
          let values := List.filter (gt0 P) floats in
          match values with
          | [] => None
          | _ :: _ =>
              Some ("Based on " +:+ fmt_get doc "filename"
                    +:+ ", the average bandwidth is approximately "
                    +:+ format_2f P (py_mean values) +:+ ".")
          end
      end
  end.

(** Lines 431-456: the body of the loop of the bandwidth-average handler. *)
Definition bandwidth_answer (doc : Doc) : option string :=
  if Py.contains "bandwidth" (Py.lower (get doc "filename" EmptyString)) then
    let text := get doc "text" EmptyString in
    if Py.truthy text then
      match read_csv P text ≫= last_column_numeric_mean P with
      | Some avg_bandwidth =>
          Some ("Based on " +:+ fmt_get doc "filename"
                +:+ ", the average bandwidth is approximately "
                +:+ format_2f P avg_bandwidth +:+ ".")
      | None => regex_average doc text
      end
    else None
  else None.

Definition node_intent (query_lower : string) : bool :=
  Py.contains "node" query_lower
  && (Py.contains "count" query_lower || Py.contains "how many" query_lower).

Definition bandwidth_intent (query_lower : string) : bool :=
  Py.contains "bandwidth" query_lower && Py.contains "average" query_lower.

(** Lines 460-466. *)
Definition experiment_files (context_docs : list Doc) : list (string * list string) :=
  fold_left
    (fun files doc =>
       dict_append (get doc "experiment_name" "Unknown") (get doc "filename" "unknown") files)
    context_docs [].

(** Lines 459-475: the general summary. *)
Definition general_fallback (context_docs : list Doc) : string :=
  if fallback_is_multi_experiment context_docs then
    let experiments_found := fallback_experiments_found context_docs in
    let summary :=
      map (fun '(exp_name, files) => exp_name +:+ ": " +:+ Py.join ", " files)
          (experiment_files context_docs) in
    "I found relevant information from " +:+ Py.str_nat (size experiments_found)
    +:+ " experiments (" +:+ Py.join ", " (set_iter experiments_found)
    +:+ ") in the following files:" +:+ Py.nl +:+ Py.join Py.nl summary +:+ Py.nl +:+ Py.nl
    +:+ "However, I couldn't process the comparative analysis automatically. The API service is currently unavailable."
  else
    let filenames := map (fun doc => get doc "filename" "unknown") context_docs in
    "I found relevant information in " +:+ Py.join ", " filenames
    +:+ ", but couldn't process it automatically. The API service is currently unavailable.".

(** Lines 397-475. The [if]/[elif] selects at most one handler; a handler
    that returns nothing falls through to the general summary. *)
Definition fallback_parser (query : string) (context_docs : list Doc) : string :=
  let query_lower := Py.lower query in
  let handled :=
    if node_intent query_lower then first_answer node_count_answer context_docs
    else if bandwidth_intent query_lower then first_answer bandwidth_answer context_docs
    else None in
  match handled with
  | Some answer => answer
  | None => general_fallback context_docs
  end.

End Fallback.

(** ** Effects: exceptions and the trace of collaborator calls *)

Inductive Call : Type :=
| CallBandwidthAnalysis (run_dir query : string)
| CallGetAllMulti
| CallGetAllSingle
| CallThinkStepByStep (query context : string)
| CallOllama (prompt : string)
| CallTextGeneration (prompt : string).

(** A call of one of the generation backends. *)
Definition is_generation_call (c : Call) : bool :=
  match c with
  | CallThinkStepByStep _ _ | CallOllama _ | CallTextGeneration _ => true
  | _ => false
  end.

(** The outcome of a Python call: a value, or a raised exception with the
    text of [str(e)]. *)
Inductive Res (A : Type) : Type :=
| Ok (a : A)
| Raise (msg : string).
Arguments Ok {A} a.
Arguments Raise {A} msg.

(** A computation over a state [S] that may raise. *)
Definition St (S A : Type) : Type := S -> Res A * S.

Definition ret {S A} (a : A) : St S A := fun s => (Ok a, s).

Definition raise {S A} (msg : string) : St S A := fun s => (Raise msg, s).

Definition bind {S A B} (m : St S A) (k : A -> St S B) : St S B :=
  fun s =>
    match m s with
    | (Ok a, s') => k a s'
    | (Raise msg, s') => (Raise msg, s')
    end.

(** [try: m  except Exception as e: handler(str(e))] *)
Definition try_catch {S A} (m : St S A) (handler : string -> St S A) : St S A :=
  fun s =>
    match m s with
    | (Ok a, s') => (Ok a, s')
    | (Raise msg, s') => handler msg s'
    end.

(** An outcome that leaves the state alone (an import, a pure call). *)
Definition lift {S A} (outcome : Res A) : St S A := fun s => (outcome, s).

#[global] Instance St_ret {S} : MRet (St S) := @ret S.
#[global] Instance St_bind {S} : MBind (St S) := fun A B k m => bind m k.

(** The pipeline runs over the trace of its collaborator calls. *)
Abbreviation M := (St (list Call)).

(** A collaborator call: logged, then its outcome. *)
Definition call {A} (c : Call) (outcome : Res A) : M A :=
  fun trace => (outcome, trace ++ [c]).

Definition run {A} (m : M A) : Res A * list Call := m [].

(** ** Collaborators of the pipeline *)

Record World := {
  (** The framework text loaded when the module is imported. *)
  FRAMEWORK_CONTEXT : string;
  (** [os.getenv("USE_LOCAL_MODEL")] *)
  USE_LOCAL_MODEL : option string;
  (** [from llm.bandwidth_analysis import analyze_bandwidth_for_chat] *)
  import_bandwidth_analysis : Res unit;
  (** [analyze_bandwidth_for_chat(run_dir=run_dir, query=query)] *)
  analyze_bandwidth_for_chat : string -> string -> Res string;
  (** [from llm.think_step_by_step import think_step_by_step] *)
  import_think_step_by_step : Res unit;
  (** [think_step_by_step(query, None, combined_context, use_api=True)],
      read at its keys ['reasoning'] and ['result']. *)
  think_step_by_step : string -> string -> Res (string * string);
  get_all_multi_experiment_documents : Res (list Doc);
  get_all_single_experiment_documents : Res (list Doc);
  (** The local endpoint: the POST, [raise_for_status], the JSON body and
      its field [response] (the empty string when absent). *)
  ollama_response : string -> Res string;
  (** [InferenceClient(...).text_generation(prompt=prompt, ...)] *)
  text_generation : string -> Res string
}.

(** [bool(l)] for a list. *)
Definition nonempty {A} (l : list A) : bool :=
  match l with [] => false | _ :: _ => true end.

(** ** Query classification *)

(** Lines 246-267. *)
Definition is_bandwidth_query (query : string) : bool :=
  let query_lower := Py.lower query in
  let bandwidth_keywords := ["bandwidth"; "throughput"; "speed"; "data rate"] in
  let file_keywords := ["flow"; "flow_bandwidth"; "flow bandwidth"; "flow_bandwidth.csv"] in
  let bandwidth_match := Py.any (fun kw => Py.contains kw query_lower) bandwidth_keywords in
  let file_match := Py.any (fun kw => Py.contains kw query_lower) file_keywords in
  let stat_keywords :=
    ["average"; "avg"; "mean"; "statistics"; "calculate"; "median"; "min"; "max"] in
  let stat_match := Py.any (fun kw => Py.contains kw query_lower) stat_keywords in
  (bandwidth_match && (file_match || stat_match)) || (file_match && stat_match).

Definition reasoning_phrases : list string :=
  ["step by step"; "explain your thinking"; "show your work"; "reasoning"].

(** Line 69. *)
Definition is_reasoning_query (query : string) : bool :=
  Py.any (fun phrase => Py.contains phrase (Py.lower query)) reasoning_phrases.

(** ** Context aggregation (lines 87-129) *)

(** Lines 103-109: the length of a raw excerpt, by the size of the pool. *)
Definition text_length (n_docs : nat) : nat :=
  if 50 <? n_docs then 400
  else if 20 <? n_docs then 600
  else 1000.

(** Lines 112-117: the excerpt of a document that carries an experiment
    name. *)
Definition multi_excerpt (n_docs : nat) (filename text : string) : string :=
  let excerpt := Py.take (text_length n_docs) text in
  if Py.endswith ".csv" filename && Py.contains Py.nl text then
    let lines := Py.split (ascii_of_nat 10) text in
    if 10 <? length lines
    then Py.join Py.nl (List.firstn 5 lines ++ ["..."] ++ Py.last_n 3 lines)
    else excerpt
  else excerpt.

(** Lines 119 and 122: the context entry of a document with a text. *)
Definition context_entry (n_docs : nat) (doc : Doc) : string :=
  let filename := get doc "filename" "unknown file" in
  let text := get doc "text" EmptyString in
  let experiment_name := get doc "experiment_name" EmptyString in
  let experiment_params := get doc "experiment_params" EmptyString in
  if Py.truthy experiment_name then
    "From " +:+ experiment_name +:+ " - " +:+ filename
    +:+ " (Parameters: " +:+ experiment_params +:+ "):" +:+ Py.nl
    +:+ multi_excerpt n_docs filename text +:+ "..."
  else
    "From " +:+ filename +:+ ":" +:+ Py.nl +:+ Py.take 1000 text +:+ "...".

Record Aggregate := {
  contexts : list string;
  filenames : list string;
  experiments_found : gset string
}.

(** One turn of the loop of lines 92-123. *)
Definition aggregate_step (n_docs : nat) (acc : Aggregate) (doc : Doc) : Aggregate :=
  let filename := get doc "filename" "unknown file" in
  let text := get doc "text" EmptyString in
  let experiment_name := get doc "experiment_name" EmptyString in
  if Py.truthy text then
    {| contexts := contexts acc ++ [context_entry n_docs doc];
       filenames := filenames acc ++ [filename];
       experiments_found :=
         if Py.truthy experiment_name
         then experiments_found acc ∪ {[experiment_name]}
         else experiments_found acc |}
  else acc.

Definition aggregate (context_docs : list Doc) : Aggregate :=
  fold_left (aggregate_step (length context_docs)) context_docs
            {| contexts := []; filenames := []; experiments_found := ∅ |}.

(** Line 129. *)
Definition is_multi_experiment (context_docs : list Doc) : bool :=
  bool_decide (1 < size (experiments_found (aggregate context_docs))).

(** ** Prompt construction (lines 132-205) *)

(** [sorted(l)] for strings: insertion sort by code points. *)
Fixpoint insert_sorted (x : string) (l : list string) : list string :=
  match l with
  | [] => [x]
  | y :: l' => if String.leb x y then x :: l else y :: insert_sorted x l'
  end.

Definition sorted (l : list string) : list string := fold_right insert_sorted [] l.

(** [d.get(k, dflt)] on a dict kept in insertion order. *)
Fixpoint assoc_get {V} (k : string) (dflt : V) (d : list (string * V)) : V :=
  match d with
  | [] => dflt
  | (k', v) :: d' => if String.eqb k' k then v else assoc_get k dflt d'
  end.

Definition assoc_mem {V} (k : string) (d : list (string * V)) : bool :=
  existsb (fun kv => String.eqb (fst kv) k) d.

(** [d[k].add(v)] for a key that is present. *)
Fixpoint assoc_add (k v : string) (d : list (string * gset string))
  : list (string * gset string) :=
  match d with
  | [] => []
  | (k', s) :: d' =>
      if String.eqb k' k then (k', s ∪ {[v]}) :: d' else (k', s) :: assoc_add k v d'
  end.

(** One turn of the loop of lines 137-145 over the two dicts. *)
Definition manifest_step
    (acc : list (string * gset string) * list (string * string)) (doc : Doc)
  : list (string * gset string) * list (string * string) :=
  let '(files_by_experiment, params_by_experiment) := acc in
  let exp_name := get doc "experiment_name" "Unknown" in
  let filename := get doc "filename" "unknown" in
  let params := get doc "experiment_params" EmptyString in
  if assoc_mem exp_name files_by_experiment
  then (assoc_add exp_name filename files_by_experiment, params_by_experiment)
  else (assoc_add exp_name filename (files_by_experiment ++ [(exp_name, ∅)]),
        params_by_experiment ++ [(exp_name, params)]).

Section Pipeline.

Context (P : Pandas).
Context (set_iter : gset string -> list string).
Context (W : World).

(** Lines 148-151. *)
Definition experiment_summary (context_docs : list Doc) : list string :=
  let '(files_by_experiment, params_by_experiment) :=
    fold_left manifest_step context_docs ([], []) in
  map (fun '(exp_name, files) =>
         let params := assoc_get exp_name EmptyString params_by_experiment in
         "**" +:+ exp_name +:+ "** (Parameters: " +:+ params +:+ "): "
         +:+ Py.str_nat (size files) +:+ " files - "
         +:+ Py.join ", " (sorted (set_iter files)))
      files_by_experiment.

(** Lines 153-180. *)
Definition multi_prompt (query : string) (context_docs : list Doc) : string :=
  let agg := aggregate context_docs in
  let context_string := Py.join (Py.nl +:+ Py.nl) (contexts agg) in
  Py.join Py.nl
    [ "You are an AI assistant performing COMPREHENSIVE COMPARATIVE ANALYSIS across multiple network simulation experiments."
    ; EmptyString
    ; "IMPORTANT: You have access to ALL simulation data from ALL selected experiments. Use this complete dataset to provide thorough comparative analysis."
    ; EmptyString
    ; "**ANALYSIS SCOPE:**"
    ; "- " +:+ Py.str_nat (size (experiments_found agg)) +:+ " different experiments: "
      +:+ Py.join ", " (set_iter (experiments_found agg))
    ; "- " +:+ Py.str_nat (length context_docs) +:+ " total data files analyzed"
    ; "- Complete data coverage for accurate comparison"
    ; EmptyString
    ; "**EXPERIMENT DETAILS:**"
    ; Py.join (Py.chr 10) (experiment_summary context_docs)
    ; EmptyString
    ; "**ANALYSIS INSTRUCTIONS:**"
    ; "- Compare data across ALL experiments"
    ; "- Identify patterns, differences, and performance metrics"
    ; "- For " +:+ Py.chr 34 +:+ "which performed best" +:+ Py.chr 34
      +:+ " questions, analyze all relevant metrics and provide rankings"
    ; "- Extract specific numbers and statistics from the data"
    ; "- Clearly identify which experiment each data point comes from"
    ; EmptyString
    ; "## FloodNS Framework Concepts:"
    ; FRAMEWORK_CONTEXT W
    ; EmptyString
    ; "## COMPLETE Multi-Experiment Dataset (" +:+ Py.str_nat (length context_docs) +:+ " files):"
    ; context_string
    ; EmptyString
    ; "**User Question:** " +:+ query
    ; EmptyString
    ; "**Provide comprehensive comparative analysis based on ALL available simulation data:**" ].

(** Lines 182-205. *)
Definition single_prompt (query : string) (context_docs : list Doc) : string :=
  let agg := aggregate context_docs in
  let context_string := Py.join (Py.nl +:+ Py.nl) (contexts agg) in
  Py.join Py.nl
    [ "You are an AI assistant performing COMPREHENSIVE ANALYSIS of network simulation data."
    ; EmptyString
    ; "IMPORTANT: You have access to ALL simulation files from this experiment. Use this complete dataset to provide thorough analysis."
    ; EmptyString
    ; "**ANALYSIS SCOPE:**"
    ; "- " +:+ Py.str_nat (length context_docs) +:+ " total data files analyzed"
    ; "- Complete data coverage for accurate analysis"
    ; EmptyString
    ; "**ANALYSIS INSTRUCTIONS:**"
    ; "- Analyze ALL available data files for comprehensive insights"
    ; "- Extract specific numbers, statistics and factual information from the provided data"
    ; "- If the data contains CSV content, analyze the structure and count unique entries if needed"
    ; "- For node counts, count unique node IDs. For bandwidth questions, look for numerical values"
    ; "- Provide detailed analysis based on ALL available simulation data"
    ; EmptyString
    ; "## FloodNS Framework Concepts:"
    ; FRAMEWORK_CONTEXT W
    ; EmptyString
    ; "## COMPLETE Single-Experiment Dataset (" +:+ Py.str_nat (length context_docs) +:+ " files):"
    ; context_string
    ; EmptyString
    ; "**User Question:** " +:+ query
    ; EmptyString
    ; "**Provide comprehensive analysis based on ALL available simulation data:**" ].

Definition build_prompt (query : string) (context_docs : list Doc) : string :=
  if is_multi_experiment context_docs
  then multi_prompt query context_docs
  else single_prompt query context_docs.

(** ** Generation dispatch *)

(** Lines 34-49. *)
Definition generate_with_ollama (prompt : string) : M string :=
  try_catch
    (response ← call (CallOllama prompt) (ollama_response W prompt);
     mret (Py.strip response))
    (fun _ => mret "There was an error calling the local model through Ollama.").

(** Lines 365-395. *)
Definition generate_with_api (prompt : string) (context_docs : list Doc) (query : string)
  : M string :=
  try_catch
    (response ← call (CallTextGeneration prompt) (text_generation W prompt);
     let answer :=
       if Py.len prompt <? Py.len response
       then Py.drop (Py.len prompt) response
       else response in
     mret (Py.strip answer))
    (fun _ =>
       if nonempty context_docs && Py.truthy query
       then mret (fallback_parser P set_iter query context_docs)
       else mret "I'm sorry, I couldn't access the language model service. Please try again later.").

(** Line 209. *)
Definition use_local : bool :=
  String.eqb (Py.lower (default "false" (USE_LOCAL_MODEL W))) "true".

(** ** Answer composition (lines 217-237) *)

(** Lines 218-222. *)
Definition multi_sources_info (context_docs : list Doc) : string :=
  let found := experiments_found (aggregate context_docs) in
  let context_summary :=
    Py.join Py.nl
      (map (fun doc => "- " +:+ get doc "experiment_name" "Unknown" +:+ "/"
                        +:+ get doc "filename" "unknown")
           context_docs) in
  Py.nl +:+ "Retrieved ALL " +:+ Py.str_nat (length context_docs) +:+ " documents from "
  +:+ Py.str_nat (size found) +:+ " experiments (" +:+ Py.join ", " (set_iter found) +:+ "):"
  +:+ Py.nl +:+ context_summary +:+ Py.nl.

(** Lines 226-235. *)
Definition single_sources_info (context_docs : list Doc) : string :=
  let context_summary :=
    Py.join Py.nl (map (fun filename => "- " +:+ filename)
                       (filenames (aggregate context_docs))) in
  let context_preview :=
    Py.join Py.nl (map (fun doc => Py.take 100 (get doc "text" EmptyString) +:+ "...")
                       context_docs) in
  Py.nl +:+ "Retrieved ALL " +:+ Py.str_nat (length context_docs)
  +:+ " documents from single experiment:" +:+ Py.nl +:+ context_summary +:+ Py.nl +:+ Py.nl
  +:+ "Used context:" +:+ Py.nl +:+ context_preview +:+ Py.nl.

Definition sources_info (context_docs : list Doc) : string :=
  if is_multi_experiment context_docs
  then multi_sources_info context_docs
  else single_sources_info context_docs.

(** Lines 224 and 237. *)
Definition with_sources (response : string) (context_docs : list Doc) : string :=
  response +:+ Py.nl +:+ Py.nl +:+ "<sources>" +:+ Py.nl
  +:+ sources_info context_docs +:+ Py.nl +:+ "</sources>".

(** ** The reasoning path (lines 270-317) *)

Definition no_data_to_reason_about : string :=
  "I couldn't find any simulation data to reason about.".

(** Lines 290-305. *)
Definition combined_context (context_docs : list Doc) : string :=
  let contexts :=
    omap (fun doc : Doc =>
            let filename := get doc "filename" "unknown file" in
            let text := get doc "text" EmptyString in
            if Py.truthy text
            then Some ("From " +:+ filename +:+ ":" +:+ Py.nl +:+ Py.take 1500 text +:+ "...")
            else None)
         context_docs in
  let context_string := Py.join (Py.nl +:+ Py.nl) contexts in
  "## FloodNS Framework Concepts:" +:+ Py.nl +:+ FRAMEWORK_CONTEXT W +:+ Py.nl +:+ Py.nl
  +:+ "## Simulation Data:" +:+ Py.nl +:+ context_string.

(** Lines 308-314. *)
Definition reason_over (query : string) (context_docs : list Doc) : M string :=
  let ctx := combined_context context_docs in
  response ← call (CallThinkStepByStep query ctx) (think_step_by_step W query ctx);
  let '(reasoning, result) := response in
  mret ("<thinking>" +:+ Py.nl +:+ reasoning +:+ Py.nl +:+ "</thinking>"
        +:+ Py.nl +:+ Py.nl +:+ result).

Definition generate_response_with_reasoning (query : string) : M string :=
  try_catch
    (_ ← lift (import_think_step_by_step W);
     all_multi_docs ← call CallGetAllMulti (get_all_multi_experiment_documents W);
     if nonempty all_multi_docs then reason_over query all_multi_docs
     else
       all_single_docs ← call CallGetAllSingle (get_all_single_experiment_documents W);
       if nonempty all_single_docs then reason_over query all_single_docs
       else mret no_data_to_reason_about)
    (fun msg =>
       mret ("I had trouble applying step-by-step reasoning to your question. Error: " +:+ msg)).

(** ** The general path (lines 72-241) *)

Definition no_data_to_answer : string :=
  "I couldn't find any simulation data to answer your question.".

(** Lines 207-241, for the pool selected at lines 74-85. *)
Definition answer_from (query : string) (context_docs : list Doc) : M string :=
  let prompt := build_prompt query context_docs in
  try_catch
    (response ← (if use_local
                 then generate_with_ollama prompt
                 else generate_with_api prompt context_docs query);
     mret (with_sources response context_docs))
    (fun _ => mret (fallback_parser P set_iter query context_docs)).

(** Lines 72-241. *)
Definition standard_response (query : string) : M string :=
  all_multi_docs ← call CallGetAllMulti (get_all_multi_experiment_documents W);
  if nonempty all_multi_docs then answer_from query all_multi_docs
  else
    all_single_docs ← call CallGetAllSingle (get_all_single_experiment_documents W);
    if nonempty all_single_docs then answer_from query all_single_docs
    else mret no_data_to_answer.

(** ** The entry point (lines 52-243) *)

(** Lines 56-66: [Some answer] when the bandwidth analysis returned, [None]
    when the pipeline goes on. The [except] of line 64 closes the [try] of
    line 57. *)
Definition bandwidth_branch (query : string) (run_dir : option string) : M (option string) :=
  if is_bandwidth_query query then
    try_catch
      (_ ← lift (import_bandwidth_analysis W);
       match run_dir with
       | Some dir =>
           if Py.truthy dir
           then answer ← call (CallBandwidthAnalysis dir query)
                               (analyze_bandwidth_for_chat W dir query);
                mret (Some answer)
           else mret None
       | None => mret None
       end)
      (fun _ => mret None)
  else mret None.

Definition generate_response (query : string) (run_dir : option string) : M string :=
  try_catch
    (handled ← bandwidth_branch query run_dir;
     match handled with
     | Some answer => mret answer
     | None =>
         if is_reasoning_query query
         then generate_response_with_reasoning query
         else standard_response query
     end)
    (fun _ =>
       mret "I had trouble searching through the simulation data. Please try again or ask an administrator to check the vector search configuration.").

End Pipeline.

(** ** A reference implementation of the pandas interface

    Exact rational arithmetic over comma-separated text without quoting:
    the rows are the non-blank lines, the first row fixes the number of
    columns, a longer row is a parse error and so is a text with no row.
    It runs the examples of the design document; the general theorems
    hold for every implementation of the interface. *)

Module Exact.

Inductive num : Type :=
| NaN
| Fin (q : Q).

Definition digit (c : ascii) : option Z :=
  let n := nat_of_ascii c in
  if (48 <=? n) && (n <=? 57) then Some (Z.of_nat (n - 48)) else None.

(** The value of a run of decimal digits; the empty run is 0. *)
Fixpoint digits (acc : Z) (s : string) : option Z :=
  match s with
  | EmptyString => Some acc
  | String c s' =>
      match digit c with
      | Some d => digits (10 * acc + d)%Z s'
      | None => None
      end
  end.

(** [float(s)] for the decimal numerals [12], [12.5], [12.] and [.5]. *)
Definition parse_decimal (s : string) : option Q :=
  match Py.split "." s with
  | [i] => if Py.truthy i then z ← digits 0 i; Some (Qmake z 1) else None
  | [i; f] =>
      if Py.truthy i || Py.truthy f then
        zi ← digits 0 i;
        zf ← digits 0 f;
        let scale := (10 ^ Z.of_nat (Py.len f))%Z in
        Some (Qred (Qmake (zi * scale + zf) (Z.to_pos scale)))
      else None
  | _ => None
  end.

(** A cell read as a number: a decimal numeral with an optional sign. *)
Definition parse_cell (s : string) : option Q :=
  match s with
  | String "-" s' => Qopp <$> parse_decimal s'
  | _ => parse_decimal s
  end.

Definition read_csv (text : string) : option (list (list string)) :=
  let lines :=
    List.filter (fun line => Py.truthy (Py.strip line)) (Py.split (ascii_of_nat 10) text) in
  let rows := map (Py.split ",") lines in
  match rows with
  | [] => None
  | first :: _ =>
      if forallb (fun row => length row <=? length first) rows
      then Some rows else None
  end.

(** The number of distinct values of a column, empty cells left out;
    a column of numerals is compared by value. *)
Definition nunique (cells : list string) : nat :=
  let present := List.filter Py.truthy cells in
  match mapM parse_cell present with
  | Some qs =>
      length (fold_left (fun seen q => if existsb (Qeq_bool q) seen then seen else q :: seen)
                        qs [])
  | None =>
      length (fold_left (fun seen s => if existsb (String.eqb s) seen then seen else s :: seen)
                        present [])
  end.

Definition first_column_nunique (df : list (list string)) : option nat :=
  Some (nunique (map (fun row => List.hd EmptyString row) df)).

Definition qsum (qs : list Q) : Q := fold_left Qplus qs (Qmake 0 1).

Definition last_column_numeric_mean (df : list (list string)) : option num :=
  let width := length (List.hd [] df) in
  let cells := map (fun row => List.nth (width - 1) row EmptyString) df in
  let values := omap parse_cell cells in
  match values with
  | [] => Some NaN
  | _ :: _ => Some (Fin (Qred (Qdiv (qsum values) (Qmake (Z.of_nat (length values)) 1))))
  end.

Definition py_float (s : string) : option num := Fin <$> parse_decimal s.

Definition gt0 (x : num) : bool :=
  match x with NaN => false | Fin q => (0 <? Qnum q)%Z end.

Definition of_nat (n : nat) : num := Fin (Qmake (Z.of_nat n) 1).

Definition fadd (x y : num) : num :=
  match x, y with
  | Fin a, Fin b => Fin (Qred (Qplus a b))
  | _, _ => NaN
  end.

Definition fdiv (x y : num) : num :=
  match x, y with
  | Fin a, Fin b => if (Qnum b =? 0)%Z then NaN else Fin (Qred (Qdiv a b))
  | _, _ => NaN
  end.

(** Two decimals, ties to even. *)
Definition format_2f (x : num) : string :=
  match x with
  | NaN => "nan"
  | Fin q =>
      let a := (Z.abs (Qnum q) * 100)%Z in
      let b := Z.pos (Qden q) in
      let fl := (a / b)%Z in
      let r := (a mod b)%Z in
      let n := if (b <? 2 * r)%Z then (fl + 1)%Z
               else if (2 * r =? b)%Z then (if Z.even fl then fl else fl + 1)%Z
               else fl in
      let cents := Z.to_nat (n mod 100) in
      (if (Qnum q <? 0)%Z then "-" else EmptyString)
      +:+ Py.str_nat (Z.to_nat (n / 100)) +:+ "."
      +:+ (if cents <? 10 then "0" else EmptyString) +:+ Py.str_nat cents
  end.

(** Iteration of a set in the order of [elements]. *)
Definition set_iter (s : gset string) : list string := elements s.

End Exact.

Definition exact_pandas : Pandas :=
  {| DataFrame := list (list string);
     Float := Exact.num;
     read_csv := Exact.read_csv;
     first_column_nunique := Exact.first_column_nunique;
     last_column_numeric_mean := Exact.last_column_numeric_mean;
     py_float := Exact.py_float;
     gt0 := Exact.gt0;
     of_nat := Exact.of_nat;
     fadd := Exact.fadd;
     fdiv := Exact.fdiv;
     format_2f := Exact.format_2f |}.

(** [Py.join] over lines, for writing test data. *)
Definition unlines (l : list string) : string := Py.join Py.nl l.

Definition mkdoc (filename text : string) : Doc :=
  {[ "filename" := filename; "text" := text ]}.

Definition mkdoc_exp (experiment filename text : string) : Doc :=
  <[ "experiment_name" := experiment ]> (mkdoc filename text).


(** ** The experiment store and the re-run job
       ([routes/experiment_details.py], lines 31-90) *)

(** What the job calls outside this repository. *)
Record Job := {
  (** [ObjectId(simulation_id)] *)
  ObjectId : string -> Res string;
  (** The members of the enumeration [Routing], and [Routing[name]]. *)
  Routing : Type;
  Routing_getitem : string -> Res Routing;
  (** [int(s)] *)
  py_int : string -> Res Z;
  (** [local_run_single_job(seed=, n_core_failures=, ring_size=, model=, alg=)],
      when it terminates. *)
  local_run_single_job : Z -> Z -> Z -> string -> Routing -> Res unit;
  (** [datetime.now().isoformat()] *)
  now_isoformat : string
}.

Inductive Event : Type :=
| EvUpdate (oid : string) (fields : gmap string string)
| EvFind (oid : string)
| EvJob (seed n_core_failures ring_size : Z)
| EvSpawn (simulation_id : string).

(** The collection of experiment records by object id, the threads that
    were started and have not run yet, and the log of what happened. *)
Record System := {
  store : gmap string (gmap string string);
  threads : list string;
  log : list Event
}.

Definition emit (e : Event) : St System unit :=
  fun sys =>
    (Ok tt, {| store := store sys; threads := threads sys; log := log sys ++ [e] |}).

(** [experiments_collection.update_one({"_id": oid}, {"$set": fields})]:
    the fields of the matching record are overwritten; no record matches,
    nothing changes. *)
Definition update_one (oid : string) (fields : gmap string string) : St System unit :=
  fun sys =>
    (Ok tt, {| store := alter (fun experiment => fields ∪ experiment) oid (store sys);
               threads := threads sys;
               log := log sys ++ [EvUpdate oid fields] |}).

(** [experiments_collection.find_one({"_id": oid})] *)
Definition find_one (oid : string) : St System (option (gmap string string)) :=
  fun sys =>
    (Ok (store sys !! oid),
     {| store := store sys; threads := threads sys; log := log sys ++ [EvFind oid] |}).

(** [threading.Thread(target=...).start()] *)
Definition spawn (simulation_id : string) : St System unit :=
  fun sys =>
    (Ok tt, {| store := store sys;
               threads := threads sys ++ [simulation_id];
               log := log sys ++ [EvSpawn simulation_id] |}).

(** [d[key]], raising [KeyError]. *)
Definition getitem (d : gmap string string) (key : string) : Res string :=
  match d !! key with
  | Some v => Ok v
  | None => Raise ("'" +:+ key +:+ "'")
  end.

(** The [ValueError] of unpacking [n] values into five names. *)
Definition unpack_error (n : nat) : string :=
  if n <? 5
  then "not enough values to unpack (expected 5, got " +:+ Py.str_nat n +:+ ")"
  else "too many values to unpack (expected 5)".

Section ReRun.

Context (J : Job).

(** Lines 44-76: the [try] block of the background function. *)
Definition run_job (simulation_id : string) : St System unit :=
  oid ← lift (ObjectId J simulation_id);
  experiment ← find_one oid;
  match experiment with
  | None => mret tt
  | Some experiment =>
      params ← lift (getitem experiment "params");
      match Py.split "," params with
      | [num_jobs; num_cores; ring_size; routing_str; seed] =>
          let model := "BLOOM" in
          routing_enum ← lift (Routing_getitem J routing_str);
          seed ← lift (py_int J seed);
          n_core_failures ← lift (py_int J num_cores);
          ring_size ← lift (py_int J ring_size);
          _ ← emit (EvJob seed n_core_failures ring_size);
          _ ← lift (local_run_single_job J seed n_core_failures ring_size model routing_enum);
          oid ← lift (ObjectId J simulation_id);
          update_one oid {[ "state" := "Finished"; "end_time" := now_isoformat J ]}
      | fields => raise (unpack_error (length fields))
      end
  end.

(** Lines 42-82. *)
Definition run_in_background (simulation_id : string) : St System unit :=
  try_catch (run_job simulation_id)
    (fun msg =>
       oid ← lift (ObjectId J simulation_id);
       update_one oid {[ "state" := "Error"; "error" := msg ]}).

(** Lines 31-90. The messages written to the page are left out. *)
Definition re_run_experiment (simulation_id : string) : St System unit :=
  oid ← lift (ObjectId J simulation_id);
  _ ← update_one oid {[ "state" := "Re-Running" ]};
  spawn simulation_id.

(** What can happen next in the system: the scheduler runs one started
    thread to its end, or the page asks for one more re-run. *)
Inductive Label : Type :=
| RunThread (simulation_id : string)
| ReRunRequest (simulation_id : string).

Inductive step : Label -> System -> System -> Prop :=
| step_thread (sys : System) (before after : list string) (simulation_id : string) :
    threads sys = before ++ simulation_id :: after ->
    step (RunThread simulation_id) sys
         (snd (run_in_background simulation_id
                 {| store := store sys; threads := before ++ after; log := log sys |}))
| step_rerun (sys : System) (simulation_id : string) :
    step (ReRunRequest simulation_id) sys (snd (re_run_experiment simulation_id sys)).

Definition any_step (sys sys' : System) : Prop := exists l, step l sys sys'.

End ReRun.

(** The state of a record of the store. *)
Definition state_of (sys : System) (oid : string) : option string :=
  store sys !! oid ≫= (.!! "state").

Definition field_of (sys : System) (oid key : string) : option string :=
  store sys !! oid ≫= (.!! key).

(** ** The store when its calls may raise

    The calls of lines 36, 44, 67 and 79 go to a database server. Here
    they may raise: [faults sys c] is the text of the exception that the
    call [c] raises when the system is [sys], and [None] when the call
    goes through. A call that raises changes nothing. As above, the
    collection itself exists, so that the arguments of a call are
    evaluated before the call can raise. With no fault these are the
    functions above. *)

Inductive StoreCall : Type :=
| FindOne (oid : string)
| UpdateOne (oid : string) (fields : gmap string string).

Module Unreliable.

Section Store.

Context (J : Job).
Context (faults : System -> StoreCall -> option string).

(** [experiments_collection.update_one({"_id": oid}, {"$set": fields})] *)
Definition update_one (oid : string) (fields : gmap string string) : St System unit :=
  fun sys =>
    match faults sys (UpdateOne oid fields) with
    | Some msg => (Raise msg, sys)
    | None =>
        (Ok tt, {| store := alter (fun experiment => fields ∪ experiment) oid (store sys);
                   threads := threads sys;
                   log := log sys ++ [EvUpdate oid fields] |})
    end.

(** [experiments_collection.find_one({"_id": oid})] *)
Definition find_one (oid : string) : St System (option (gmap string string)) :=
  fun sys =>
    match faults sys (FindOne oid) with
    | Some msg => (Raise msg, sys)
    | None =>
        (Ok (store sys !! oid),
         {| store := store sys; threads := threads sys; log := log sys ++ [EvFind oid] |})
    end.

(** Lines 44-76: the [try] block of the background function. *)
Definition run_job (simulation_id : string) : St System unit :=
  oid ← lift (ObjectId J simulation_id);
  experiment ← find_one oid;
  match experiment with
  | None => mret tt
  | Some experiment =>
      params ← lift (getitem experiment "params");
      match Py.split "," params with
      | [num_jobs; num_cores; ring_size; routing_str; seed] =>
          let model := "BLOOM" in
          routing_enum ← lift (Routing_getitem J routing_str);
          seed ← lift (py_int J seed);
          n_core_failures ← lift (py_int J num_cores);
          ring_size ← lift (py_int J ring_size);
          _ ← emit (EvJob seed n_core_failures ring_size);
          _ ← lift (local_run_single_job J seed n_core_failures ring_size model routing_enum);
          oid ← lift (ObjectId J simulation_id);
          update_one oid {[ "state" := "Finished"; "end_time" := now_isoformat J ]}
      | fields => raise (unpack_error (length fields))
      end
  end.

(** Lines 42-82: the handler's own [update_one] is outside every [try];
    when it raises, the thread ends with the exception. *)
Definition run_in_background (simulation_id : string) : St System unit :=
  try_catch (run_job simulation_id)
    (fun msg =>
       oid ← lift (ObjectId J simulation_id);
       update_one oid {[ "state" := "Error"; "error" := msg ]}).

(** Lines 31-90. *)
Definition re_run_experiment (simulation_id : string) : St System unit :=
  oid ← lift (ObjectId J simulation_id);
  _ ← update_one oid {[ "state" := "Re-Running" ]};
  spawn simulation_id.

Inductive step : Label -> System -> System -> Prop :=
| step_thread (sys : System) (before after : list string) (simulation_id : string) :
    threads sys = before ++ simulation_id :: after ->
    step (RunThread simulation_id) sys
         (snd (run_in_background simulation_id
                 {| store := store sys; threads := before ++ after; log := log sys |}))
| step_rerun (sys : System) (simulation_id : string) :
    step (ReRunRequest simulation_id) sys (snd (re_run_experiment simulation_id sys)).

Definition any_step (sys sys' : System) : Prop := exists l, step l sys sys'.

End Store.

End Unreliable.

(** No call on the store raises. *)
Definition reliable : System -> StoreCall -> option string := fun _ _ => None.

(** ** The specification's reading of the multi-experiment flag *)

(** The number of distinct [experiment_name] values across the pool, an
    empty name counting as absent. *)
Definition distinct_experiment_names (pool : list Doc) : nat :=
  length (remove_dups (List.filter Py.truthy (omap (.!! "experiment_name") pool))).

(** ** Notions used in the statements *)

(** [a] occurs in [b]. *)
Definition substr (a b : string) : Prop := exists p q, b = p +:+ a +:+ q.

Ltac unfold_monad :=
  unfold mbind, St_bind, mret, St_ret, bind, ret, raise, try_catch, lift, call in *.

Definition run_dir_given (run_dir : option string) : bool :=
  match run_dir with
  | Some dir => Py.truthy dir
  | None => false
  end.

(** Lines 56-66 hand the query on to the rest of the pipeline: it is no
    bandwidth query, no run directory came with it, or the bandwidth
    analysis could not be imported or raised. *)
Definition analysis_declines (W : World) (query : string) (run_dir : option string) : Prop :=
  is_bandwidth_query query = false
  \/ run_dir_given run_dir = false
  \/ (exists msg, import_bandwidth_analysis W = Raise msg)
  \/ (exists dir msg,
        run_dir = Some dir /\ analyze_bandwidth_for_chat W dir query = Raise msg).

(** [if text:] at line 98. *)
Definition has_text (doc : Doc) : bool := Py.truthy (get doc "text" EmptyString).

(** [if experiment_name:] at line 99. *)
Definition has_experiment (doc : Doc) : bool :=
  Py.truthy (get doc "experiment_name" EmptyString).

(** Lines 114-117: the header, an ellipsis marker and the tail. *)
Definition structural_excerpt (text : string) : string :=
  let lines := Py.split (ascii_of_nat 10) text in
  Py.join Py.nl (List.firstn 5 lines ++ ["..."] ++ Py.last_n 3 lines).

Definition multi_header (doc : Doc) : string :=
  "From " +:+ get doc "experiment_name" EmptyString +:+ " - "
  +:+ get doc "filename" "unknown file"
  +:+ " (Parameters: " +:+ get doc "experiment_params" EmptyString +:+ "):" +:+ Py.nl.

Definition single_header (doc : Doc) : string :=
  "From " +:+ get doc "filename" "unknown file" +:+ ":" +:+ Py.nl.

(** The non-empty experiment names of a pool, in pool order. *)
Definition experiment_names (pool : list Doc) : list string :=
  List.filter Py.truthy (omap (.!! "experiment_name") pool).

Definition no_generation_call (trace : list Call) : bool :=
  forallb (fun c => negb (is_generation_call c)) trace.

(** The message for an empty retrieval, by the path that asked for it. *)
Definition no_data_message (query : string) : string :=
  if is_reasoning_query query then no_data_to_reason_about else no_data_to_answer.

(** The pool that lines 74-85 and 276-287 select: the multi-experiment
    documents when there are any, else the single-experiment ones. *)
Definition selected_pool (W : World) : option (list Doc) :=
  match get_all_multi_experiment_documents W with
  | Ok (doc :: docs) => Some (doc :: docs)
  | Ok [] =>
      match get_all_single_experiment_documents W with
      | Ok (doc :: docs) => Some (doc :: docs)
      | _ => None
      end
  | Raise _ => None
  end.

(** The line of the sources block that stands for a document. *)
Definition source_line (multi : bool) (doc : Doc) : string :=
  if multi
  then "- " +:+ get doc "experiment_name" "Unknown" +:+ "/" +:+ get doc "filename" "unknown"
  else "- " +:+ get doc "filename" "unknown file".

(** The envelope of lines 224 and 237. *)
Definition sources_envelope (response info : string) : string :=
  response +:+ Py.nl +:+ Py.nl +:+ "<sources>" +:+ Py.nl +:+ info +:+ Py.nl +:+ "</sources>".

(** The envelope of line 312. *)
Definition thinking_envelope (reasoning result : string) : string :=
  "<thinking>" +:+ Py.nl +:+ reasoning +:+ Py.nl +:+ "</thinking>"
  +:+ Py.nl +:+ Py.nl +:+ result.

#[global] Instance Res_ret : MRet Res := @Ok.
#[global] Instance Res_bind : MBind Res :=
  fun A B k r => match r with Ok a => k a | Raise msg => Raise msg end.

(** What lines 49-64 compute from the record that was found: the
    parameters are read and parsed, then the job runs. *)
Definition job_outcome (J : Job) (experiment : gmap string string) : Res unit :=
  params ← getitem experiment "params";
  match Py.split "," params with
  | [num_jobs; num_cores; ring_size; routing_str; seed] =>
      routing_enum ← Routing_getitem J routing_str;
      seed ← py_int J seed;
      n_core_failures ← py_int J num_cores;
      ring_size ← py_int J ring_size;
      local_run_single_job J seed n_core_failures ring_size "BLOOM" routing_enum
  | fields => Raise (unpack_error (length fields))
  end.

(** A record that exists keeps existing, with the same parameters. *)
Definition record_kept (oid : string) (experiment : gmap string string) (sys : System)
  : Prop :=
  exists e, store sys !! oid = Some e /\ e !! "params" = experiment !! "params".

(** ** Data for the examples *)

(** A world for the examples: no multi-experiment data, one single-experiment
    document, both generation backends down. *)
Definition demo_world : World :=
  {| FRAMEWORK_CONTEXT := "Network, Node, Link, Flow.";
     USE_LOCAL_MODEL := None;
     import_bandwidth_analysis := Ok tt;
     analyze_bandwidth_for_chat := fun _ _ => Ok "Average bandwidth: 20.00";
     import_think_step_by_step := Ok tt;
     think_step_by_step := fun _ _ => Ok ("First I read the file.", "There are 3 nodes.");
     get_all_multi_experiment_documents := Ok [];
     get_all_single_experiment_documents :=
       Ok [mkdoc "node_info.csv" (unlines ["A,1"; "A,2"; "B,3"; "C,4"])];
     ollama_response := fun _ => Raise "connection refused";
     text_generation := fun _ => Raise "service unavailable" |}.

(** The same world with no data at all. *)
Definition empty_world : World :=
  {| FRAMEWORK_CONTEXT := FRAMEWORK_CONTEXT demo_world;
     USE_LOCAL_MODEL := None;
     import_bandwidth_analysis := Ok tt;
     analyze_bandwidth_for_chat := analyze_bandwidth_for_chat demo_world;
     import_think_step_by_step := Ok tt;
     think_step_by_step := think_step_by_step demo_world;
     get_all_multi_experiment_documents := Ok [];
     get_all_single_experiment_documents := Ok [];
     ollama_response := ollama_response demo_world;
     text_generation := text_generation demo_world |}.

(** The demo world with a bandwidth analysis that raises. *)
Definition unanalysed_world : World :=
  {| FRAMEWORK_CONTEXT := FRAMEWORK_CONTEXT demo_world;
     USE_LOCAL_MODEL := None;
     import_bandwidth_analysis := Ok tt;
     analyze_bandwidth_for_chat := fun _ _ => Raise "Flow_Bandwidth.csv is missing";
     import_think_step_by_step := Ok tt;
     think_step_by_step := think_step_by_step demo_world;
     get_all_multi_experiment_documents := get_all_multi_experiment_documents demo_world;
     get_all_single_experiment_documents := get_all_single_experiment_documents demo_world;
     ollama_response := ollama_response demo_world;
     text_generation := text_generation demo_world |}.

(** A pool of 51 documents of one experiment. *)
Definition demo_pool_51 : list Doc :=
  repeat (mkdoc_exp "exp1" "notes.txt" "ring size 4, ecmp") 51.

(** Notes of 1499 characters. *)
Definition demo_long_notes : string := Py.join " " (repeat "flow" 300).

(** A pool of 51 documents of one experiment, each longer than every
    excerpt. *)
Definition demo_pool_51_long : list Doc :=
  repeat (mkdoc_exp "exp1" "notes.txt" demo_long_notes) 51.

(** A table of flows with a header and eleven rows. *)
Definition demo_long_csv : string :=
  unlines ["id,bw"; "1,10"; "2,20"; "3,30"; "4,40"; "5,50"; "6,60";
           "7,70"; "8,80"; "9,90"; "10,100"; "11,110"].

(** Two experiments, the second of which contributed an empty file. *)
Definition demo_pool_empty_text : list Doc :=
  [mkdoc_exp "exp1" "flows.csv" "1,10"; mkdoc_exp "exp2" "flows.csv" EmptyString].

Definition demo_pool : list Doc :=
  [mkdoc "node_info.csv" (unlines ["A,1"; "A,2"; "B,3"; "C,4"])].

Definition demo_log : Doc := mkdoc "run.log" "simulation finished".

Definition demo_node_info : Doc :=
  mkdoc "node_info.csv" (unlines ["A,1"; "A,2"; "B,3"; "C,4"]).

(** A node table whose third row has one field too many, after a blank
    line. *)
Definition demo_ragged_node_info : Doc :=
  mkdoc "node_info.csv" (unlines ["n1,core"; EmptyString; "n2,edge,extra"]).

Definition demo_notes : Doc := mkdoc "notes.txt" "the bandwidth looks fine".

Definition demo_flow_bandwidth : Doc :=
  mkdoc "Flow_Bandwidth.csv" (unlines ["0,10"; "1,20"; "2,30"]).

(** The routing algorithms that the edit form offers (line 197). *)
Inductive RoutingAlg : Type :=
| ecmp
| ilp_solver
| simulated_annealing.

(** A job environment for the examples: ids of 24 characters are object
    ids, integers are runs of digits, the simulation returns. *)
Definition demo_job : Job :=
  {| ObjectId := fun s => if Py.len s =? 24 then Ok s else Raise "invalid ObjectId";
     Routing := RoutingAlg;
     Routing_getitem := fun name =>
       if String.eqb name "ecmp" then Ok ecmp
       else if String.eqb name "ilp_solver" then Ok ilp_solver
       else if String.eqb name "simulated_annealing" then Ok simulated_annealing
       else Raise ("'" +:+ name +:+ "'");
     py_int := fun s =>
       match Exact.digits 0 s with
       | Some z => if Py.truthy s then Ok z else Raise "invalid literal for int()"
       | None => Raise "invalid literal for int()"
       end;
     local_run_single_job := fun _ _ _ _ _ => Ok tt;
     now_isoformat := "2025-06-01T12:00:00" |}.

Definition demo_oid : string := "65f0a1b2c3d4e5f601234567".

Definition demo_system (params : string) : System :=
  {| store := {[ demo_oid := {[ "params" := params; "state" := "Finished" ]} ]};
     threads := [];
     log := [] |}.



(** ** More of [llm/generate.py] *)

Section LocalModel.

Context (P : Pandas) (set_iter : gset string -> list string) (W : World).
(** Lines 324-356: the tokenizer, the model and the decoding of its
    output; the value is the decoded [response]. *)
Context (local_decode : string -> Res string).

(** Lines 320-363. The handler calls [generate_with_api(prompt)], whose
    [context_docs] and [query] are then [None]. *)
Definition generate_with_local_model (prompt : string) : M string :=
  try_catch
    (response ← lift (local_decode prompt);
     let answer := Py.drop (Py.len prompt) response in
     mret (Py.strip answer))
    (fun _ => generate_with_api P set_iter W prompt [] EmptyString).

End LocalModel.

(** Lines 137-145: the two dicts of the multi-experiment prompt. *)
Definition files_by_experiment (context_docs : list Doc) : list (string * gset string) :=
  fst (fold_left manifest_step context_docs ([], [])).

Definition params_by_experiment (context_docs : list Doc) : list (string * string) :=
  snd (fold_left manifest_step context_docs ([], [])).

(** ** More of [routes/experiment_details.py] *)

(** What the functions write to the page. *)
Inductive Message : Type :=
| StSuccess (text : string)
| StError (text : string).






Section PageFunctions.

Context (J : Job).



(** [l[i]], raising [IndexError]. *)
Definition getitem_list (l : list string) (i : nat) : Res string :=
  match nth_error l i with
  | Some x => Ok x
  | None => Raise "list index out of range"
  end.

(** Lines 171-178: the table of parameters of the page. *)
Definition params_dict (params : string) : Res (list (string * string)) :=
  let params_array := Py.split "," params in
  num_jobs ← getitem_list params_array 0;
  num_cores ← getitem_list params_array 1;
  ring_size ← getitem_list params_array 2;
  routing ← getitem_list params_array 3;
  seed ← getitem_list params_array 4;
  Ok [("Num Jobs", num_jobs); ("Num Cores", num_cores); ("Ring Size", ring_size);
      ("Routing Algorithm", routing); ("Seed", seed)].

(** [l.index(x)] for an [x] that is in [l]. *)
Fixpoint list_index {A} (eqb : A -> A -> bool) (x : A) (l : list A) : nat :=
  match l with
  | [] => 0
  | y :: l' => if eqb y x then 0 else S (list_index eqb x l')
  end.

(** [possible.index(x) if x in possible else 0] *)
Definition preselect {A} (eqb : A -> A -> bool) (possible : list A) (x : A) : nat :=
  if existsb (fun y => eqb y x) possible then list_index eqb x possible else 0.

Definition possible_cores : list Z := [1; 4; 8]%Z.
Definition possible_ring : list Z := [2; 4; 8]%Z.
Definition possible_routings : list string := ["ecmp"; "ilp_solver"; "simulated_annealing"].

(** Line 188. *)
Definition core_index (params_array : list string) : Res nat :=
  field ← getitem_list params_array 1;
  value ← py_int J field;
  Ok (preselect Z.eqb possible_cores value).

(** Line 193. *)
Definition ring_index (params_array : list string) : Res nat :=
  field ← getitem_list params_array 2;
  value ← py_int J field;
  Ok (preselect Z.eqb possible_ring value).

(** Line 198. *)
Definition routing_index (params_array : list string) : Res nat :=
  field ← getitem_list params_array 3;
  Ok (preselect String.eqb possible_routings field).

End PageFunctions.

(** ** [db_client.py] *)

(** The outcome of [MongoClient(mongo_uri, serverSelectionTimeoutMS=5000)]
    followed by [client.admin.command('ping')]. *)
Inductive ConnectOutcome : Type :=
| Connected
| ServerSelectionTimeoutError (msg : string)
| OtherError (msg : string).

Inductive DbEvent : Type :=
| DbConnect (mongo_uri : string)
| DbMessage (m : Message).

(** Lines 9-29, without the cache of the decorator. The client is known
    by its URI. *)
Definition get_db_client (mongo_uri : option string)
    (connect : string -> ConnectOutcome) : option string * list DbEvent :=
  match mongo_uri with
  | Some uri =>
      if Py.truthy uri then
        match connect uri with
        | Connected =>
            (Some uri,
             [DbConnect uri; DbMessage (StSuccess "Successfully connected to MongoDB!")])
        | ServerSelectionTimeoutError msg =>
            (None,
             [DbConnect uri; DbMessage (StError ("Failed to connect to MongoDB: " +:+ msg))])
        | OtherError msg =>
            (None,
             [DbConnect uri;
              DbMessage (StError ("Unexpected error while connecting to MongoDB: " +:+ msg))])
        end
      else (None, [DbMessage (StError "MongoDB URI not found in environment variables!")])
  | None => (None, [DbMessage (StError "MongoDB URI not found in environment variables!")])
  end.

(** ** Notions used in the further statements *)

(** The number of occurrences of a character. *)
Fixpoint count_char (c : ascii) (s : string) : nat :=
  match s with
  | EmptyString => 0
  | String x s' => (if Ascii.eqb x c then 1 else 0) + count_char c s'
  end.

(** The filenames of the documents of one experiment, in pool order. *)
Definition filenames_of (exp_name : string) (pool : list Doc) : list string :=
  map (fun doc => get doc "filename" "unknown")
      (List.filter (fun doc => String.eqb (get doc "experiment_name" "Unknown") exp_name) pool).

(** The document belongs to the experiment [exp_name] of the manifests. *)
Definition named (exp_name : string) (doc : Doc) : bool :=
  String.eqb (get doc "experiment_name" "Unknown") exp_name.

(** The characters of a token of [findall_numbers]. *)
Fixpoint all_num_chars (s : string) : bool :=
  match s with
  | EmptyString => true
  | String c s' => is_num_char c && all_num_chars s'
  end.

(** No character of the text is a digit or a dot. *)
Fixpoint no_num_char (s : string) : bool :=
  match s with
  | EmptyString => true
  | String c s' => negb (is_num_char c) && no_num_char s'
  end.

(** A job was launched. *)
Definition is_job_event (e : Event) : bool :=
  match e with EvJob _ _ _ => true | _ => false end.

(** The exception that retrieval raises, if it does: the first call, or the
    second one when the first returned no document. *)
Definition retrieval_failure (W : World) : option string :=
  match get_all_multi_experiment_documents W with
  | Raise msg => Some msg
  | Ok [] =>
      match get_all_single_experiment_documents W with
      | Raise msg => Some msg
      | Ok _ => None
      end
  | Ok (_ :: _) => None
  end.

(** Line 295: the entry of a document in the context of the reasoner. *)
Definition reasoning_entry (doc : Doc) : string :=
  "From " +:+ get doc "filename" "unknown file" +:+ ":" +:+ Py.nl
  +:+ Py.take 1500 (get doc "text" EmptyString) +:+ "...".

(** A world whose retrieval raises. *)
Definition broken_world : World :=
  {| FRAMEWORK_CONTEXT := FRAMEWORK_CONTEXT demo_world;
     USE_LOCAL_MODEL := Some "TRUE";
     import_bandwidth_analysis := Ok tt;
     analyze_bandwidth_for_chat := analyze_bandwidth_for_chat demo_world;
     import_think_step_by_step := Ok tt;
     think_step_by_step := fun _ _ => Raise "model overloaded";
     get_all_multi_experiment_documents := Raise "index not found";
     get_all_single_experiment_documents := Ok [];
     ollama_response := fun _ => Ok "  42 nodes  ";
     text_generation := fun prompt => Ok (prompt +:+ " The answer is 3. ") |}.

(** The demo world with a reasoner that raises. *)
Definition unreasoning_world : World :=
  {| FRAMEWORK_CONTEXT := FRAMEWORK_CONTEXT demo_world;
     USE_LOCAL_MODEL := None;
     import_bandwidth_analysis := Ok tt;
     analyze_bandwidth_for_chat := analyze_bandwidth_for_chat demo_world;
     import_think_step_by_step := Ok tt;
     think_step_by_step := fun _ _ => Raise "model overloaded";
     get_all_multi_experiment_documents := get_all_multi_experiment_documents demo_world;
     get_all_single_experiment_documents := get_all_single_experiment_documents demo_world;
     ollama_response := ollama_response demo_world;
     text_generation := fun prompt => Ok (prompt +:+ " The answer is 3. ") |}.


(** * Properties *)

(** ** The primitives on examples *)

Example split_ex : Py.split "," "1,4,2,ecmp,7" = ["1"; "4"; "2"; "ecmp"; "7"].
Proof. reflexivity. Qed.

Example strip_split_ex :
  Py.split (ascii_of_nat 10) (Py.strip (" a" +:+ Py.nl +:+ Py.nl +:+ "b,c" +:+ Py.nl))
  = ["a"; EmptyString; "b,c"].
Proof. reflexivity. Qed.

Example lower_ex : Py.lower "Step BY Step" = "step by step".
Proof. reflexivity. Qed.

Example str_nat_ex : Py.str_nat 0 = "0" /\ Py.str_nat 42 = "42".
Proof. split; reflexivity. Qed.

Example format_2f_ex :
  Exact.format_2f (Exact.Fin (Qmake 20 1)) = "20.00"
  /\ Exact.format_2f (Exact.Fin (Qmake 1 8)) = "0.12"
  /\ Exact.format_2f (Exact.Fin (Qmake (-7) 2)) = "-3.50"
  /\ Exact.format_2f (Exact.Fin (Qmake 1999 1000)) = "2.00".
Proof. repeat split; vm_compute; reflexivity. Qed.

Example node_count_ex :
  fallback_parser exact_pandas Exact.set_iter "How many nodes are there?"
    [mkdoc "node_info.csv" (unlines ["A,1"; "A,2"; "B,3"; "C,4"])]
  = "Based on the node_info.csv file, there are 3 unique nodes in the simulation.".
Proof. vm_compute. reflexivity. Qed.

Example bandwidth_average_ex :
  fallback_parser exact_pandas Exact.set_iter "What is the average bandwidth?"
    [mkdoc "flow_bandwidth.csv" (unlines ["0,10"; "1,20"; "2,30"])]
  = "Based on flow_bandwidth.csv, the average bandwidth is approximately 20.00.".
Proof. vm_compute. reflexivity. Qed.

(** ** Facts about the string primitives *)

Section StringFacts.

Implicit Types a b c s t : string.

Lemma sapp_cons x s t : String x s +:+ t = String x (s +:+ t).
Proof. reflexivity. Qed.

Lemma sapp_nil_l s : EmptyString +:+ s = s.
Proof. reflexivity. Qed.

Lemma sapp_nil_r s : s +:+ EmptyString = s.
Proof. induction s as [|x s IH]; [reflexivity | now rewrite sapp_cons, IH]. Qed.

Lemma sapp_assoc a b c : (a +:+ b) +:+ c = a +:+ (b +:+ c).
Proof. induction a as [|x a IH]; [reflexivity | now rewrite !sapp_cons, IH]. Qed.

Lemma startswith_app a t : Py.startswith a (a +:+ t) = true.
Proof.
  induction a as [|x a IH]; [reflexivity |].
  rewrite sapp_cons; simpl. now rewrite Ascii.eqb_refl.
Qed.

Lemma startswith_inv a s : Py.startswith a s = true -> exists t, s = a +:+ t.
Proof.
  revert s; induction a as [|x a IH]; intros s H; simpl in *.
  - now exists s.
  - destruct s as [|y s]; [discriminate |].
    destruct (Ascii.eqb x y) eqn:E; [| discriminate].
    apply Ascii.eqb_eq in E; subst y.
    destruct (IH _ H) as [t ->]. now exists t.
Qed.

Lemma contains_substr a b : Py.contains a b = true <-> substr a b.
Proof.
  split.
  - induction b as [|y b IH]; simpl; intros H.
    + rewrite orb_false_r in H. apply startswith_inv in H as [t Ht].
      exists EmptyString, t. exact Ht.
    + apply orb_true_iff in H as [H | H].
      * apply startswith_inv in H as [t Ht]. exists EmptyString, t. exact Ht.
      * destruct (IH H) as (p & q & ->). now exists (String y p), q.
  - intros (p & q & ->). induction p as [|y p IH].
    + rewrite sapp_nil_l.
      destruct (a +:+ q) eqn:E; simpl; rewrite <- E; now rewrite startswith_app.
    + rewrite sapp_cons; simpl. rewrite IH. apply orb_true_r.
Qed.

Lemma substr_refl a : substr a a.
Proof. exists EmptyString, EmptyString. now rewrite sapp_nil_l, sapp_nil_r. Qed.

Lemma substr_app_r a b c : substr a b -> substr a (b +:+ c).
Proof.
  intros (p & q & ->). exists p, (q +:+ c). now rewrite !sapp_assoc.
Qed.

Lemma substr_app_l a b c : substr a b -> substr a (c +:+ b).
Proof.
  intros (p & q & ->). exists (c +:+ p), q. now rewrite !sapp_assoc.
Qed.

Lemma substr_trans a b c : substr a b -> substr b c -> substr a c.
Proof.
  intros (p & q & ->) (p' & q' & ->).
  exists (p' +:+ p), (q +:+ q'). now rewrite !sapp_assoc.
Qed.

Lemma substr_join sep x (l : list string) : In x l -> substr x (Py.join sep l).
Proof.
  induction l as [|y l IH]; [intros [] |].
  intros [-> | Hin].
  - destruct l; simpl; [apply substr_refl | apply substr_app_r, substr_refl].
  - destruct l as [|z l]; [destruct Hin |].
    change (Py.join sep (y :: z :: l)) with (y +:+ sep +:+ Py.join sep (z :: l)).
    apply substr_app_l, substr_app_l, IH, Hin.
Qed.

Lemma lower_app a b : Py.lower (a +:+ b) = Py.lower a +:+ Py.lower b.
Proof.
  induction a as [|x a IH]; [reflexivity |].
  rewrite sapp_cons; simpl. now rewrite IH, sapp_cons.
Qed.

(** A phrase that is already in lower case is found in the lowered query
    whenever it occurs in the query. *)
Lemma contains_lower phrase query :
  Py.lower phrase = phrase ->
  Py.contains phrase query = true -> Py.contains phrase (Py.lower query) = true.
Proof.
  intros Hl H. apply contains_substr in H as (p & q & ->).
  apply contains_substr. exists (Py.lower p), (Py.lower q).
  now rewrite !lower_app, Hl.
Qed.

(** A text without the separator is one line. *)
Lemma split_no_sep sep s :
  Py.contains (String sep EmptyString) s = false -> Py.split sep s = [s].
Proof.
  induction s as [|x s IH]; simpl; [reflexivity |].
  intros H. apply orb_false_iff in H as [H1 H2].
  destruct (Ascii.eqb sep x) eqn:E.
  - destruct s; discriminate.
  - rewrite Ascii.eqb_sym, E. now rewrite (IH H2).
Qed.

End StringFacts.

(** ** Classification and dispatch *)

Section Dispatch.

Context (P : Pandas) (set_iter : gset string -> list string) (W : World).

Lemma is_reasoning_query_iff query :
  is_reasoning_query query = true
  <-> exists phrase, In phrase reasoning_phrases
                     /\ Py.contains phrase (Py.lower query) = true.
Proof. unfold is_reasoning_query, Py.any. apply existsb_exists. Qed.

Lemma step_by_step_is_reasoning query :
  Py.contains "step by step" query = true -> is_reasoning_query query = true.
Proof.
  intros H. apply is_reasoning_query_iff. exists "step by step". split.
  - simpl; auto.
  - apply contains_lower; [reflexivity | exact H].
Qed.

(** The reasoning path handles every exception itself. *)
Lemma reasoning_returns query trace :
  exists answer trace',
    generate_response_with_reasoning W query trace = (Ok answer, trace').
Proof.
  unfold generate_response_with_reasoning, reason_over. unfold_monad.
  destruct (import_think_step_by_step W) as [[]|msg]; [| eauto].
  destruct (get_all_multi_experiment_documents W) as [multi|msg]; [| eauto].
  destruct (nonempty multi).
  - destruct (think_step_by_step W query _) as [[reasoning result]|msg]; eauto.
  - destruct (get_all_single_experiment_documents W) as [single|msg]; [| eauto].
    destruct (nonempty single); [| eauto].
    destruct (think_step_by_step W query _) as [[reasoning result]|msg]; eauto.
Qed.

(** What the bandwidth check of lines 56-66 does. *)
Lemma bandwidth_branch_skip query run_dir trace :
  is_bandwidth_query query = false \/ run_dir_given run_dir = false ->
  exists trace', bandwidth_branch W query run_dir trace = (Ok None, trace')
                 /\ trace' = trace.
Proof.
  unfold bandwidth_branch, run_dir_given. unfold_monad.
  intros [H | H].
  - rewrite H. eauto.
  - destruct (is_bandwidth_query query); [| eauto].
    destruct (import_bandwidth_analysis W) as [[]|msg]; [| eauto].
    destruct run_dir as [dir|]; [| eauto]. rewrite H. eauto.
Qed.

(** Lines 56-66 never raise: either the analysis returned and its value
    is the answer, or the query is handed on. *)
Lemma bandwidth_branch_cases query run_dir trace :
  (exists trace',
     bandwidth_branch W query run_dir trace = (Ok None, trace')
     /\ (trace' = trace \/ exists dir, trace' = trace ++ [CallBandwidthAnalysis dir query])
     /\ analysis_declines W query run_dir)
  \/ (exists answer dir,
        bandwidth_branch W query run_dir trace
        = (Ok (Some answer), trace ++ [CallBandwidthAnalysis dir query])
        /\ is_bandwidth_query query = true
        /\ run_dir = Some dir /\ Py.truthy dir = true
        /\ import_bandwidth_analysis W = Ok tt
        /\ analyze_bandwidth_for_chat W dir query = Ok answer).
Proof.
  unfold bandwidth_branch, analysis_declines, run_dir_given. unfold_monad.
  destruct (is_bandwidth_query query) eqn:Hbw;
    [| left; eexists; split; [reflexivity | split; [left; reflexivity | left; reflexivity]]].
  destruct (import_bandwidth_analysis W) as [[]|msg] eqn:Himp;
    [| left; eexists; split; [reflexivity | split; [left; reflexivity |]];
       right; right; left; eauto].
  destruct run_dir as [dir|];
    [| left; eexists; split; [reflexivity | split; [left; reflexivity |]];
       right; left; reflexivity].
  destruct (Py.truthy dir) eqn:Hdir;
    [| left; eexists; split; [reflexivity | split; [left; reflexivity |]];
       right; left; reflexivity].
  destruct (analyze_bandwidth_for_chat W dir query) as [answer|msg] eqn:Han.
  - right. exists answer, dir. repeat split; auto.
  - left. eexists. split; [reflexivity |]. split; [right; eexists; reflexivity |].
    right; right; right. exists dir, msg. auto.
Qed.

Lemma bandwidth_branch_declines query run_dir trace :
  analysis_declines W query run_dir ->
  exists trace',
    bandwidth_branch W query run_dir trace = (Ok None, trace')
    /\ (trace' = trace \/ exists dir, trace' = trace ++ [CallBandwidthAnalysis dir query]).
Proof.
  intros Hdec.
  destruct (bandwidth_branch_cases query run_dir trace)
    as [(t & Hb & Ht & _) | (a & dir & _ & Hbw & -> & Hdir & Himp & Han)]; [eauto |].
  exfalso. destruct Hdec as [H | [H | [[msg H] | (dir' & msg & [= <-] & H)]]];
    simpl in *; congruence.
Qed.

End Dispatch.

Section DispatchOrder.

Context (P : Pandas) (set_iter : gset string -> list string) (W : World).

(** C1 (amended). The bandwidth check of lines 56-66 comes before the
    reasoning check of line 69. A query that contains a reasoning phrase
    takes the reasoning branch when it fails the bandwidth criteria or
    comes without a run directory, and also when the bandwidth analysis
    cannot be imported or raises; when it meets the bandwidth criteria, a run directory is given
    and the analysis returns, the answer is the analysis and the reasoning
    branch is not entered. *)
Theorem reasoning_dispatch_after_bandwidth (query : string) (run_dir : option string)
    (phrase : string) :
  In phrase reasoning_phrases ->
  Py.contains phrase (Py.lower query) = true ->
  (is_bandwidth_query query = false \/ run_dir_given run_dir = false ->
   forall trace,
     generate_response P set_iter W query run_dir trace
     = generate_response_with_reasoning W query trace)
  /\ ((exists msg, import_bandwidth_analysis W = Raise msg) ->
      run (generate_response P set_iter W query run_dir)
      = run (generate_response_with_reasoning W query))
  /\ (forall dir msg,
        is_bandwidth_query query = true -> run_dir = Some dir -> Py.truthy dir = true ->
        import_bandwidth_analysis W = Ok tt ->
        analyze_bandwidth_for_chat W dir query = Raise msg ->
        run (generate_response P set_iter W query run_dir)
        = generate_response_with_reasoning W query [CallBandwidthAnalysis dir query])
  /\ (forall dir answer,
        is_bandwidth_query query = true -> run_dir = Some dir -> Py.truthy dir = true ->
        import_bandwidth_analysis W = Ok tt ->
        analyze_bandwidth_for_chat W dir query = Ok answer ->
        run (generate_response P set_iter W query run_dir)
        = (Ok answer, [CallBandwidthAnalysis dir query])).
Proof.
  intros Hin Hc.
  assert (Hr : is_reasoning_query query = true)
    by (apply is_reasoning_query_iff; eauto).
  split; [| split; [| split]].
  - intros Hskip trace.
    destruct (bandwidth_branch_skip W query run_dir trace Hskip) as (trace' & Hb & ->).
    destruct (reasoning_returns W query trace) as (answer & trace' & Hres).
    unfold generate_response. unfold_monad. now rewrite Hb, Hr, Hres.
  - intros [msg Himp].
    destruct (reasoning_returns W query []) as (answer & trace' & Hres).
    unfold run, generate_response, bandwidth_branch. unfold_monad.
    rewrite Himp, Hr. destruct (is_bandwidth_query query); simpl; now rewrite Hres.
  - intros dir msg Hbw -> Hdir Himp Han.
    destruct (reasoning_returns W query [CallBandwidthAnalysis dir query])
      as (answer & trace' & Hres).
    unfold run, generate_response, bandwidth_branch. unfold_monad.
    rewrite Hbw, Himp, Hdir, Han, Hr. simpl. now rewrite Hres.
  - intros dir answer Hbw -> Hdir Himp Han.
    unfold run, generate_response, bandwidth_branch. unfold_monad.
    now rewrite Hbw, Himp, Hdir, Han.
Qed.

End DispatchOrder.

Lemma reasoning_dispatch_after_bandwidth_witness :
  In "step by step" reasoning_phrases
  /\ Py.contains "step by step" (Py.lower "Explain STEP BY STEP how many nodes exist") = true
  /\ forall trace,
       generate_response exact_pandas Exact.set_iter demo_world
         "Explain STEP BY STEP how many nodes exist" None trace
       = generate_response_with_reasoning demo_world
           "Explain STEP BY STEP how many nodes exist" trace.
Proof.
  assert (H1 : In "step by step" reasoning_phrases) by (simpl; auto).
  assert (H2 : Py.contains "step by step"
                 (Py.lower "Explain STEP BY STEP how many nodes exist") = true)
    by reflexivity.
  split; [exact H1 | split; [exact H2 |]].
  apply (proj1 (reasoning_dispatch_after_bandwidth exact_pandas Exact.set_iter demo_world
                  "Explain STEP BY STEP how many nodes exist" None "step by step" H1 H2)).
  left. reflexivity.
Defined.

(** C1 as stated fails: this query contains "step by step" and meets the
    bandwidth criteria; with a run directory the pipeline returns the
    bandwidth analysis and never calls the reasoning backend. *)
Lemma reasoning_first_counterexample :
  is_reasoning_query "show step by step the average bandwidth" = true
  /\ is_bandwidth_query "show step by step the average bandwidth" = true
  /\ run (generate_response exact_pandas Exact.set_iter demo_world
            "show step by step the average bandwidth" (Some "runs/1"))
     = (Ok "Average bandwidth: 20.00",
        [CallBandwidthAnalysis "runs/1" "show step by step the average bandwidth"])
  /\ run (generate_response exact_pandas Exact.set_iter demo_world
            "show step by step the average bandwidth" (Some "runs/1"))
     <> run (generate_response_with_reasoning demo_world
               "show step by step the average bandwidth").
Proof.
  split; [reflexivity | split; [reflexivity | split; [reflexivity |]]].
  vm_compute. discriminate.
Qed.

(** ** Context aggregation *)

Section Aggregation.

Lemma aggregate_fold n docs acc :
  contexts (fold_left (aggregate_step n) docs acc)
  = contexts acc ++ map (context_entry n) (List.filter has_text docs)
  /\ filenames (fold_left (aggregate_step n) docs acc)
     = filenames acc
       ++ map (fun doc => get doc "filename" "unknown file") (List.filter has_text docs).
Proof.
  revert acc; induction docs as [|doc docs IH]; intros acc; simpl.
  - now rewrite !app_nil_r.
  - destruct (IH (aggregate_step n acc doc)) as [IHc IHf]. rewrite IHc, IHf.
    unfold aggregate_step, has_text.
    destruct (Py.truthy (get doc "text" EmptyString)); simpl.
    + now rewrite <- !app_assoc.
    + easy.
Qed.

(** The context holds one entry per document with a text, in pool order. *)
Lemma aggregate_contexts pool :
  contexts (aggregate pool)
  = map (context_entry (length pool)) (List.filter has_text pool).
Proof. unfold aggregate. now rewrite (proj1 (aggregate_fold _ _ _)). Qed.

Lemma aggregate_filenames pool :
  filenames (aggregate pool)
  = map (fun doc => get doc "filename" "unknown file") (List.filter has_text pool).
Proof. unfold aggregate. now rewrite (proj2 (aggregate_fold _ _ _)). Qed.

Lemma take_len n s : Py.len (Py.take n s) = Nat.min n (Py.len s).
Proof.
  revert s; induction n as [|n IH]; intros [|c s]; simpl; try reflexivity.
  now rewrite IH.
Qed.

(** More than one line means the text has a newline. *)
Lemma many_lines_contains_nl text :
  1 < length (Py.split (ascii_of_nat 10) text) -> Py.contains Py.nl text = true.
Proof.
  intros H. destruct (Py.contains Py.nl text) eqn:E; [reflexivity |].
  rewrite (split_no_sep _ _ E) in H. simpl in H. lia.
Qed.

Lemma multi_excerpt_structural n filename text :
  Py.endswith ".csv" filename = true ->
  10 < length (Py.split (ascii_of_nat 10) text) ->
  multi_excerpt n filename text = structural_excerpt text.
Proof.
  intros He Hl. unfold multi_excerpt, structural_excerpt.
  rewrite He, many_lines_contains_nl by lia. simpl.
  apply Nat.ltb_lt in Hl. now rewrite Hl.
Qed.

Lemma multi_excerpt_raw n filename text :
  Py.endswith ".csv" filename = false
  \/ length (Py.split (ascii_of_nat 10) text) <= 10 ->
  multi_excerpt n filename text = Py.take (text_length n) text.
Proof.
  intros H. unfold multi_excerpt.
  destruct (Py.endswith ".csv" filename); [| reflexivity].
  destruct H as [H | H]; [discriminate |].
  apply Nat.ltb_ge in H. rewrite H.
  now destruct (Py.contains Py.nl text).
Qed.

Lemma text_length_table n :
  (50 < n -> text_length n = 400)
  /\ (20 < n <= 50 -> text_length n = 600)
  /\ (n <= 20 -> text_length n = 1000).
Proof.
  unfold text_length.
  destruct (Nat.ltb_spec 50 n), (Nat.ltb_spec 20 n); repeat split; intros; lia.
Qed.

End Aggregation.

Lemma context_entry_in_contexts pool doc :
  In doc pool -> has_text doc = true ->
  In (context_entry (length pool) doc) (contexts (aggregate pool)).
Proof.
  intros Hin Ht. rewrite aggregate_contexts. apply in_map.
  apply filter_In. now split.
Qed.

Lemma context_entry_multi n doc :
  has_experiment doc = true ->
  context_entry n doc
  = multi_header doc
    +:+ multi_excerpt n (get doc "filename" "unknown file") (get doc "text" EmptyString)
    +:+ "...".
Proof.
  unfold has_experiment, context_entry, multi_header. intros ->.
  now rewrite !sapp_assoc.
Qed.

Lemma context_entry_single n doc :
  has_experiment doc = false ->
  context_entry n doc
  = single_header doc +:+ Py.take 1000 (get doc "text" EmptyString) +:+ "...".
Proof.
  unfold has_experiment, context_entry, single_header. intros ->.
  now rewrite !sapp_assoc.
Qed.

(** C3 (amended). The excerpt length is chosen document by document, by
    the experiment name of the document and not by the mode of the pool.
    A document that carries an experiment name and is not excerpted
    structurally gets the first [text_length n] characters of its text,
    where [n] is the size of the pool: 400 above 50 documents, 600 above
    20, 1000 otherwise, so that 51 and 21 fall in the smaller bucket and
    50 and 20 in the larger one; this holds in every pool, also in one
    with a single experiment name, whose multi-experiment flag is false.
    A document without an experiment name always gets the first 1000
    characters, also in a pool whose flag is true. *)
Theorem excerpt_length_by_pool_size (pool : list Doc) (doc : Doc) :
  In doc pool -> has_text doc = true ->
  let n := length pool in
  let filename := get doc "filename" "unknown file" in
  let text := get doc "text" EmptyString in
  In (context_entry n doc) (contexts (aggregate pool))
  /\ (has_experiment doc = true ->
      Py.endswith ".csv" filename = false
      \/ length (Py.split (ascii_of_nat 10) text) <= 10 ->
      context_entry n doc
      = multi_header doc +:+ Py.take (text_length n) text +:+ "..."
      /\ Py.len (Py.take (text_length n) text) = Nat.min (text_length n) (Py.len text))
  /\ (has_experiment doc = false ->
      context_entry n doc = single_header doc +:+ Py.take 1000 text +:+ "..."
      /\ Py.len (Py.take 1000 text) = Nat.min 1000 (Py.len text))
  /\ (50 < n -> text_length n = 400)
  /\ (20 < n <= 50 -> text_length n = 600)
  /\ (n <= 20 -> text_length n = 1000)
  /\ text_length 51 = 400 /\ text_length 21 = 600
  /\ text_length 50 = 600 /\ text_length 20 = 1000.
Proof.
  intros Hin Ht n filename text.
  split; [now apply context_entry_in_contexts |].
  split.
  { intros He Hraw. split; [| apply take_len].
    rewrite context_entry_multi by exact He.
    subst filename text. now rewrite multi_excerpt_raw. }
  split.
  { intros He. split; [| apply take_len]. now apply context_entry_single. }
  destruct (text_length_table n) as (T1 & T2 & T3).
  repeat split; auto.
Qed.

Lemma excerpt_length_by_pool_size_witness :
  In (mkdoc_exp "exp1" "notes.txt" demo_long_notes) demo_pool_51_long
  /\ has_text (mkdoc_exp "exp1" "notes.txt" demo_long_notes) = true
  /\ has_experiment (mkdoc_exp "exp1" "notes.txt" demo_long_notes) = true
  /\ Py.len demo_long_notes = 1499
  /\ context_entry 51 (mkdoc_exp "exp1" "notes.txt" demo_long_notes)
     = multi_header (mkdoc_exp "exp1" "notes.txt" demo_long_notes)
       +:+ Py.take 400 demo_long_notes +:+ "..."
  /\ Py.len (Py.take 400 demo_long_notes) = 400.
Proof.
  assert (H1 : In (mkdoc_exp "exp1" "notes.txt" demo_long_notes) demo_pool_51_long)
    by (left; reflexivity).
  assert (H2 : has_text (mkdoc_exp "exp1" "notes.txt" demo_long_notes) = true)
    by reflexivity.
  assert (H3 : has_experiment (mkdoc_exp "exp1" "notes.txt" demo_long_notes) = true)
    by reflexivity.
  split; [exact H1 | split; [exact H2 | split; [exact H3 | split; [reflexivity |]]]].
  exact (proj1 (proj2 (excerpt_length_by_pool_size demo_pool_51_long _ H1 H2))
           H3 (or_introl eq_refl)).
Defined.

(** C3 as stated fails: a pool of 51 documents of one experiment is in
    single-experiment mode (the flag is false and the prompt is built
    from the single-experiment template), and the excerpt of each
    document is cut to 400 characters, not to 1000. *)
Lemma excerpt_length_counterexample :
  length demo_pool_51_long = 51
  /\ Py.len demo_long_notes = 1499
  /\ is_multi_experiment demo_pool_51_long = false
  /\ build_prompt Exact.set_iter demo_world "Which routing was used?" demo_pool_51_long
     = single_prompt demo_world "Which routing was used?" demo_pool_51_long
  /\ contexts (aggregate demo_pool_51_long)
     = repeat (multi_header (mkdoc_exp "exp1" "notes.txt" demo_long_notes)
               +:+ Py.take 400 demo_long_notes +:+ "...") 51
  /\ Py.len (Py.take 400 demo_long_notes) = 400
  /\ Py.take 400 demo_long_notes <> Py.take 1000 demo_long_notes.
Proof.
  split; [reflexivity | split; [reflexivity | split; [vm_compute; reflexivity |]]].
  split; [unfold build_prompt;
          now replace (is_multi_experiment demo_pool_51_long) with false
            by (vm_compute; reflexivity) |].
  split; [vm_compute; reflexivity | split; [reflexivity |]].
  vm_compute. discriminate.
Qed.

(** C4 (amended). The excerpt is built from the header and the tail only
    for a document that carries an experiment name, whose filename ends in
    [.csv] and whose text has more than 10 lines; it then is the first 5
    lines, the marker [...] and the last 3 lines, whatever the pool size
    and the length of the text. A [.csv] text of at most 10 lines is cut
    to the raw prefix, and so is every document without an experiment
    name. *)
Theorem structural_excerpt_of_long_csv (pool : list Doc) (doc : Doc) :
  In doc pool -> has_text doc = true ->
  let n := length pool in
  let filename := get doc "filename" "unknown file" in
  let text := get doc "text" EmptyString in
  let lines := Py.split (ascii_of_nat 10) text in
  In (context_entry n doc) (contexts (aggregate pool))
  /\ (has_experiment doc = true -> Py.endswith ".csv" filename = true ->
      10 < length lines ->
      context_entry n doc
      = multi_header doc
        +:+ Py.join Py.nl (List.firstn 5 lines ++ ["..."] ++ Py.last_n 3 lines) +:+ "..."
      /\ length (List.firstn 5 lines ++ ["..."] ++ Py.last_n 3 lines) = 9)
  /\ (has_experiment doc = true -> length lines <= 10 ->
      context_entry n doc = multi_header doc +:+ Py.take (text_length n) text +:+ "...")
  /\ (has_experiment doc = false ->
      context_entry n doc = single_header doc +:+ Py.take 1000 text +:+ "...").
Proof.
  intros Hin Ht n filename text lines.
  split; [now apply context_entry_in_contexts |].
  split; [| split].
  - intros He Hcsv Hl. split.
    + rewrite context_entry_multi by exact He.
      subst filename text lines. now rewrite multi_excerpt_structural.
    + rewrite !length_app, length_firstn. unfold Py.last_n.
      rewrite length_skipn. change (length ["..."]) with 1. lia.
  - intros He Hl. rewrite context_entry_multi by exact He.
    subst filename text lines. now rewrite multi_excerpt_raw by (right; exact Hl).
  - intros He. now apply context_entry_single.
Qed.

Lemma structural_excerpt_of_long_csv_witness :
  In (mkdoc_exp "exp1" "flows.csv" demo_long_csv) [mkdoc_exp "exp1" "flows.csv" demo_long_csv]
  /\ has_text (mkdoc_exp "exp1" "flows.csv" demo_long_csv) = true
  /\ context_entry 1 (mkdoc_exp "exp1" "flows.csv" demo_long_csv)
     = "From exp1 - flows.csv (Parameters: ):" +:+ Py.nl
       +:+ unlines ["id,bw"; "1,10"; "2,20"; "3,30"; "4,40"; "..."; "9,90"; "10,100"; "11,110"]
       +:+ "...".
Proof.
  assert (H1 : In (mkdoc_exp "exp1" "flows.csv" demo_long_csv)
                  [mkdoc_exp "exp1" "flows.csv" demo_long_csv]) by (left; reflexivity).
  assert (H2 : has_text (mkdoc_exp "exp1" "flows.csv" demo_long_csv) = true) by reflexivity.
  split; [exact H1 | split; [exact H2 |]].
  destruct (structural_excerpt_of_long_csv _ _ H1 H2) as (_ & Hlong & _).
  destruct Hlong as [Hentry _]; [reflexivity | reflexivity | vm_compute; lia |].
  simpl length in Hentry. rewrite Hentry. vm_compute. reflexivity.
Defined.

(** C4 as stated fails: a [.csv] document of three lines is excerpted by
    the raw prefix, with no marker between a header and a tail. *)
Lemma structural_excerpt_counterexample :
  Py.endswith ".csv" "flows.csv" = true
  /\ Py.contains Py.nl (unlines ["id,bw"; "1,10"; "2,20"]) = true
  /\ contexts (aggregate [mkdoc_exp "exp1" "flows.csv" (unlines ["id,bw"; "1,10"; "2,20"])])
     = ["From exp1 - flows.csv (Parameters: ):" +:+ Py.nl
        +:+ unlines ["id,bw"; "1,10"; "2,20"] +:+ "..."]
  /\ multi_excerpt 1 "flows.csv" (unlines ["id,bw"; "1,10"; "2,20"])
     <> structural_excerpt (unlines ["id,bw"; "1,10"; "2,20"]).
Proof.
  split; [reflexivity | split; [reflexivity | split; [vm_compute; reflexivity |]]].
  vm_compute. discriminate.
Qed.

(** ** The multi-experiment flag *)

Section MultiFlag.

Lemma size_list_to_set_remove_dups (l : list string) :
  size (list_to_set l : gset string) = length (remove_dups l).
Proof.
  rewrite <- (size_list_to_set (C := gset string) (remove_dups l))
    by apply NoDup_remove_dups.
  f_equal. apply set_eq. intros x.
  now rewrite !elem_of_list_to_set, elem_of_remove_dups.
Qed.

Lemma experiment_names_cons doc pool :
  experiment_names (doc :: pool)
  = (if Py.truthy (get doc "experiment_name" EmptyString)
     then [get doc "experiment_name" EmptyString] else [])
    ++ experiment_names pool.
Proof.
  unfold experiment_names, get. simpl.
  destruct (doc !! "experiment_name") as [e|]; simpl; [| reflexivity].
  now destruct (Py.truthy e).
Qed.

Lemma fallback_experiments_fold pool (acc : gset string) :
  fold_left
    (fun found doc =>
       let experiment_name := get doc "experiment_name" EmptyString in
       if Py.truthy experiment_name then found ∪ {[experiment_name]} else found)
    pool acc
  = acc ∪ list_to_set (experiment_names pool).
Proof.
  revert acc; induction pool as [|doc pool IH]; intros acc.
  - simpl. set_solver.
  - simpl fold_left. rewrite IH, experiment_names_cons.
    destruct (Py.truthy (get doc "experiment_name" EmptyString)); simpl; set_solver.
Qed.

Lemma fallback_experiments_found_spec pool :
  fallback_experiments_found pool = list_to_set (experiment_names pool).
Proof.
  unfold fallback_experiments_found. rewrite fallback_experiments_fold. set_solver.
Qed.

(** The flag of the fallback parser (line 408) is true exactly when the
    pool has more than one distinct experiment name. *)
Lemma fallback_flag_counts_distinct_names pool :
  fallback_is_multi_experiment pool = true <-> 1 < distinct_experiment_names pool.
Proof.
  unfold fallback_is_multi_experiment, distinct_experiment_names.
  rewrite bool_decide_eq_true, fallback_experiments_found_spec.
  now rewrite size_list_to_set_remove_dups.
Qed.

Lemma aggregate_experiments_fold n pool acc :
  experiments_found (fold_left (aggregate_step n) pool acc)
  = experiments_found acc ∪ list_to_set (experiment_names (List.filter has_text pool)).
Proof.
  revert acc; induction pool as [|doc pool IH]; intros acc.
  - simpl. set_solver.
  - simpl fold_left. rewrite IH. unfold aggregate_step. simpl List.filter.
    unfold has_text.
    destruct (Py.truthy (get doc "text" EmptyString)); simpl; [| reflexivity].
    rewrite experiment_names_cons.
    destruct (Py.truthy (get doc "experiment_name" EmptyString)); simpl; set_solver.
Qed.

(** The flag of the pipeline (line 129) counts the experiment names of the
    documents that have a text. *)
Lemma pipeline_flag_counts_names_with_text pool :
  is_multi_experiment pool = true
  <-> 1 < distinct_experiment_names (List.filter has_text pool).
Proof.
  unfold is_multi_experiment, aggregate, distinct_experiment_names.
  rewrite bool_decide_eq_true, aggregate_experiments_fold. simpl.
  rewrite (left_id_L ∅ (∪)). now rewrite size_list_to_set_remove_dups.
Qed.

End MultiFlag.

(** C5, at a pool with an empty text: two distinct experiment names, the
    pipeline's flag (line 129) is false, the fallback parser's flag
    (line 408) on the same pool is true. *)
Theorem pipeline_flag_misses_empty_texts :
  distinct_experiment_names demo_pool_empty_text = 2
  /\ is_multi_experiment demo_pool_empty_text = false
  /\ fallback_is_multi_experiment demo_pool_empty_text = true.
Proof. repeat split; vm_compute; reflexivity. Qed.

(** ** Empty retrieval *)

Section EmptyRetrieval.

Context (P : Pandas) (set_iter : gset string -> list string) (W : World).

(** C6 (amended). When both retrieval calls return an empty pool the
    pipeline returns an ordinary string and calls no generation backend.
    Whenever retrieval was consulted, that string is the fixed message of
    the path: [no_data_to_answer] on the general path and
    [no_data_to_reason_about] on the reasoning path. A bandwidth query
    that the bandwidth analysis answers never reaches retrieval. *)
Theorem empty_retrieval_no_data_message (query : string) (run_dir : option string) :
  get_all_multi_experiment_documents W = Ok [] ->
  get_all_single_experiment_documents W = Ok [] ->
  exists answer trace,
    run (generate_response P set_iter W query run_dir) = (Ok answer, trace)
    /\ no_generation_call trace = true
    /\ (In CallGetAllSingle trace -> answer = no_data_message query)
    /\ (is_bandwidth_query query = false \/ run_dir_given run_dir = false ->
        is_reasoning_query query = false ->
        answer = no_data_to_answer /\ trace = [CallGetAllMulti; CallGetAllSingle])
    /\ (is_bandwidth_query query = false \/ run_dir_given run_dir = false ->
        is_reasoning_query query = true -> import_think_step_by_step W = Ok tt ->
        answer = no_data_to_reason_about /\ trace = [CallGetAllMulti; CallGetAllSingle]).
Proof.
  intros Hm Hs.
  unfold run, generate_response, bandwidth_branch, generate_response_with_reasoning,
    standard_response, no_data_message, run_dir_given.
  unfold_monad. rewrite Hm, Hs. simpl.
  destruct (is_bandwidth_query query) eqn:Hbw;
    [destruct (import_bandwidth_analysis W) as [[]|?];
     [destruct run_dir as [dir|];
      [destruct (Py.truthy dir) eqn:Hdir;
       [destruct (analyze_bandwidth_for_chat W dir query) as [a|?] |] |] |] |];
    simpl;
    destruct (is_reasoning_query query) eqn:Hr;
    try (destruct (import_think_step_by_step W) as [[]|?] eqn:Hi); simpl;
    eexists; eexists; (split; [reflexivity |]);
    (split; [reflexivity |]);
    (split; [intros Hin; simpl in Hin; intuition (try discriminate; auto) |]);
    split; intros Hskip; intros; try discriminate; try (destruct Hskip; discriminate);
    auto.
Qed.

End EmptyRetrieval.

Lemma empty_retrieval_no_data_message_witness :
  get_all_multi_experiment_documents empty_world = Ok []
  /\ get_all_single_experiment_documents empty_world = Ok []
  /\ exists answer trace,
       run (generate_response exact_pandas Exact.set_iter empty_world
              "How many nodes are there?" None) = (Ok answer, trace)
       /\ no_generation_call trace = true.
Proof.
  split; [reflexivity | split; [reflexivity |]].
  destruct (empty_retrieval_no_data_message exact_pandas Exact.set_iter empty_world
              "How many nodes are there?" None eq_refl eq_refl)
    as (answer & trace & Hrun & Hgen & _).
  exists answer, trace. split; [exact Hrun | exact Hgen].
Defined.

(** C6 as stated fails: a reasoning query over empty pools gets the
    message of the reasoning path, which is not the message of lines
    73-85. *)
Lemma empty_retrieval_counterexample :
  get_all_multi_experiment_documents empty_world = Ok []
  /\ get_all_single_experiment_documents empty_world = Ok []
  /\ run (generate_response exact_pandas Exact.set_iter empty_world
            "Please explain your thinking" None)
     = (Ok "I couldn't find any simulation data to reason about.",
        [CallGetAllMulti; CallGetAllSingle])
  /\ run (generate_response exact_pandas Exact.set_iter empty_world
            "Please explain your thinking" None)
     <> (Ok no_data_to_answer, [CallGetAllMulti; CallGetAllSingle]).
Proof.
  split; [reflexivity | split; [reflexivity | split; [reflexivity |]]].
  vm_compute. discriminate.
Qed.

(** ** The sources block *)

Section Sources.

Context (P : Pandas) (set_iter : gset string -> list string) (W : World).

(** Every document with a text has its line in the sources block; in a
    multi-experiment pool every document has. *)
Lemma sources_info_lists pool doc :
  In doc pool ->
  is_multi_experiment pool = true \/ has_text doc = true ->
  substr (source_line (is_multi_experiment pool) doc) (sources_info set_iter pool).
Proof.
  intros Hin Hcase. unfold sources_info, source_line.
  destruct (is_multi_experiment pool).
  - unfold multi_sources_info.
    do 9 apply substr_app_l. apply substr_app_r. apply substr_join.
    apply (in_map (fun doc => "- " +:+ get doc "experiment_name" "Unknown" +:+ "/"
                               +:+ get doc "filename" "unknown")), Hin.
  - destruct Hcase as [? | Ht]; [discriminate |].
    unfold single_sources_info.
    do 5 apply substr_app_l. apply substr_app_r. apply substr_join.
    rewrite aggregate_filenames, map_map.
    apply (in_map (fun doc => "- " +:+ get doc "filename" "unknown file")).
    apply filter_In. now split.
Qed.

(** Lines 207-241 on a non-empty pool: whatever the backend does, the
    answer is a response in the sources envelope. *)
Lemma answer_from_has_sources query pool trace :
  exists response trace',
    answer_from P set_iter W query pool trace
    = (Ok (sources_envelope response (sources_info set_iter pool)), trace')
    /\ (use_local W = false ->
        (exists msg, text_generation W (build_prompt set_iter W query pool) = Raise msg) ->
        nonempty pool = true -> Py.truthy query = true ->
        response = fallback_parser P set_iter query pool).
Proof.
  unfold answer_from, generate_with_ollama, generate_with_api, with_sources,
    sources_envelope.
  unfold_monad.
  destruct (use_local W).
  - destruct (ollama_response W _); eexists; eexists;
      (split; [reflexivity | discriminate]).
  - destruct (text_generation W _) as [r|msg] eqn:Hgen.
    + eexists; eexists. split; [reflexivity |]. intros _ [msg' Hm]. discriminate.
    + destruct (nonempty pool && Py.truthy query) eqn:Hc;
        eexists; eexists; (split; [reflexivity |]); intros _ _ Hp Hq.
      * reflexivity.
      * rewrite Hp, Hq in Hc. discriminate.
Qed.

Lemma standard_response_selected query pool trace :
  selected_pool W = Some pool ->
  standard_response P set_iter W query trace
  = answer_from P set_iter W query pool
      (match get_all_multi_experiment_documents W with
       | Ok [] => trace ++ [CallGetAllMulti] ++ [CallGetAllSingle]
       | _ => trace ++ [CallGetAllMulti]
       end).
Proof.
  unfold selected_pool, standard_response. unfold_monad.
  destruct (get_all_multi_experiment_documents W) as [[|d ds]|?]; [| | discriminate].
  - destruct (get_all_single_experiment_documents W) as [[|d ds]|?]; try discriminate.
    intros [= <-]. simpl. now rewrite <- app_assoc.
  - intros [= <-]. reflexivity.
Qed.

(** C2 (amended). On the general path, for every non-empty pool and
    every query, the returned string is the response followed by a
    [<sources>] segment that lists every document of a multi-experiment
    pool and every document with a text of a single-experiment pool; this
    holds when the backend generated the response and when the remote
    backend raised and the response is the text of the fallback parser.
    On the reasoning path the returned string is the [<thinking>] segment
    followed by the result, and no sources segment is appended. Both
    paths are taken as they are reached: by a query that is no bandwidth
    query or has no run directory, and by one whose bandwidth analysis
    could not be imported or raised. *)
Theorem sources_block_on_general_path (query : string) (run_dir : option string)
    (pool : list Doc) :
  selected_pool W = Some pool ->
  analysis_declines W query run_dir ->
  (is_reasoning_query query = false ->
   exists response trace,
     run (generate_response P set_iter W query run_dir)
     = (Ok (sources_envelope response (sources_info set_iter pool)), trace)
     /\ (forall doc, In doc pool ->
           is_multi_experiment pool = true \/ has_text doc = true ->
           substr (source_line (is_multi_experiment pool) doc)
                  (sources_info set_iter pool))
     /\ (use_local W = false ->
         (exists msg, text_generation W (build_prompt set_iter W query pool) = Raise msg) ->
         Py.truthy query = true ->
         response = fallback_parser P set_iter query pool))
  /\ (is_reasoning_query query = true ->
      import_think_step_by_step W = Ok tt ->
      forall reasoning result,
        think_step_by_step W query (combined_context W pool) = Ok (reasoning, result) ->
        fst (run (generate_response P set_iter W query run_dir))
        = Ok (thinking_envelope reasoning result)).
Proof.
  intros Hsel Hdec.
  destruct (bandwidth_branch_declines W query run_dir [] Hdec) as (t0 & Hb & _).
  split.
  - intros Hr.
    destruct (answer_from_has_sources query pool
                (match get_all_multi_experiment_documents W with
                 | Ok [] => t0 ++ [CallGetAllMulti] ++ [CallGetAllSingle]
                 | _ => t0 ++ [CallGetAllMulti]
                 end)) as (response & trace' & Hans & Hfb).
    exists response, trace'. split; [| split].
    + unfold run, generate_response. unfold_monad. rewrite Hb, Hr.
      now rewrite (standard_response_selected query pool t0 Hsel), Hans.
    + intros doc Hin Hcase. now apply sources_info_lists.
    + intros Hl Hgen Hq. apply Hfb; auto.
      unfold selected_pool in Hsel.
      destruct (get_all_multi_experiment_documents W) as [[|d ds]|?];
        [destruct (get_all_single_experiment_documents W) as [[|d ds]|?] | |];
        try discriminate; now injection Hsel as <-.
  - intros Hr Hi reasoning result Hthink.
    unfold run, generate_response, generate_response_with_reasoning, reason_over,
      thinking_envelope.
    unfold_monad. rewrite Hb, Hr, Hi. unfold selected_pool in Hsel.
    destruct (get_all_multi_experiment_documents W) as [[|d ds]|?]; [| | discriminate].
    + destruct (get_all_single_experiment_documents W) as [[|d ds]|?]; try discriminate.
      injection Hsel as <-. simpl. now rewrite Hthink.
    + injection Hsel as <-. simpl. now rewrite Hthink.
Qed.

End Sources.

Lemma sources_block_on_general_path_witness :
  selected_pool unanalysed_world = Some demo_pool
  /\ is_bandwidth_query "How many nodes have an average bandwidth?" = true
  /\ analysis_declines unanalysed_world "How many nodes have an average bandwidth?"
       (Some "runs/1")
  /\ fst (run (generate_response exact_pandas Exact.set_iter unanalysed_world
                 "How many nodes have an average bandwidth?" (Some "runs/1")))
     = Ok (sources_envelope
             "Based on the node_info.csv file, there are 3 unique nodes in the simulation."
             (sources_info Exact.set_iter demo_pool)).
Proof.
  assert (H1 : selected_pool unanalysed_world = Some demo_pool) by reflexivity.
  assert (H2 : analysis_declines unanalysed_world
                 "How many nodes have an average bandwidth?" (Some "runs/1")).
  { right; right; right. exists "runs/1", "Flow_Bandwidth.csv is missing".
    split; reflexivity. }
  split; [exact H1 | split; [reflexivity | split; [exact H2 |]]].
  destruct (proj1 (sources_block_on_general_path exact_pandas Exact.set_iter
                     unanalysed_world "How many nodes have an average bandwidth?"
                     (Some "runs/1") demo_pool H1 H2) eq_refl)
    as (response & trace & Hrun & _ & Hfb).
  rewrite Hrun. simpl fst. f_equal. f_equal.
  rewrite Hfb; [vm_compute; reflexivity | reflexivity | | reflexivity].
  exists "service unavailable". reflexivity.
Defined.

(** C2 as stated fails: on the reasoning path the answer over a non-empty
    pool carries no sources block. *)
Lemma sources_block_counterexample :
  selected_pool demo_world = Some demo_pool
  /\ fst (run (generate_response exact_pandas Exact.set_iter demo_world
                 "Explain step by step how many nodes exist" None))
     = Ok ("<thinking>" +:+ Py.nl +:+ "First I read the file." +:+ Py.nl +:+ "</thinking>"
           +:+ Py.nl +:+ Py.nl +:+ "There are 3 nodes.")
  /\ Py.contains "<sources>"
       ("<thinking>" +:+ Py.nl +:+ "First I read the file." +:+ Py.nl +:+ "</thinking>"
        +:+ Py.nl +:+ Py.nl +:+ "There are 3 nodes.") = false.
Proof. repeat split; vm_compute; reflexivity. Qed.

(** ** The fallback parser *)

Section FallbackFacts.

Context (P : Pandas) (set_iter : gset string -> list string).

Lemma first_answer_skip body (pre rest : list Doc) :
  (forall d, In d pre -> body d = None) ->
  first_answer body (pre ++ rest) = first_answer body rest.
Proof.
  induction pre as [|d pre IH]; intros H; [reflexivity |].
  simpl. rewrite (H d) by (left; reflexivity).
  apply IH. intros d' Hd'. apply H. now right.
Qed.

Lemma first_answer_none body (pool : list Doc) :
  (forall d, In d pool -> body d = None) -> first_answer body pool = None.
Proof.
  intros H. rewrite <- (app_nil_r pool). now rewrite first_answer_skip.
Qed.

Lemma first_answer_some body (pool : list Doc) answer :
  first_answer body pool = Some answer ->
  exists d, In d pool /\ body d = Some answer.
Proof.
  induction pool as [|d pool IH]; [discriminate |].
  simpl. destruct (body d) as [a|] eqn:E.
  - intros [= <-]. exists d. split; [now left | exact E].
  - intros H. destruct (IH H) as (d' & Hin & Hd'). exists d'. split; [now right | exact Hd'].
Qed.

(** A document that is not [node_info.csv], or has no text, is passed over
    by the node-count handler. *)
Lemma node_count_answer_none doc :
  doc !! "filename" <> Some "node_info.csv" \/ has_text doc = false ->
  node_count_answer P doc = None.
Proof.
  unfold node_count_answer, has_text. intros [H | H].
  - now rewrite bool_decide_eq_false_2.
  - rewrite H. now destruct (bool_decide _).
Qed.

Lemma node_count_answer_some doc answer :
  node_count_answer P doc = Some answer ->
  doc !! "filename" = Some "node_info.csv"
  /\ Py.truthy answer = true
  /\ substr "node_info.csv" answer.
Proof.
  unfold node_count_answer. case_bool_decide as Hf; [| discriminate].
  destruct (Py.truthy (get doc "text" EmptyString)); [| discriminate].
  destruct (read_csv P _ ≫= first_column_nunique P); intros [= <-];
    (split; [exact Hf | split; [reflexivity |]]);
    apply contains_substr; reflexivity.
Qed.

(** The regular-expression handler answers exactly when every token is a
    float and some value is positive. *)
Lemma regex_average_some doc text floats :
  mapM (py_float P) (findall_numbers text) = Some floats ->
  List.filter (gt0 P) floats <> [] ->
  regex_average P doc text
  = Some ("Based on " +:+ fmt_get doc "filename"
          +:+ ", the average bandwidth is approximately "
          +:+ format_2f P (py_mean P (List.filter (gt0 P) floats)) +:+ ".").
Proof.
  intros Hm Hv. unfold regex_average.
  destruct (findall_numbers text) as [|tok toks] eqn:E.
  - simpl in Hm. injection Hm as <-. now destruct Hv.
  - rewrite Hm. destruct (List.filter (gt0 P) floats); [now destruct Hv | reflexivity].
Qed.

Lemma regex_average_none doc text :
  mapM (py_float P) (findall_numbers text) = None
  \/ (exists floats, mapM (py_float P) (findall_numbers text) = Some floats
                     /\ List.filter (gt0 P) floats = []) ->
  regex_average P doc text = None.
Proof.
  unfold regex_average. intros [Hm | (floats & Hm & Hv)]; rewrite Hm.
  - now destruct (findall_numbers text).
  - rewrite Hv. now destruct (findall_numbers text).
Qed.

Lemma fmt_get_filename doc :
  Py.contains "bandwidth" (Py.lower (get doc "filename" EmptyString)) = true ->
  fmt_get doc "filename" = get doc "filename" "unknown".
Proof.
  unfold fmt_get, get. destruct (doc !! "filename"); [reflexivity | discriminate].
Qed.

Lemma bandwidth_answer_some doc answer :
  bandwidth_answer P doc = Some answer ->
  Py.contains "bandwidth" (Py.lower (get doc "filename" EmptyString)) = true
  /\ Py.truthy answer = true
  /\ substr (get doc "filename" "unknown") answer.
Proof.
  unfold bandwidth_answer.
  destruct (Py.contains "bandwidth" _) eqn:Hb; [| discriminate].
  destruct (Py.truthy (get doc "text" EmptyString)); [| discriminate].
  assert (Hs : forall x, substr (get doc "filename" "unknown")
                 ("Based on " +:+ fmt_get doc "filename"
                  +:+ ", the average bandwidth is approximately " +:+ x +:+ ".")).
  { intros x. rewrite fmt_get_filename by exact Hb.
    apply substr_app_l, substr_app_r, substr_refl. }
  destruct (read_csv P _ ≫= last_column_numeric_mean P).
  - intros [= <-]. split; [reflexivity | split; [reflexivity | apply Hs]].
  - unfold regex_average. destruct (findall_numbers _); [discriminate |].
    destruct (mapM _ _); [| discriminate].
    destruct (List.filter _ _); [discriminate |].
    intros [= <-]. split; [reflexivity | split; [reflexivity | apply Hs]].
Qed.

(** Every filename of the pool is in one of the groups of lines 460-466. *)
Lemma dict_append_new k v d :
  exists vs, In (k, vs) (dict_append k v d) /\ In v vs.
Proof.
  induction d as [|[k' vs'] d IH]; simpl.
  - exists [v]. split; left; reflexivity.
  - destruct (String.eqb k' k) eqn:E.
    + apply String.eqb_eq in E; subst k'. exists (vs' ++ [v]). split.
      * now left.
      * apply in_or_app. right. now left.
    + destruct IH as (vs & Hin & Hv). exists vs. split; [now right | exact Hv].
Qed.

Lemma dict_append_keep k v d k0 vs0 v0 :
  In (k0, vs0) d -> In v0 vs0 ->
  exists vs, In (k0, vs) (dict_append k v d) /\ In v0 vs.
Proof.
  induction d as [|[k' vs'] d IH]; simpl; [intros [] |].
  intros [[= -> ->] | Hin] Hv.
  - destruct (String.eqb k0 k).
    + exists (vs0 ++ [v]). split; [now left | apply in_or_app; now left].
    + exists vs0. split; [now left | exact Hv].
  - destruct (IH Hin Hv) as (vs & Hin' & Hv').
    destruct (String.eqb k' k).
    + exists vs0. split; [now right | exact Hv].
    + exists vs. split; [now right | exact Hv'].
Qed.

Lemma experiment_files_fold pool acc k0 vs0 v0 :
  In (k0, vs0) acc -> In v0 vs0 ->
  exists vs,
    In (k0, vs)
       (fold_left
          (fun files doc =>
             dict_append (get doc "experiment_name" "Unknown")
                         (get doc "filename" "unknown") files)
          pool acc)
    /\ In v0 vs.
Proof.
  revert acc vs0; induction pool as [|doc pool IH]; intros acc vs0 Hin Hv; simpl.
  - now exists vs0.
  - destruct (dict_append_keep (get doc "experiment_name" "Unknown")
                (get doc "filename" "unknown") acc k0 vs0 v0 Hin Hv) as (vs & Hin' & Hv').
    now apply (IH _ vs).
Qed.

Lemma experiment_files_covers pool doc :
  In doc pool ->
  exists k vs, In (k, vs) (experiment_files pool)
               /\ In (get doc "filename" "unknown") vs.
Proof.
  unfold experiment_files. generalize (@nil (string * list string)) as acc.
  induction pool as [|d pool IH]; intros acc; [intros [] |].
  intros [-> | Hin]; simpl.
  - destruct (dict_append_new (get doc "experiment_name" "Unknown")
                (get doc "filename" "unknown") acc) as (vs & Hin & Hv).
    destruct (experiment_files_fold pool _ _ _ _ Hin Hv) as (vs' & Hin' & Hv').
    eauto.
  - now apply IH.
Qed.

(** The general summary is never empty and names every file of the pool. *)
Lemma general_fallback_names pool :
  Py.truthy (general_fallback set_iter pool) = true
  /\ forall doc, In doc pool ->
       substr (get doc "filename" "unknown") (general_fallback set_iter pool).
Proof.
  unfold general_fallback.
  destruct (fallback_is_multi_experiment pool); (split; [reflexivity |]); intros doc Hin.
  - destruct (experiment_files_covers pool doc Hin) as (k & vs & Hk & Hv).
    do 6 apply substr_app_l. apply substr_app_r.
    eapply substr_trans;
      [| apply substr_join,
           (in_map (fun '(exp_name, files) => exp_name +:+ ": " +:+ Py.join ", " files)),
           Hk].
    simpl. do 2 apply substr_app_l. now apply substr_join.
  - apply substr_app_l, substr_app_r, substr_join.
    now apply (in_map (fun doc => get doc "filename" "unknown")).
Qed.

End FallbackFacts.

Section FallbackClaims.

Context (P : Pandas) (set_iter : gset string -> list string).


(** C8 (amended). For a query with the node-count intent, the answer comes
    from the first document of the pool that is named [node_info.csv] and
    has a text: the count of distinct values of its first column when
    pandas parses it, and otherwise, labelled as approximate, the number
    of lines of the stripped text, blank lines between the first and the
    last line included. With no such document the answer is the general
    summary. *)
Theorem node_count_fallback (query : string) (pre post : list Doc) (doc : Doc) :
  node_intent (Py.lower query) = true ->
  (forall d, In d pre -> d !! "filename" <> Some "node_info.csv" \/ has_text d = false) ->
  doc !! "filename" = Some "node_info.csv" ->
  has_text doc = true ->
  let text := get doc "text" EmptyString in
  (forall node_count,
     read_csv P text ≫= first_column_nunique P = Some node_count ->
     fallback_parser P set_iter query (pre ++ doc :: post)
     = "Based on the node_info.csv file, there are " +:+ Py.str_nat node_count
       +:+ " unique nodes in the simulation.")
  /\ (read_csv P text ≫= first_column_nunique P = None ->
      fallback_parser P set_iter query (pre ++ doc :: post)
      = "Based on the node_info.csv file, there appear to be approximately "
        +:+ Py.str_nat (length (Py.split (ascii_of_nat 10) (Py.strip text)))
        +:+ " nodes in the simulation.")
  /\ fallback_parser P set_iter query pre = general_fallback set_iter pre.
Proof.
  intros Hn Hpre Hf Ht text.
  assert (Hskip : forall d, In d pre -> node_count_answer P d = None)
    by (intros d Hd; apply node_count_answer_none, Hpre, Hd).
  unfold fallback_parser. rewrite Hn, first_answer_skip by exact Hskip.
  rewrite (first_answer_none _ pre Hskip).
  simpl first_answer. unfold node_count_answer.
  rewrite bool_decide_eq_true_2 by exact Hf.
  unfold has_text in Ht. rewrite Ht. fold text.
  split; [| split; [| reflexivity]].
  - intros n Hparse. now rewrite Hparse.
  - intros Hparse. now rewrite Hparse.
Qed.

(** C7 (amended). For a query with the bandwidth-average intent and
    without the node-count intent (which the [if] tests first), the answer
    comes from the first document that yields one among those whose
    filename contains "bandwidth" in any case and that have a text: the
    mean that pandas computes over the numeric values of the last column
    when it parses the text, and otherwise the mean of the positive values
    among the numeric substrings of the text. A document whose text
    neither parses nor holds a positive number, or one of whose numeric
    substrings is no float, is passed over; when no document answers, the
    answer is the general summary. *)
Theorem bandwidth_average_fallback (query : string) (pre post : list Doc) (doc : Doc) :
  bandwidth_intent (Py.lower query) = true ->
  node_intent (Py.lower query) = false ->
  (forall d, In d pre -> bandwidth_answer P d = None) ->
  Py.contains "bandwidth" (Py.lower (get doc "filename" EmptyString)) = true ->
  has_text doc = true ->
  let text := get doc "text" EmptyString in
  let sentence := fun value : string =>
    "Based on " +:+ get doc "filename" "unknown"
    +:+ ", the average bandwidth is approximately " +:+ value +:+ "." in
  (forall avg_bandwidth,
     read_csv P text ≫= last_column_numeric_mean P = Some avg_bandwidth ->
     fallback_parser P set_iter query (pre ++ doc :: post)
     = sentence (format_2f P avg_bandwidth))
  /\ (forall floats,
        read_csv P text ≫= last_column_numeric_mean P = None ->
        mapM (py_float P) (findall_numbers text) = Some floats ->
        List.filter (gt0 P) floats <> [] ->
        fallback_parser P set_iter query (pre ++ doc :: post)
        = sentence (format_2f P (py_mean P (List.filter (gt0 P) floats))))
  /\ (read_csv P text ≫= last_column_numeric_mean P = None ->
      mapM (py_float P) (findall_numbers text) = None
      \/ (exists floats, mapM (py_float P) (findall_numbers text) = Some floats
                         /\ List.filter (gt0 P) floats = []) ->
      (forall d, In d post -> bandwidth_answer P d = None) ->
      fallback_parser P set_iter query (pre ++ doc :: post)
      = general_fallback set_iter (pre ++ doc :: post))
  /\ fallback_parser P set_iter query pre = general_fallback set_iter pre.
Proof.
  intros Hb Hn Hpre Hf Ht text sentence.
  unfold fallback_parser. rewrite Hn, Hb, first_answer_skip by exact Hpre.
  rewrite (first_answer_none _ pre Hpre).
  simpl first_answer.
  assert (Hdoc : bandwidth_answer P doc
                 = match read_csv P text ≫= last_column_numeric_mean P with
                   | Some avg_bandwidth => Some (sentence (format_2f P avg_bandwidth))
                   | None => regex_average P doc text
                   end).
  { unfold bandwidth_answer. rewrite Hf. unfold has_text in Ht. rewrite Ht.
    subst sentence. now rewrite <- (fmt_get_filename doc Hf). }
  rewrite Hdoc. subst sentence. rewrite <- (fmt_get_filename doc Hf).
  split; [| split; [| split; [| reflexivity]]].
  - intros m Hparse. now rewrite Hparse.
  - intros floats Hparse Hm Hv.
    now rewrite Hparse, (regex_average_some P doc text floats Hm Hv).
  - intros Hparse Hnone Hpost.
    now rewrite Hparse, (regex_average_none P doc text Hnone),
      (first_answer_none _ post Hpost).
Qed.

End FallbackClaims.


Lemma node_count_fallback_witness :
  node_intent (Py.lower "How many nodes are there?") = true
  /\ (forall d, In d [demo_log] ->
        d !! "filename" <> Some "node_info.csv" \/ has_text d = false)
  /\ demo_node_info !! "filename" = Some "node_info.csv"
  /\ has_text demo_node_info = true
  /\ fallback_parser exact_pandas Exact.set_iter "How many nodes are there?"
       ([demo_log] ++ demo_node_info :: [])
     = "Based on the node_info.csv file, there are " +:+ Py.str_nat 3
       +:+ " unique nodes in the simulation.".
Proof.
  assert (H1 : node_intent (Py.lower "How many nodes are there?") = true) by reflexivity.
  assert (H2 : forall d, In d [demo_log] ->
                 d !! "filename" <> Some "node_info.csv" \/ has_text d = false).
  { intros d [<- | []]. left. vm_compute. discriminate. }
  assert (H3 : demo_node_info !! "filename" = Some "node_info.csv") by reflexivity.
  assert (H4 : has_text demo_node_info = true) by reflexivity.
  repeat (split; [assumption |]).
  apply (proj1 (node_count_fallback exact_pandas Exact.set_iter
                  "How many nodes are there?" [demo_log] [] demo_node_info H1 H2 H3 H4)).
  vm_compute. reflexivity.
Defined.

(** C8 as stated fails: the text does not parse, it has two non-empty
    lines, and the approximate answer counts three. *)
Lemma node_count_counterexample :
  node_intent (Py.lower "How many nodes are there?") = true
  /\ read_csv exact_pandas (get demo_ragged_node_info "text" EmptyString) = None
  /\ length (List.filter Py.truthy
               (Py.split (ascii_of_nat 10) (get demo_ragged_node_info "text" EmptyString)))
     = 2
  /\ fallback_parser exact_pandas Exact.set_iter "How many nodes are there?"
       [demo_ragged_node_info]
     = "Based on the node_info.csv file, there appear to be approximately 3 nodes in the simulation.".
Proof. repeat split; vm_compute; reflexivity. Qed.

Lemma bandwidth_average_fallback_witness :
  bandwidth_intent (Py.lower "What is the average bandwidth?") = true
  /\ node_intent (Py.lower "What is the average bandwidth?") = false
  /\ (forall d, In d [demo_notes] -> bandwidth_answer exact_pandas d = None)
  /\ Py.contains "bandwidth" (Py.lower (get demo_flow_bandwidth "filename" EmptyString)) = true
  /\ has_text demo_flow_bandwidth = true
  /\ fallback_parser exact_pandas Exact.set_iter "What is the average bandwidth?"
       ([demo_notes] ++ demo_flow_bandwidth :: [])
     = "Based on Flow_Bandwidth.csv, the average bandwidth is approximately 20.00.".
Proof.
  assert (H1 : bandwidth_intent (Py.lower "What is the average bandwidth?") = true)
    by reflexivity.
  assert (H2 : node_intent (Py.lower "What is the average bandwidth?") = false)
    by reflexivity.
  assert (H3 : forall d, In d [demo_notes] -> bandwidth_answer exact_pandas d = None).
  { intros d [<- | []]. vm_compute. reflexivity. }
  assert (H4 : Py.contains "bandwidth"
                 (Py.lower (get demo_flow_bandwidth "filename" EmptyString)) = true)
    by reflexivity.
  assert (H5 : has_text demo_flow_bandwidth = true) by reflexivity.
  repeat (split; [assumption |]).
  rewrite (proj1 (bandwidth_average_fallback exact_pandas Exact.set_iter
                    "What is the average bandwidth?" [demo_notes] [] demo_flow_bandwidth
                    H1 H2 H3 H4 H5) (Exact.Fin (Qmake 20 1))).
  - vm_compute. reflexivity.
  - vm_compute. reflexivity.
Defined.

(** C7 as stated fails: this query contains "bandwidth" and "average" and
    also has the node-count intent, which is tested first; with no
    [node_info.csv] in the pool the answer is the general summary, not
    the average of the bandwidth file. *)
Lemma bandwidth_average_counterexample :
  bandwidth_intent (Py.lower "How many nodes reach the average bandwidth?") = true
  /\ fallback_parser exact_pandas Exact.set_iter
       "How many nodes reach the average bandwidth?" [demo_flow_bandwidth]
     = "I found relevant information in Flow_Bandwidth.csv, but couldn't process it automatically. The API service is currently unavailable."
  /\ fallback_parser exact_pandas Exact.set_iter
       "What is the average bandwidth?" [demo_flow_bandwidth]
     = "Based on Flow_Bandwidth.csv, the average bandwidth is approximately 20.00.".
Proof. repeat split; vm_compute; reflexivity. Qed.

(** ** The re-run job *)

Section ReRunFacts.

Context (J : Job).


(** The [try] block on a record that exists: it ends with the record
    marked as finished, or it raises and leaves the store as it was. *)
Lemma run_job_found simulation_id oid sys experiment :
  ObjectId J simulation_id = Ok oid ->
  store sys !! oid = Some experiment ->
  exists log',
    run_job J simulation_id sys
    = match job_outcome J experiment with
      | Ok _ =>
          (Ok tt,
           {| store := alter (fun e => {[ "state" := "Finished";
                                           "end_time" := now_isoformat J ]} ∪ e)
                             oid (store sys);
              threads := threads sys; log := log' |})
      | Raise msg =>
          (Raise msg, {| store := store sys; threads := threads sys; log := log' |})
      end.
Proof.
  intros Hid Hrec. unfold run_job, job_outcome, find_one, update_one, emit.
  unfold_monad. unfold mbind, Res_bind. rewrite Hid, Hrec.
  destruct (getitem experiment "params") as [params|msg]; [| eauto].
  destruct (Py.split "," params) as [|a [|b [|c [|d [|e [|f fs]]]]]]; simpl; eauto.
  destruct (Routing_getitem J d) as [routing|msg]; [| eauto].
  destruct (py_int J e) as [seed|msg]; [| eauto].
  destruct (py_int J b) as [cores|msg]; [| eauto].
  destruct (py_int J c) as [ring|msg]; [| eauto].
  simpl.
  destruct (local_run_single_job J seed cores ring "BLOOM" routing) as [[]|msg]; eauto.
Qed.

(** The thread on a record that exists: the state it leaves. *)
Lemma run_in_background_found simulation_id oid sys experiment :
  ObjectId J simulation_id = Ok oid ->
  store sys !! oid = Some experiment ->
  store (snd (run_in_background J simulation_id sys))
  = alter (fun e =>
             match job_outcome J experiment with
             | Ok _ => {[ "state" := "Finished"; "end_time" := now_isoformat J ]}
             | Raise msg => {[ "state" := "Error"; "error" := msg ]}
             end ∪ e)
          oid (store sys)
  /\ threads (snd (run_in_background J simulation_id sys)) = threads sys.
Proof.
  intros Hid Hrec.
  destruct (run_job_found simulation_id oid sys experiment Hid Hrec) as (log' & Hjob).
  unfold run_in_background, update_one. unfold_monad. rewrite Hjob.
  destruct (job_outcome J experiment) as [[]|msg]; simpl; [auto |].
  rewrite Hid. simpl. auto.
Qed.

Lemma record_kept_alter oid experiment oid' (fields : gmap string string) sys store' :
  fields !! "params" = None ->
  store' = alter (fun e => fields ∪ e) oid' (store sys) ->
  record_kept oid experiment sys ->
  exists e, store' !! oid = Some e /\ e !! "params" = experiment !! "params".
Proof.
  intros Hf -> (e & He & Hp).
  destruct (decide (oid' = oid)) as [-> | Hne].
  - exists (fields ∪ e). rewrite lookup_alter_eq, He. split; [reflexivity |].
    now rewrite lookup_union_r.
  - exists e. now rewrite lookup_alter_ne.
Qed.

Lemma re_run_keeps oid experiment simulation_id sys :
  record_kept oid experiment sys ->
  record_kept oid experiment (snd (re_run_experiment J simulation_id sys)).
Proof.
  intros Hk. unfold re_run_experiment, update_one, spawn. unfold_monad.
  destruct (ObjectId J simulation_id) as [oid'|msg]; simpl; [| exact Hk].
  eapply record_kept_alter; [| reflexivity | exact Hk]. reflexivity.
Qed.

Lemma run_in_background_keeps oid experiment simulation_id sys :
  record_kept oid experiment sys ->
  record_kept oid experiment (snd (run_in_background J simulation_id sys)).
Proof.
  intros Hk.
  destruct (ObjectId J simulation_id) as [oid'|msg] eqn:Hid.
  - destruct (store sys !! oid') as [e'|] eqn:Hrec.
    + destruct (run_in_background_found simulation_id oid' sys e' Hid Hrec) as [Hs _].
      unfold record_kept. rewrite Hs.
      eapply record_kept_alter; [| reflexivity | exact Hk].
      destruct (job_outcome J e') as [[]|m]; reflexivity.
    + unfold run_in_background, run_job, find_one. unfold_monad.
      rewrite Hid, Hrec. exact Hk.
  - unfold run_in_background, run_job. unfold_monad. rewrite Hid. exact Hk.
Qed.

Lemma step_keeps oid experiment sys sys' :
  any_step J sys sys' -> record_kept oid experiment sys -> record_kept oid experiment sys'.
Proof.
  intros [l Hstep] Hk. destruct Hstep.
  - apply run_in_background_keeps. exact Hk.
  - apply re_run_keeps. exact Hk.
Qed.

Lemma steps_keep oid experiment sys sys' :
  rtc (any_step J) sys sys' ->
  record_kept oid experiment sys -> record_kept oid experiment sys'.
Proof.
  induction 1 as [|x y z Hxy _ IH]; [auto |].
  intros Hk. apply IH. eapply step_keeps; eauto.
Qed.

End ReRunFacts.

Section UnreliableStore.

Context (J : Job).
Context (faults : System -> StoreCall -> option string).







End UnreliableStore.



(** With no fault, the thread and the request are those of the store
    whose calls go through. *)
Lemma reliable_run_in_background (J : Job) simulation_id sys :
  Unreliable.run_in_background J reliable simulation_id sys
  = run_in_background J simulation_id sys.
Proof. reflexivity. Qed.

Lemma reliable_re_run_experiment (J : Job) simulation_id sys :
  Unreliable.re_run_experiment J reliable simulation_id sys
  = re_run_experiment J simulation_id sys.
Proof. reflexivity. Qed.

(** Parameters that do not unpack into five names end in the state
    "Error". *)
Example re_run_with_bad_params :
  forall sys2,
    step demo_job (RunThread demo_oid)
         (snd (re_run_experiment demo_job demo_oid (demo_system "1,4,2"))) sys2 ->
    state_of sys2 demo_oid = Some "Error"
    /\ field_of sys2 demo_oid "error"
       = Some "not enough values to unpack (expected 5, got 3)".
Proof.
  intros sys2 Hstep.
  inversion Hstep as [s before after sid Hthreads Hl Hs Heq |]; subst.
  destruct before as [|x before]; simpl in Hthreads;
    [| injection Hthreads as _ Hnil; now destruct before].
  injection Hthreads as <-. vm_compute. split; reflexivity.
Qed.

(** The excerpt table applies to every document that carries an experiment
    name, also in a pool of a single experiment, whose flag is false. *)
Example table_applies_in_single_named_pool :
  is_multi_experiment (repeat (mkdoc_exp "exp1" "notes.txt" "ring size 4, ecmp") 21) = false
  /\ multi_excerpt 21 "notes.txt" "ring size 4, ecmp" = Py.take 600 "ring size 4, ecmp".
Proof. split; vm_compute; reflexivity. Qed.

Example findall_numbers_ex :
  findall_numbers "bw=12.5 Mbit, 7 flows, v1.2.3." = ["12.5"; "7"; "1.2.3."].
Proof. reflexivity. Qed.

(** The structural parse fails on the ragged second row; the numbers of
    the raw text are averaged. *)
Example bandwidth_regex_ex :
  fallback_parser exact_pandas Exact.set_iter "average bandwidth please"
    [mkdoc "bandwidth.txt" (unlines ["rate 10"; "20,30,0"])]
  = "Based on bandwidth.txt, the average bandwidth is approximately 20.00.".
Proof. vm_compute. reflexivity. Qed.

(** A last column without a number: the structural parse succeeds and the
    mean is not a number. *)
Example bandwidth_nan_ex :
  fallback_parser exact_pandas Exact.set_iter "average bandwidth please"
    [mkdoc "bandwidth.csv" (unlines ["a,low"; "b,high"])]
  = "Based on bandwidth.csv, the average bandwidth is approximately nan.".
Proof. vm_compute. reflexivity. Qed.

(** * Further properties *)

(** ** More facts about the string primitives *)

Section MoreStringFacts.

Implicit Types a b c s t : string.

Lemma lower_char_idem (x : ascii) : Py.lower_char (Py.lower_char x) = Py.lower_char x.
Proof. destruct x as [[] [] [] [] [] [] [] []]; reflexivity. Qed.

Lemma lower_idem s : Py.lower (Py.lower s) = Py.lower s.
Proof.
  induction s as [|x s IH]; [reflexivity |].
  simpl. now rewrite lower_char_idem, IH.
Qed.

Lemma len_app a b : Py.len (a +:+ b) = Py.len a + Py.len b.
Proof.
  induction a as [|x a IH]; [reflexivity |].
  rewrite sapp_cons. unfold Py.len in *. simpl. now rewrite IH.
Qed.

Lemma drop_app a b : Py.drop (Py.len a) (a +:+ b) = b.
Proof.
  induction a as [|x a IH]; [now destruct b |].
  rewrite sapp_cons. exact IH.
Qed.

Lemma rstrip_idem s : Py.rstrip (Py.rstrip s) = Py.rstrip s.
Proof.
  induction s as [|x s IH]; [reflexivity |].
  simpl. destruct (Py.isspace x && negb (Py.truthy (Py.rstrip s))) eqn:E; [reflexivity |].
  simpl. now rewrite IH, E.
Qed.

Lemma lstrip_rstrip_lstrip s : Py.lstrip (Py.rstrip (Py.lstrip s)) = Py.rstrip (Py.lstrip s).
Proof.
  induction s as [|x s IH]; [reflexivity |].
  simpl. destruct (Py.isspace x) eqn:E; [exact IH |].
  simpl. rewrite E. simpl. now rewrite E.
Qed.

Lemma strip_idem s : Py.strip (Py.strip s) = Py.strip s.
Proof. unfold Py.strip. now rewrite lstrip_rstrip_lstrip, rstrip_idem. Qed.

Lemma length_split sep s : length (Py.split sep s) = S (count_char sep s).
Proof.
  induction s as [|x s IH]; [reflexivity |].
  simpl. destruct (Ascii.eqb x sep); simpl; [now rewrite IH |].
  destruct (Py.split sep s); simpl in *; lia.
Qed.

Lemma split_fields_no_sep sep s x :
  In x (Py.split sep s) -> count_char sep x = 0.
Proof.
  revert x; induction s as [|y s IH]; intros x; simpl.
  - intros [<- | []]. reflexivity.
  - destruct (Ascii.eqb y sep) eqn:E.
    + intros [<- | H]; [reflexivity | now apply IH].
    + destruct (Py.split sep s) as [|w ws]; simpl.
      * intros [<- | []]. simpl. now rewrite E.
      * intros [<- | H]; [| apply IH; now right].
        simpl. rewrite E. apply IH. now left.
Qed.

Lemma join_split sep s : Py.join (String sep EmptyString) (Py.split sep s) = s.
Proof.
  induction s as [|x s IH]; [reflexivity |].
  simpl. destruct (Ascii.eqb x sep) eqn:E.
  - apply Ascii.eqb_eq in E; subst x.
    pose proof (length_split sep s) as Hl.
    destruct (Py.split sep s) as [|w ws]; [discriminate |].
    change (Py.join (String sep EmptyString) (EmptyString :: w :: ws))
      with (EmptyString +:+ String sep EmptyString
            +:+ Py.join (String sep EmptyString) (w :: ws)).
    now rewrite IH.
  - pose proof (length_split sep s) as Hl.
    destruct (Py.split sep s) as [|w [|w' ws]]; [discriminate | |].
    + simpl in *. now rewrite IH.
    + change (Py.join (String sep EmptyString) (String x w :: w' :: ws))
        with (String x w +:+ String sep EmptyString
              +:+ Py.join (String sep EmptyString) (w' :: ws)).
      change (Py.join (String sep EmptyString) (w :: w' :: ws))
        with (w +:+ String sep EmptyString
              +:+ Py.join (String sep EmptyString) (w' :: ws)) in IH.
      now rewrite sapp_cons, IH.
Qed.

Lemma split_one sep a : count_char sep a = 0 -> Py.split sep a = [a].
Proof.
  induction a as [|x a IH]; [reflexivity |].
  simpl. destruct (Ascii.eqb x sep); [discriminate |].
  intros H. now rewrite IH.
Qed.

Lemma split_app sep a b :
  count_char sep a = 0 ->
  Py.split sep (a +:+ String sep b) = a :: Py.split sep b.
Proof.
  induction a as [|x a IH]; intros H.
  - rewrite sapp_nil_l. simpl. now rewrite Ascii.eqb_refl.
  - rewrite sapp_cons. simpl in *. destruct (Ascii.eqb x sep); [discriminate |].
    now rewrite IH.
Qed.

Lemma split_join sep (l : list string) :
  l <> [] -> (forall x, In x l -> count_char sep x = 0) ->
  Py.split sep (Py.join (String sep EmptyString) l) = l.
Proof.
  induction l as [|x l IH]; [congruence |].
  intros _ H. destruct l as [|y l].
  - simpl. apply split_one, H. now left.
  - change (Py.join (String sep EmptyString) (x :: y :: l))
      with (x +:+ String sep EmptyString +:+ Py.join (String sep EmptyString) (y :: l)).
    rewrite sapp_cons, sapp_nil_l, split_app by (apply H; now left).
    f_equal. apply IH; [discriminate |]. intros z Hz. apply H. now right.
Qed.

End MoreStringFacts.

(** ** The pipeline never raises *)

Section PipelineTotal.

Context (P : Pandas) (set_iter : gset string -> list string) (W : World).

Lemma truthy_app a b : Py.truthy (a +:+ b) = Py.truthy a || Py.truthy b.
Proof. destruct a; [now rewrite sapp_nil_l | reflexivity]. Qed.

Lemma with_sources_truthy response pool :
  Py.truthy (with_sources set_iter response pool) = true.
Proof.
  unfold with_sources. rewrite !truthy_app. simpl. now rewrite !orb_true_r.
Qed.

Lemma fallback_parser_truthy query pool :
  Py.truthy (fallback_parser P set_iter query pool) = true.
Proof.
  destruct (general_fallback_names set_iter pool) as [Hg _].
  unfold fallback_parser.
  destruct (node_intent (Py.lower query)).
  - destruct (first_answer (node_count_answer P) pool) as [a|] eqn:E; [| exact Hg].
    apply first_answer_some in E as (d & _ & Hd).
    now destruct (node_count_answer_some P d a Hd) as (_ & Ht & _).
  - destruct (bandwidth_intent (Py.lower query)); [| exact Hg].
    destruct (first_answer (bandwidth_answer P) pool) as [a|] eqn:E; [| exact Hg].
    apply first_answer_some in E as (d & _ & Hd).
    now destruct (bandwidth_answer_some P d a Hd) as (_ & Ht & _).
Qed.

Lemma answer_from_truthy query pool trace :
  exists answer trace',
    answer_from P set_iter W query pool trace = (Ok answer, trace')
    /\ Py.truthy answer = true.
Proof.
  unfold answer_from, generate_with_ollama, generate_with_api. unfold_monad.
  destruct (use_local W).
  - destruct (ollama_response W _); eexists; eexists;
      (split; [reflexivity | apply with_sources_truthy]).
  - destruct (text_generation W _).
    + eexists; eexists. split; [reflexivity | apply with_sources_truthy].
    + destruct (nonempty pool && Py.truthy query); eexists; eexists;
        (split; [reflexivity | apply with_sources_truthy]).
Qed.

Lemma standard_response_truthy query trace :
  match standard_response P set_iter W query trace with
  | (Ok answer, _) => Py.truthy answer = true
  | (Raise _, _) => True
  end.
Proof.
  unfold standard_response. unfold_monad.
  destruct (get_all_multi_experiment_documents W) as [[|d ds]|?]; simpl; [| | exact I].
  - destruct (get_all_single_experiment_documents W) as [[|d ds]|?]; simpl;
      [reflexivity | | exact I].
    destruct (answer_from_truthy query (d :: ds) ((trace ++ [CallGetAllMulti])
                                                  ++ [CallGetAllSingle]))
      as (a & t & -> & Ht). exact Ht.
  - destruct (answer_from_truthy query (d :: ds) (trace ++ [CallGetAllMulti]))
      as (a & t & -> & Ht). exact Ht.
Qed.

Lemma reasoning_truthy query trace :
  exists answer trace',
    generate_response_with_reasoning W query trace = (Ok answer, trace')
    /\ Py.truthy answer = true.
Proof.
  unfold generate_response_with_reasoning, reason_over. unfold_monad.
  destruct (import_think_step_by_step W) as [[]|msg]; [| eauto].
  destruct (get_all_multi_experiment_documents W) as [multi|msg]; [| eauto].
  destruct (nonempty multi).
  - destruct (think_step_by_step W query _) as [[reasoning result]|msg]; eauto.
  - destruct (get_all_single_experiment_documents W) as [single|msg]; [| eauto].
    destruct (nonempty single); [| eauto].
    destruct (think_step_by_step W query _) as [[reasoning result]|msg]; eauto.
Qed.

(** X1. [generate_response] never raises, whatever the collaborators do,
    and outside the bandwidth analysis its answer is never empty: it is
    not empty whenever lines 56-66 hand the query on (no bandwidth query,
    no run directory, the analysis cannot be imported or raises), so that
    an empty answer can only be the value that the bandwidth analysis
    returned. *)
Theorem generate_response_always_answers (query : string) (run_dir : option string)
    (trace : list Call) :
  exists answer trace',
    generate_response P set_iter W query run_dir trace = (Ok answer, trace')
    /\ (analysis_declines W query run_dir -> Py.truthy answer = true)
    /\ (Py.truthy answer = false ->
        exists dir,
          is_bandwidth_query query = true /\ run_dir = Some dir /\ Py.truthy dir = true
          /\ analyze_bandwidth_for_chat W dir query = Ok answer).
Proof.
  destruct (bandwidth_branch_cases W query run_dir trace)
    as [(t & Hb & _ & Hdec) | (a & dir & Hb & Hbw & Hrd & Hdir & Himp & Han)].
  - assert (Hgo : exists answer trace',
               generate_response P set_iter W query run_dir trace = (Ok answer, trace')
               /\ Py.truthy answer = true).
    { unfold generate_response. unfold_monad. rewrite Hb.
      destruct (is_reasoning_query query).
      - destruct (reasoning_truthy query t) as (a & t' & -> & Ht). eauto.
      - pose proof (standard_response_truthy query t) as Hs.
        destruct (standard_response P set_iter W query t) as [[a|m] t']; eauto. }
    destruct Hgo as (answer & trace' & Hrun & Ht).
    exists answer, trace'. split; [exact Hrun |]. split; [auto | congruence].
  - exists a, (trace ++ [CallBandwidthAnalysis dir query]).
    split; [unfold generate_response; unfold_monad; now rewrite Hb |].
    split; [| eauto 6].
    intros Hdec.
    destruct (bandwidth_branch_declines W query run_dir trace Hdec) as (t & Hb' & _).
    congruence.
Qed.

(** X2. When retrieval raises, the general path answers with its fixed
    message and calls no generation backend; the reasoning path answers
    with its own message followed by the text of the exception. This
    holds however the path was reached, also after a bandwidth analysis
    that could not be imported or raised. *)
Theorem retrieval_failure_messages (query : string) (run_dir : option string)
    (msg : string) :
  retrieval_failure W = Some msg ->
  analysis_declines W query run_dir ->
  exists trace,
    no_generation_call trace = true
    /\ (is_reasoning_query query = false ->
        run (generate_response P set_iter W query run_dir)
        = (Ok "I had trouble searching through the simulation data. Please try again or ask an administrator to check the vector search configuration.",
           trace))
    /\ (is_reasoning_query query = true -> import_think_step_by_step W = Ok tt ->
        run (generate_response P set_iter W query run_dir)
        = (Ok ("I had trouble applying step-by-step reasoning to your question. Error: "
               +:+ msg), trace)).
Proof.
  intros Hfail Hdec.
  destruct (bandwidth_branch_declines W query run_dir [] Hdec) as (t & Hb & Ht).
  unfold retrieval_failure in Hfail.
  unfold run, generate_response, generate_response_with_reasoning, standard_response.
  unfold_monad. rewrite Hb.
  destruct (get_all_multi_experiment_documents W) as [[|d ds]|m]; try discriminate.
  - destruct (get_all_single_experiment_documents W) as [single|m]; [discriminate |].
    injection Hfail as ->.
    exists ((t ++ [CallGetAllMulti]) ++ [CallGetAllSingle]).
    split; [destruct Ht as [-> | [dir ->]]; reflexivity |].
    split; [intros -> | intros -> ->]; reflexivity.
  - injection Hfail as ->.
    exists (t ++ [CallGetAllMulti]).
    split; [destruct Ht as [-> | [dir ->]]; reflexivity |].
    split; [intros -> | intros -> ->]; reflexivity.
Qed.

(** X3. When the reasoner raises on a retrieved pool, the answer is the
    message of the reasoning path followed by the text of the exception;
    the fallback parser is not consulted. This holds however the
    reasoning path was reached, also after a bandwidth analysis that
    could not be imported or raised. *)
Theorem reasoner_failure_message (query : string) (run_dir : option string)
    (pool : list Doc) (msg : string) :
  selected_pool W = Some pool ->
  analysis_declines W query run_dir ->
  is_reasoning_query query = true ->
  import_think_step_by_step W = Ok tt ->
  think_step_by_step W query (combined_context W pool) = Raise msg ->
  exists trace,
    run (generate_response P set_iter W query run_dir)
    = (Ok ("I had trouble applying step-by-step reasoning to your question. Error: "
           +:+ msg),
       trace ++ [CallThinkStepByStep query (combined_context W pool)]).
Proof.
  intros Hsel Hdec Hr Hi Hthink.
  destruct (bandwidth_branch_declines W query run_dir [] Hdec) as (t & Hb & _).
  unfold selected_pool in Hsel.
  unfold run, generate_response, generate_response_with_reasoning, reason_over.
  unfold_monad. rewrite Hb, Hr, Hi.
  destruct (get_all_multi_experiment_documents W) as [[|d ds]|m]; [| | discriminate].
  - destruct (get_all_single_experiment_documents W) as [[|d ds]|m]; try discriminate.
    injection Hsel as <-. simpl. rewrite Hthink.
    now exists ((t ++ [CallGetAllMulti]) ++ [CallGetAllSingle]).
  - injection Hsel as <-. simpl. rewrite Hthink. now exists (t ++ [CallGetAllMulti]).
Qed.

End PipelineTotal.

Lemma generate_response_always_answers_witness :
  is_bandwidth_query "What is the average bandwidth of the nodes?" = true
  /\ analysis_declines unanalysed_world "What is the average bandwidth of the nodes?"
       (Some "runs/1")
  /\ exists answer trace',
       generate_response exact_pandas Exact.set_iter unanalysed_world
         "What is the average bandwidth of the nodes?" (Some "runs/1") []
       = (Ok answer, trace')
       /\ Py.truthy answer = true.
Proof.
  assert (H : analysis_declines unanalysed_world
                "What is the average bandwidth of the nodes?" (Some "runs/1")).
  { right; right; right. exists "runs/1", "Flow_Bandwidth.csv is missing".
    split; reflexivity. }
  split; [reflexivity | split; [exact H |]].
  destruct (generate_response_always_answers exact_pandas Exact.set_iter unanalysed_world
              "What is the average bandwidth of the nodes?" (Some "runs/1") [])
    as (answer & trace' & Hrun & Ht & _).
  exists answer, trace'. split; [exact Hrun | exact (Ht H)].
Defined.

Lemma retrieval_failure_messages_witness :
  retrieval_failure broken_world = Some "index not found"
  /\ analysis_declines broken_world "How many nodes are there?" None
  /\ fst (run (generate_response exact_pandas Exact.set_iter broken_world
                 "How many nodes are there?" None))
     = Ok "I had trouble searching through the simulation data. Please try again or ask an administrator to check the vector search configuration.".
Proof.
  assert (H1 : retrieval_failure broken_world = Some "index not found") by reflexivity.
  assert (H2 : analysis_declines broken_world "How many nodes are there?" None)
    by (left; reflexivity).
  split; [exact H1 | split; [exact H2 |]].
  destruct (retrieval_failure_messages exact_pandas Exact.set_iter broken_world
              "How many nodes are there?" None _ H1 H2) as (trace & _ & Hgen & _).
  now rewrite (Hgen eq_refl).
Defined.

Lemma reasoner_failure_message_witness :
  selected_pool unreasoning_world = Some demo_pool
  /\ analysis_declines unreasoning_world "Explain step by step how many nodes exist" None
  /\ is_reasoning_query "Explain step by step how many nodes exist" = true
  /\ import_think_step_by_step unreasoning_world = Ok tt
  /\ think_step_by_step unreasoning_world "Explain step by step how many nodes exist"
       (combined_context unreasoning_world demo_pool) = Raise "model overloaded"
  /\ fst (run (generate_response exact_pandas Exact.set_iter unreasoning_world
                 "Explain step by step how many nodes exist" None))
     = Ok "I had trouble applying step-by-step reasoning to your question. Error: model overloaded".
Proof.
  assert (H1 : selected_pool unreasoning_world = Some demo_pool) by reflexivity.
  assert (H2 : analysis_declines unreasoning_world
                 "Explain step by step how many nodes exist" None)
    by (left; reflexivity).
  assert (H3 : is_reasoning_query "Explain step by step how many nodes exist" = true)
    by reflexivity.
  assert (H4 : import_think_step_by_step unreasoning_world = Ok tt) by reflexivity.
  assert (H5 : think_step_by_step unreasoning_world
                 "Explain step by step how many nodes exist"
                 (combined_context unreasoning_world demo_pool) = Raise "model overloaded")
    by reflexivity.
  repeat (split; [assumption |]).
  destruct (reasoner_failure_message exact_pandas Exact.set_iter unreasoning_world
              "Explain step by step how many nodes exist" None demo_pool _ H1 H2 H3 H4 H5)
    as (trace & Hrun).
  now rewrite Hrun.
Defined.

(** ** What reaches the generation backends *)

Ltac in_list := simpl; repeat (first [left; reflexivity | right]).

Section Prompts.

Context (P : Pandas) (set_iter : gset string -> list string) (W : World).

(** X4. On the reasoning path the context handed to the reasoner holds the
    framework text and, for every document with a text, its filename and
    the first 1500 characters of the text, whatever the size of the pool
    and whether or not the document carries an experiment name. *)
Theorem reasoning_context_covers_pool (pool : list Doc) (doc : Doc) :
  In doc pool -> has_text doc = true ->
  substr (reasoning_entry doc) (combined_context W pool)
  /\ substr (FRAMEWORK_CONTEXT W) (combined_context W pool).
Proof.
  intros Hin Ht. unfold combined_context. split.
  - do 7 apply substr_app_l. apply substr_join.
    apply list_elem_of_In, list_elem_of_omap. exists doc. split.
    + now apply list_elem_of_In.
    + unfold has_text in Ht. now rewrite Ht.
  - do 2 apply substr_app_l. apply substr_app_r, substr_refl.
Qed.

(** X5. The prompt of the general path, in either template, holds the
    user's query, the framework text and the context entry of every
    document of the pool that has a text. *)
Theorem prompt_embeds_inputs (query : string) (pool : list Doc) (doc : Doc) :
  In doc pool -> has_text doc = true ->
  substr query (build_prompt set_iter W query pool)
  /\ substr (FRAMEWORK_CONTEXT W) (build_prompt set_iter W query pool)
  /\ substr (context_entry (length pool) doc) (build_prompt set_iter W query pool).
Proof.
  intros Hin Ht.
  pose proof (context_entry_in_contexts pool doc Hin Ht) as Hentry.
  unfold build_prompt.
  destruct (is_multi_experiment pool); [unfold multi_prompt | unfold single_prompt];
    (split; [| split]).
  - eapply substr_trans; [| apply substr_join with (x := "**User Question:** " +:+ query); in_list].
    apply substr_app_l, substr_refl.
  - apply substr_join. in_list.
  - eapply substr_trans; [apply (substr_join (Py.nl +:+ Py.nl) _ _ Hentry) |].
    apply substr_join. in_list.
  - eapply substr_trans; [| apply substr_join with (x := "**User Question:** " +:+ query); in_list].
    apply substr_app_l, substr_refl.
  - apply substr_join. in_list.
  - eapply substr_trans; [apply (substr_join (Py.nl +:+ Py.nl) _ _ Hentry) |].
    apply substr_join. in_list.
Qed.

End Prompts.

Lemma reasoning_context_covers_pool_witness :
  In demo_node_info demo_pool
  /\ has_text demo_node_info = true
  /\ substr (reasoning_entry demo_node_info) (combined_context demo_world demo_pool).
Proof.
  assert (H1 : In demo_node_info demo_pool) by (left; reflexivity).
  assert (H2 : has_text demo_node_info = true) by reflexivity.
  split; [exact H1 | split; [exact H2 |]].
  exact (proj1 (reasoning_context_covers_pool demo_world demo_pool demo_node_info H1 H2)).
Defined.

Lemma prompt_embeds_inputs_witness :
  In demo_node_info demo_pool
  /\ has_text demo_node_info = true
  /\ substr "How many nodes are there?"
            (build_prompt Exact.set_iter demo_world "How many nodes are there?" demo_pool).
Proof.
  assert (H1 : In demo_node_info demo_pool) by (left; reflexivity).
  assert (H2 : has_text demo_node_info = true) by reflexivity.
  split; [exact H1 | split; [exact H2 |]].
  exact (proj1 (prompt_embeds_inputs Exact.set_iter demo_world "How many nodes are there?"
                  demo_pool demo_node_info H1 H2)).
Defined.

(** ** The generation backends *)

Section Backends.

Context (P : Pandas) (set_iter : gset string -> list string) (W : World).

(** X6. When the hosted service returns the prompt followed by a non-empty
    completion, [generate_with_api] returns the completion alone, trimmed;
    a response that is not longer than the prompt is returned whole,
    trimmed. *)
Theorem generate_with_api_strips_echo (prompt : string) (context_docs : list Doc)
    (query : string) (trace : list Call) :
  (forall completion,
     text_generation W prompt = Ok (prompt +:+ completion) ->
     Py.truthy completion = true ->
     generate_with_api P set_iter W prompt context_docs query trace
     = (Ok (Py.strip completion), trace ++ [CallTextGeneration prompt]))
  /\ (forall response,
        text_generation W prompt = Ok response ->
        Py.len response <= Py.len prompt ->
        generate_with_api P set_iter W prompt context_docs query trace
        = (Ok (Py.strip response), trace ++ [CallTextGeneration prompt])).
Proof.
  unfold generate_with_api. unfold_monad. split.
  - intros completion -> Hc. rewrite len_app, drop_app.
    destruct completion as [|x completion]; [discriminate |].
    unfold Py.len at 3. simpl String.length.
    now replace (Py.len prompt <? Py.len prompt + S (String.length completion))
      with true by (symmetry; apply Nat.ltb_lt; lia).
  - intros response -> Hl.
    now replace (Py.len prompt <? Py.len response)
      with false by (symmetry; apply Nat.ltb_ge; lia).
Qed.

(** X7. When the hosted service raises, [generate_with_api] does not: with
    documents and a non-empty query it answers with the fallback parser,
    otherwise with its fixed apology, and the answer is never empty. *)
Theorem generate_with_api_failure (prompt : string) (context_docs : list Doc)
    (query : string) (trace : list Call) (msg : string) :
  text_generation W prompt = Raise msg ->
  exists answer,
    generate_with_api P set_iter W prompt context_docs query trace
    = (Ok answer, trace ++ [CallTextGeneration prompt])
    /\ Py.truthy answer = true
    /\ (context_docs <> [] -> Py.truthy query = true ->
        answer = fallback_parser P set_iter query context_docs)
    /\ (context_docs = [] \/ query = EmptyString ->
        answer = "I'm sorry, I couldn't access the language model service. Please try again later.").
Proof.
  intros Hgen. unfold generate_with_api. unfold_monad. rewrite Hgen.
  destruct context_docs as [|d ds]; simpl.
  - eexists. split; [reflexivity |]. split; [reflexivity |].
    split; [congruence | reflexivity].
  - destruct query as [|x q]; simpl.
    + eexists. split; [reflexivity |]. split; [reflexivity |].
      split; [discriminate | reflexivity].
    + eexists. split; [reflexivity |]. split; [apply fallback_parser_truthy |].
      split; [reflexivity |]. intros [? | ?]; discriminate.
Qed.

(** X8. [generate_with_ollama] never raises: it returns the trimmed
    response of the local endpoint, or its fixed message when the call
    fails; in both cases the answer has no whitespace at either end. *)
Theorem generate_with_ollama_trimmed (prompt : string) (trace : list Call) :
  exists answer,
    generate_with_ollama W prompt trace = (Ok answer, trace ++ [CallOllama prompt])
    /\ Py.strip answer = answer
    /\ (forall response, ollama_response W prompt = Ok response ->
                         answer = Py.strip response)
    /\ (forall msg, ollama_response W prompt = Raise msg ->
                    answer = "There was an error calling the local model through Ollama.").
Proof.
  unfold generate_with_ollama. unfold_monad.
  destruct (ollama_response W prompt) as [response|msg]; eexists;
    (split; [reflexivity |]).
  - split; [apply strip_idem |]. split; [now intros r [= <-] | discriminate].
  - split; [reflexivity |]. split; [discriminate | reflexivity].
Qed.

(** X9. [generate_with_local_model] never raises. A decoded output that
    starts with the prompt gives the rest, trimmed; when the local model
    fails it asks the hosted service without documents, so that a second
    failure gives the fixed apology and never the fallback parser. *)
Theorem generate_with_local_model_degrades (local_decode : string -> Res string)
    (prompt : string) (trace : list Call) :
  exists answer trace',
    generate_with_local_model P set_iter W local_decode prompt trace = (Ok answer, trace')
    /\ Py.strip answer = answer
    /\ (forall completion,
          local_decode prompt = Ok (prompt +:+ completion) ->
          answer = Py.strip completion /\ trace' = trace)
    /\ (forall msg msg',
          local_decode prompt = Raise msg -> text_generation W prompt = Raise msg' ->
          answer = "I'm sorry, I couldn't access the language model service. Please try again later."
          /\ trace' = trace ++ [CallTextGeneration prompt]).
Proof.
  unfold generate_with_local_model, generate_with_api. unfold_monad.
  destruct (local_decode prompt) as [response|msg].
  - eexists; eexists. split; [reflexivity |]. split; [apply strip_idem |].
    split; [| discriminate].
    intros completion [= ->]. now rewrite drop_app.
  - destruct (text_generation W prompt) as [response|msg']; simpl;
      eexists; eexists; (split; [reflexivity |]).
    + split; [apply strip_idem |]. split; discriminate.
    + split; [reflexivity |]. split; [discriminate | auto].
Qed.

End Backends.

Lemma generate_with_api_failure_witness :
  text_generation demo_world "prompt" = Raise "service unavailable"
  /\ exists answer,
       generate_with_api exact_pandas Exact.set_iter demo_world "prompt" demo_pool
         "How many nodes are there?" []
       = (Ok answer, [] ++ [CallTextGeneration "prompt"])
       /\ Py.truthy answer = true.
Proof.
  assert (H : text_generation demo_world "prompt" = Raise "service unavailable")
    by reflexivity.
  split; [exact H |].
  destruct (generate_with_api_failure exact_pandas Exact.set_iter demo_world "prompt"
              demo_pool "How many nodes are there?" [] _ H) as (answer & Hrun & Ht & _).
  exists answer. split; [exact Hrun | exact Ht].
Defined.

Lemma generate_with_api_strips_echo_witness :
  text_generation broken_world "Q:" = Ok ("Q:" +:+ " The answer is 3. ")
  /\ Py.truthy " The answer is 3. " = true
  /\ generate_with_api exact_pandas Exact.set_iter broken_world "Q:" [] EmptyString []
     = (Ok "The answer is 3.", [CallTextGeneration "Q:"]).
Proof.
  assert (H1 : text_generation broken_world "Q:" = Ok ("Q:" +:+ " The answer is 3. "))
    by reflexivity.
  assert (H2 : Py.truthy " The answer is 3. " = true) by reflexivity.
  split; [exact H1 | split; [exact H2 |]].
  exact (proj1 (generate_with_api_strips_echo exact_pandas Exact.set_iter broken_world
                  "Q:" [] EmptyString []) _ H1 H2).
Defined.

Lemma generate_with_ollama_trimmed_witness :
  ollama_response broken_world "Q:" = Ok "  42 nodes  "
  /\ exists answer,
       generate_with_ollama broken_world "Q:" [] = (Ok answer, [] ++ [CallOllama "Q:"])
       /\ answer = Py.strip "  42 nodes  ".
Proof.
  assert (H : ollama_response broken_world "Q:" = Ok "  42 nodes  ") by reflexivity.
  split; [exact H |].
  destruct (generate_with_ollama_trimmed broken_world "Q:" [])
    as (answer & Hrun & _ & Hok & _).
  exists answer. split; [exact Hrun | exact (Hok _ H)].
Defined.

Lemma generate_with_local_model_degrades_witness :
  text_generation demo_world "Q:" = Raise "service unavailable"
  /\ exists answer trace',
       generate_with_local_model exact_pandas Exact.set_iter demo_world
         (fun _ => Raise "CUDA out of memory") "Q:" [] = (Ok answer, trace')
       /\ answer = "I'm sorry, I couldn't access the language model service. Please try again later.".
Proof.
  assert (H : text_generation demo_world "Q:" = Raise "service unavailable") by reflexivity.
  split; [exact H |].
  destruct (generate_with_local_model_degrades exact_pandas Exact.set_iter demo_world
              (fun _ => Raise "CUDA out of memory") "Q:" [])
    as (answer & trace' & Hrun & _ & _ & Hfail).
  exists answer, trace'. split; [exact Hrun |].
  exact (proj1 (Hfail _ _ eq_refl H)).
Defined.

(** ** Classification *)

Section Classification.

(** X10. Every query that the fallback parser reads as a request for the
    average bandwidth ("bandwidth" and "average") is a bandwidth query of
    the pipeline. *)
Theorem bandwidth_intent_is_bandwidth_query (query : string) :
  bandwidth_intent (Py.lower query) = true -> is_bandwidth_query query = true.
Proof.
  unfold bandwidth_intent, is_bandwidth_query, Py.any. intros H.
  apply andb_true_iff in H as [Hb Ha]. simpl. rewrite Hb, Ha. simpl.
  now rewrite orb_true_r.
Qed.

(** X11. Classification does not depend on the case of the query: the
    bandwidth test, the reasoning test and the fallback parser give the
    same result on the query and on its lower-case form. *)
Theorem classification_ignores_case (P : Pandas) (set_iter : gset string -> list string)
    (query : string) (pool : list Doc) :
  is_bandwidth_query (Py.lower query) = is_bandwidth_query query
  /\ is_reasoning_query (Py.lower query) = is_reasoning_query query
  /\ fallback_parser P set_iter (Py.lower query) pool
     = fallback_parser P set_iter query pool.
Proof.
  unfold is_bandwidth_query, is_reasoning_query, fallback_parser.
  now rewrite lower_idem.
Qed.

Lemma contains_longer a b s :
  Py.contains a b = true -> Py.contains b s = true -> Py.contains a s = true.
Proof.
  intros Hab Hbs. apply contains_substr.
  eapply substr_trans; apply contains_substr; eauto.
Qed.

(** X12. Of the four file cues only "flow" matters, the other three
    contain it: a query is a bandwidth query exactly when it names
    bandwidth vocabulary together with "flow" or a statistic, or names
    "flow" together with a statistic. *)
Theorem is_bandwidth_query_by_flow (query : string) :
  let query_lower := Py.lower query in
  let bandwidth_match :=
    Py.any (fun kw => Py.contains kw query_lower)
           ["bandwidth"; "throughput"; "speed"; "data rate"] in
  let stat_match :=
    Py.any (fun kw => Py.contains kw query_lower)
           ["average"; "avg"; "mean"; "statistics"; "calculate"; "median"; "min"; "max"] in
  let flow := Py.contains "flow" query_lower in
  is_bandwidth_query query
  = (bandwidth_match && (flow || stat_match)) || (flow && stat_match).
Proof.
  intros query_lower bandwidth_match stat_match flow.
  assert (Hfile : Py.any (fun kw => Py.contains kw query_lower)
                    ["flow"; "flow_bandwidth"; "flow bandwidth"; "flow_bandwidth.csv"]
                  = flow).
  { unfold Py.any. simpl. fold flow. destruct flow eqn:Hflow; [reflexivity |].
    assert (Hno : forall kw, Py.contains "flow" kw = true ->
                             Py.contains kw query_lower = false).
    { intros kw Hkw. destruct (Py.contains kw query_lower) eqn:E; [| reflexivity].
      unfold flow in Hflow. now rewrite (contains_longer _ _ _ Hkw E) in Hflow. }
    now rewrite !Hno by reflexivity. }
  unfold is_bandwidth_query. fold query_lower. rewrite Hfile. reflexivity.
Qed.

End Classification.

Lemma bandwidth_intent_is_bandwidth_query_witness :
  bandwidth_intent (Py.lower "What is the AVERAGE bandwidth?") = true
  /\ is_bandwidth_query "What is the AVERAGE bandwidth?" = true.
Proof.
  assert (H : bandwidth_intent (Py.lower "What is the AVERAGE bandwidth?") = true)
    by reflexivity.
  split; [exact H |].
  exact (bandwidth_intent_is_bandwidth_query _ H).
Defined.

(** ** More on context aggregation *)

Section MoreAggregation.

Lemma length_remove_dups_le (l : list string) : length (remove_dups l) <= length l.
Proof.
  induction l as [|x l IH]; simpl; [lia |].
  destruct (decide_rel elem_of x l); simpl; lia.
Qed.

Lemma experiment_names_length pool : length (experiment_names pool) <= length pool.
Proof.
  unfold experiment_names.
  etransitivity; [apply List.filter_length_le |].
  induction pool as [|d pool IH]; [simpl; lia |].
  change (omap (.!! "experiment_name") (d :: pool))
    with (match d !! "experiment_name" with
          | Some e => e :: omap (.!! "experiment_name") pool
          | None => omap (.!! "experiment_name") pool
          end).
  destruct (d !! "experiment_name"); simpl in *; lia.
Qed.

Lemma aggregate_experiments_found pool :
  experiments_found (aggregate pool)
  = list_to_set (experiment_names (List.filter has_text pool)).
Proof.
  unfold aggregate. rewrite aggregate_experiments_fold. simpl.
  now rewrite (left_id_L ∅ (∪)).
Qed.

(** X13. The aggregator keeps its lists aligned: one context entry and
    one filename per document with a text, never more experiments than
    entries; a pool is flagged as multi-experiment only if at least two
    of its documents have a text. *)
Theorem aggregate_is_aligned (pool : list Doc) :
  length (contexts (aggregate pool)) = length (List.filter has_text pool)
  /\ length (filenames (aggregate pool)) = length (contexts (aggregate pool))
  /\ length (contexts (aggregate pool)) <= length pool
  /\ size (experiments_found (aggregate pool)) <= length (contexts (aggregate pool))
  /\ (is_multi_experiment pool = true -> 2 <= length (contexts (aggregate pool))).
Proof.
  rewrite aggregate_contexts, aggregate_filenames, !length_map.
  assert (Hsize : size (experiments_found (aggregate pool))
                  <= length (List.filter has_text pool)).
  { rewrite aggregate_experiments_found, size_list_to_set_remove_dups.
    etransitivity; [apply length_remove_dups_le | apply experiment_names_length]. }
  split; [reflexivity |]. split; [reflexivity |].
  split; [apply List.filter_length_le |].
  split; [exact Hsize |].
  unfold is_multi_experiment. rewrite bool_decide_eq_true. lia.
Qed.

(** X14. Whenever the pipeline flags a pool as multi-experiment, so does
    the fallback parser on the same pool. *)
Theorem pipeline_flag_implies_fallback_flag (pool : list Doc) :
  is_multi_experiment pool = true -> fallback_is_multi_experiment pool = true.
Proof.
  unfold is_multi_experiment, fallback_is_multi_experiment.
  rewrite !bool_decide_eq_true. intros H.
  eapply Nat.lt_le_trans; [exact H |]. apply subseteq_size.
  rewrite aggregate_experiments_found, fallback_experiments_found_spec.
  intros x Hx. apply elem_of_list_to_set in Hx. apply elem_of_list_to_set.
  apply list_elem_of_In in Hx. apply list_elem_of_In.
  unfold experiment_names in *.
  apply filter_In in Hx as [Hx Ht]. apply filter_In. split; [| exact Ht].
  apply list_elem_of_In in Hx. apply list_elem_of_In.
  apply list_elem_of_omap in Hx as (d & Hd & Hname).
  apply list_elem_of_omap. exists d. split; [| exact Hname].
  apply list_elem_of_In in Hd. apply list_elem_of_In. now apply filter_In in Hd.
Qed.

(** X15. A structural excerpt has exactly the first five lines of the
    text, the marker and the last three lines of the text as its lines:
    the header row and the last rows of the table are kept verbatim. *)
Theorem structural_excerpt_lines (n : nat) (filename text : string) :
  Py.endswith ".csv" filename = true ->
  10 < length (Py.split (ascii_of_nat 10) text) ->
  Py.split (ascii_of_nat 10) (multi_excerpt n filename text)
  = List.firstn 5 (Py.split (ascii_of_nat 10) text) ++ ["..."]
    ++ Py.last_n 3 (Py.split (ascii_of_nat 10) text).
Proof.
  intros Hcsv Hl. rewrite multi_excerpt_structural by assumption.
  unfold structural_excerpt. apply split_join.
  - destruct (Py.split (ascii_of_nat 10) text); [simpl in Hl; lia | discriminate].
  - intros x Hx. apply in_app_or in Hx as [Hx | Hx].
    + apply (split_fields_no_sep _ text).
      rewrite <- (firstn_skipn 5 (Py.split (ascii_of_nat 10) text)).
      apply in_or_app. now left.
    + destruct Hx as [<- | Hx]; [reflexivity |].
      apply (split_fields_no_sep _ text). unfold Py.last_n in Hx.
      rewrite <- (firstn_skipn (length (Py.split (ascii_of_nat 10) text) - 3)
                    (Py.split (ascii_of_nat 10) text)).
      apply in_or_app. now right.
Qed.

End MoreAggregation.

Lemma pipeline_flag_implies_fallback_flag_witness :
  is_multi_experiment
    [mkdoc_exp "exp1" "flows.csv" "1,10"; mkdoc_exp "exp2" "flows.csv" "1,20"] = true
  /\ fallback_is_multi_experiment
       [mkdoc_exp "exp1" "flows.csv" "1,10"; mkdoc_exp "exp2" "flows.csv" "1,20"] = true.
Proof.
  assert (H : is_multi_experiment
                [mkdoc_exp "exp1" "flows.csv" "1,10"; mkdoc_exp "exp2" "flows.csv" "1,20"]
              = true) by (vm_compute; reflexivity).
  split; [exact H |].
  exact (pipeline_flag_implies_fallback_flag _ H).
Defined.

Lemma structural_excerpt_lines_witness :
  Py.endswith ".csv" "flows.csv" = true
  /\ 10 < length (Py.split (ascii_of_nat 10) demo_long_csv)
  /\ Py.split (ascii_of_nat 10) (multi_excerpt 60 "flows.csv" demo_long_csv)
     = ["id,bw"; "1,10"; "2,20"; "3,30"; "4,40"; "..."; "9,90"; "10,100"; "11,110"].
Proof.
  assert (H1 : Py.endswith ".csv" "flows.csv" = true) by reflexivity.
  assert (H2 : 10 < length (Py.split (ascii_of_nat 10) demo_long_csv))
    by (vm_compute; lia).
  split; [exact H1 | split; [exact H2 |]].
  rewrite (structural_excerpt_lines 60 "flows.csv" demo_long_csv H1 H2).
  vm_compute. reflexivity.
Defined.

Lemma aggregate_is_aligned_witness :
  is_multi_experiment
    [mkdoc_exp "exp1" "flows.csv" "1,10"; mkdoc_exp "exp2" "flows.csv" "1,20"] = true
  /\ 2 <= length (contexts (aggregate
                    [mkdoc_exp "exp1" "flows.csv" "1,10";
                     mkdoc_exp "exp2" "flows.csv" "1,20"])).
Proof.
  assert (H : is_multi_experiment
                [mkdoc_exp "exp1" "flows.csv" "1,10"; mkdoc_exp "exp2" "flows.csv" "1,20"]
              = true) by (vm_compute; reflexivity).
  split; [exact H |].
  exact (proj2 (proj2 (proj2 (proj2 (aggregate_is_aligned _)))) H).
Defined.

(** ** The manifests of experiments *)

Section Manifests.

Lemma assoc_mem_app {V} k (d1 d2 : list (string * V)) :
  assoc_mem k (d1 ++ d2) = assoc_mem k d1 || assoc_mem k d2.
Proof. unfold assoc_mem. apply existsb_app. Qed.

Lemma assoc_mem_single {V} k k' (v : V) : assoc_mem k [(k', v)] = String.eqb k' k.
Proof. unfold assoc_mem. simpl. apply orb_false_r. Qed.

Lemma assoc_get_app {V} k (dflt : V) (d1 d2 : list (string * V)) :
  assoc_get k dflt (d1 ++ d2)
  = if assoc_mem k d1 then assoc_get k dflt d1 else assoc_get k dflt d2.
Proof.
  induction d1 as [|[k' v] d1 IH]; [reflexivity |].
  simpl. unfold assoc_mem in *. simpl. now destruct (String.eqb k' k).
Qed.

Lemma assoc_mem_keys {V} k (d : list (string * V)) :
  assoc_mem k d = true <-> In k (map fst d).
Proof.
  unfold assoc_mem. rewrite existsb_exists, in_map_iff. split.
  - intros ([k' v] & Hin & He). apply String.eqb_eq in He. simpl in He. subst.
    now exists (k, v).
  - intros ([k' v] & <- & Hin). exists (k', v). split; [exact Hin | apply String.eqb_refl].
Qed.

Lemma assoc_get_in {V} k (v dflt : V) (d : list (string * V)) :
  NoDup (map fst d) -> In (k, v) d -> assoc_get k dflt d = v.
Proof.
  induction d as [|[k' v'] d IH]; [intros _ [] |].
  simpl. intros Hnd [[= -> ->] | Hin].
  - now rewrite String.eqb_refl.
  - apply NoDup_cons in Hnd as [Hk Hnd].
    destruct (String.eqb k' k) eqn:E; [| now apply IH].
    apply String.eqb_eq in E; subst k'. exfalso. apply Hk.
    apply list_elem_of_In, in_map_iff. now exists (k, v).
Qed.

Lemma assoc_add_keys k v d : map fst (assoc_add k v d) = map fst d.
Proof.
  induction d as [|[k' s] d IH]; [reflexivity |].
  simpl. destruct (String.eqb k' k); simpl; [reflexivity | now rewrite IH].
Qed.

Lemma assoc_add_mem k v k0 d : assoc_mem k0 (assoc_add k v d) = assoc_mem k0 d.
Proof.
  induction d as [|[k' s] d IH]; [reflexivity |].
  unfold assoc_mem in *. simpl.
  destruct (String.eqb k' k); simpl; [reflexivity | now rewrite IH].
Qed.

Lemma assoc_add_get k v k0 d :
  assoc_get k0 ∅ (assoc_add k v d)
  = if String.eqb k k0 && assoc_mem k0 d
    then assoc_get k0 ∅ d ∪ {[v]} else assoc_get k0 ∅ d.
Proof.
  induction d as [|[k' s] d IH]; [now rewrite andb_false_r |].
  unfold assoc_mem in *. simpl.
  destruct (String.eqb k' k) eqn:E1; simpl.
  - apply String.eqb_eq in E1; subst k'.
    destruct (String.eqb k k0); simpl; reflexivity.
  - destruct (String.eqb k' k0) eqn:E2; simpl; [| exact IH].
    apply String.eqb_eq in E2; subst k'.
    rewrite String.eqb_sym in E1. now rewrite E1.
Qed.

Lemma find_snoc {A} (f : A -> bool) (l : list A) (x : A) :
  find f (l ++ [x])
  = match find f l with
    | Some y => Some y
    | None => if f x then Some x else None
    end.
Proof.
  induction l as [|y l IH]; simpl; [reflexivity |].
  now destruct (f y).
Qed.

Lemma existsb_snoc {A} (f : A -> bool) (l : list A) (x : A) :
  existsb f (l ++ [x]) = existsb f l || f x.
Proof. rewrite existsb_app. simpl. now rewrite orb_false_r. Qed.

Lemma filter_snoc {A} (f : A -> bool) (l : list A) (x : A) :
  List.filter f (l ++ [x]) = List.filter f l ++ (if f x then [x] else []).
Proof. rewrite List.filter_app. simpl. now destruct (f x). Qed.

Lemma find_existsb_false {A} (f : A -> bool) (l : list A) :
  existsb f l = false -> find f l = None /\ List.filter f l = [].
Proof.
  induction l as [|y l IH]; [auto |].
  simpl. intros H. apply orb_false_iff in H as [-> H]. now apply IH.
Qed.

(** What the two dicts hold after the documents [seen]. *)
Lemma manifest_fold seen :
  let '(files, params) := fold_left manifest_step seen ([], []) in
  map fst files = map fst params
  /\ NoDup (map fst files)
  /\ forall k,
       assoc_mem k files = existsb (named k) seen
       /\ assoc_get k EmptyString params
          = match find (named k) seen with
            | Some doc => get doc "experiment_params" EmptyString
            | None => EmptyString
            end
       /\ assoc_get k ∅ files
          = list_to_set (map (fun doc => get doc "filename" "unknown")
                             (List.filter (named k) seen)).
Proof.
  induction seen as [|doc seen IH] using rev_ind.
  - simpl. split; [reflexivity |]. split; [constructor |]. intros k. auto.
  - rewrite fold_left_app. simpl.
    destruct (fold_left manifest_step seen ([], [])) as [files params].
    destruct IH as (Hkeys & Hnd & Hk).
    unfold manifest_step.
    set (n := get doc "experiment_name" "Unknown") in *.
    assert (Hnamed : forall k, named k doc = String.eqb n k) by reflexivity.
    destruct (assoc_mem n files) eqn:Hmem.
    + split; [now rewrite assoc_add_keys |].
      split; [now rewrite assoc_add_keys |].
      intros k. destruct (Hk k) as (H1 & H2 & H3).
      rewrite assoc_add_mem, assoc_add_get, existsb_snoc, find_snoc, filter_snoc, Hnamed.
      destruct (String.eqb n k) eqn:E.
      * apply String.eqb_eq in E; subst k.
        rewrite Hmem in *. simpl. rewrite <- H1. split; [reflexivity |].
        split.
        -- rewrite H2. destruct (find (named n) seen) eqn:Hf; [reflexivity |].
           exfalso. symmetry in H1. apply existsb_exists in H1 as (d & Hd & Hn).
           now rewrite (find_none _ _ Hf d Hd) in Hn.
        -- rewrite H3, map_app, list_to_set_app_L. simpl. set_solver.
      * simpl. rewrite orb_false_r, app_nil_r. split; [exact H1 |].
        split; [| exact H3]. rewrite H2. now destruct (find (named k) seen).
    + assert (Hp : forall k, assoc_mem k params = assoc_mem k files).
      { intros k. apply eq_true_iff_eq. now rewrite !assoc_mem_keys, Hkeys. }
      split; [now rewrite assoc_add_keys, !map_app, Hkeys |].
      split.
      { rewrite assoc_add_keys, map_app. simpl. apply NoDup_app. split; [exact Hnd |].
        split; [| apply NoDup_singleton].
        intros x Hx Hx'. apply list_elem_of_singleton in Hx'. subst x.
        apply list_elem_of_In, assoc_mem_keys in Hx. congruence. }
      intros k. destruct (Hk k) as (H1 & H2 & H3).
      rewrite assoc_add_mem, assoc_add_get, !assoc_mem_app, !assoc_get_app, Hp,
        existsb_snoc, find_snoc, filter_snoc, Hnamed, !assoc_mem_single.
      simpl assoc_get.
      destruct (String.eqb n k) eqn:E.
      * apply String.eqb_eq in E; subst k.
        rewrite Hmem in *. symmetry in H1.
        destruct (find_existsb_false _ _ H1) as [Hf Hfl].
        rewrite H1, Hf, Hfl. simpl. split; [reflexivity |]. split; [reflexivity |].
        set_solver.
      * rewrite !orb_false_r, andb_false_l, app_nil_r, <- H1.
        destruct (assoc_mem k files) eqn:Hm.
        -- split; [reflexivity |]. split; [| exact H3].
           rewrite H2. now destruct (find (named k) seen).
        -- split; [reflexivity |]. symmetry in H1.
           destruct (find_existsb_false _ _ H1) as [Hf Hfl].
           rewrite Hf, Hfl. split; reflexivity.
Qed.

(** X16. In the manifest of the multi-experiment prompt, the parameters
    shown for an experiment are those of the first document of the pool
    with that name, later documents of the same experiment being ignored;
    the files of an experiment are the filenames of all its documents;
    and no experiment is listed twice. *)
Theorem manifest_first_params_win (pool : list Doc) (exp_name : string) :
  assoc_get exp_name EmptyString (params_by_experiment pool)
  = match find (named exp_name) pool with
    | Some doc => get doc "experiment_params" EmptyString
    | None => EmptyString
    end
  /\ assoc_get exp_name ∅ (files_by_experiment pool)
     = list_to_set (map (fun doc => get doc "filename" "unknown")
                        (List.filter (named exp_name) pool))
  /\ assoc_mem exp_name (files_by_experiment pool) = existsb (named exp_name) pool
  /\ NoDup (map fst (files_by_experiment pool))
  /\ map fst (files_by_experiment pool) = map fst (params_by_experiment pool).
Proof.
  unfold params_by_experiment, files_by_experiment.
  pose proof (manifest_fold pool) as H.
  destruct (fold_left manifest_step pool ([], [])) as [files params].
  destruct H as (Hkeys & Hnd & Hk). destruct (Hk exp_name) as (H1 & H2 & H3).
  simpl. auto.
Qed.

End Manifests.

Section FallbackManifest.

Lemma dict_append_get k v k0 d :
  assoc_get k0 [] (dict_append k v d)
  = if String.eqb k k0 then assoc_get k0 [] d ++ [v] else assoc_get k0 [] d.
Proof.
  induction d as [|[k' vs] d IH]; simpl.
  - now destruct (String.eqb k k0).
  - destruct (String.eqb k' k) eqn:E1; simpl.
    + apply String.eqb_eq in E1; subst k'. now destruct (String.eqb k k0).
    + destruct (String.eqb k' k0) eqn:E2; [| exact IH].
      apply String.eqb_eq in E2; subst k'. rewrite String.eqb_sym in E1. now rewrite E1.
Qed.

Lemma dict_append_keys k v d :
  map fst (dict_append k v d) = if assoc_mem k d then map fst d else map fst d ++ [k].
Proof.
  induction d as [|[k' vs] d IH]; [reflexivity |].
  unfold assoc_mem in *. simpl.
  destruct (String.eqb k' k); simpl; [reflexivity |].
  rewrite IH. now destruct (existsb _ d).
Qed.

Lemma assoc_mem_in {V} k (dflt : V) (d : list (string * V)) :
  assoc_mem k d = true -> In (k, assoc_get k dflt d) d.
Proof.
  induction d as [|[k' v] d IH]; [discriminate |].
  unfold assoc_mem in *. simpl. destruct (String.eqb k' k) eqn:E.
  - apply String.eqb_eq in E; subst k'. now left.
  - simpl. intros H. right. now apply IH.
Qed.

Lemma experiment_files_fold_spec seen :
  NoDup (map fst (experiment_files seen))
  /\ forall k,
       assoc_mem k (experiment_files seen) = existsb (named k) seen
       /\ assoc_get k [] (experiment_files seen) = filenames_of k seen.
Proof.
  unfold experiment_files, filenames_of.
  induction seen as [|doc seen IH] using rev_ind.
  - simpl. split; [constructor | auto].
  - rewrite fold_left_app. simpl.
    set (files := fold_left _ seen []) in *.
    set (n := get doc "experiment_name" "Unknown").
    destruct IH as (Hnd & Hk). split.
    + rewrite dict_append_keys. destruct (assoc_mem n files) eqn:Hmem; [exact Hnd |].
      apply NoDup_app. split; [exact Hnd |]. split; [| apply NoDup_singleton].
      intros x Hx Hx'. apply list_elem_of_singleton in Hx'. subst x.
      apply list_elem_of_In, assoc_mem_keys in Hx. congruence.
    + intros k. destruct (Hk k) as (H1 & H2).
      rewrite dict_append_get, existsb_snoc, filter_snoc, map_app, H2.
      fold (named k). change (named k doc) with (String.eqb n k).
      split.
      * apply eq_true_iff_eq.
        rewrite assoc_mem_keys, dict_append_keys, orb_true_iff, <- H1.
        destruct (assoc_mem n files) eqn:Hmem.
        -- rewrite <- assoc_mem_keys. split; [auto |].
           intros [H | H]; [exact H |]. apply String.eqb_eq in H. now subst k.
        -- rewrite in_app_iff, <- assoc_mem_keys. simpl. rewrite String.eqb_eq.
           intuition.
      * subst n. unfold named.
        destruct (String.eqb (get doc "experiment_name" "Unknown") k); simpl;
          [reflexivity | now rewrite app_nil_r].
Qed.

(** X17. In the general summary of the fallback parser no experiment is
    listed twice, and each experiment is followed by exactly the
    filenames of its documents, in pool order and with repetitions; every
    document of the pool is under its experiment. *)
Theorem experiment_files_groups_by_name (pool : list Doc) :
  NoDup (map fst (experiment_files pool))
  /\ (forall exp_name files,
        In (exp_name, files) (experiment_files pool) ->
        files = filenames_of exp_name pool /\ files <> [])
  /\ (forall doc,
        In doc pool ->
        In (get doc "experiment_name" "Unknown",
            filenames_of (get doc "experiment_name" "Unknown") pool)
           (experiment_files pool)).
Proof.
  destruct (experiment_files_fold_spec pool) as (Hnd & Hk).
  split; [exact Hnd |]. split.
  - intros k vs Hin. destruct (Hk k) as (H1 & H2).
    assert (Hvs : vs = filenames_of k pool)
      by (rewrite <- H2; symmetry; now apply assoc_get_in).
    split; [exact Hvs |].
    assert (Hmem : assoc_mem k (experiment_files pool) = true).
    { apply assoc_mem_keys, in_map_iff. now exists (k, vs). }
    rewrite H1 in Hmem. apply existsb_exists in Hmem as (d & Hd & Hn).
    subst vs. unfold filenames_of. intros Hnil. apply map_eq_nil in Hnil.
    assert (Hf : In d (List.filter (named k) pool)) by (apply filter_In; auto).
    unfold named in Hf. rewrite Hnil in Hf. destruct Hf.
  - intros doc Hin.
    destruct (Hk (get doc "experiment_name" "Unknown")) as (H1 & H2).
    rewrite <- H2. apply assoc_mem_in. rewrite H1.
    apply existsb_exists. exists doc. split; [exact Hin | apply String.eqb_refl].
Qed.

End FallbackManifest.

Lemma experiment_files_groups_by_name_witness :
  In (mkdoc_exp "exp1" "flows.csv" "1,10")
     [mkdoc_exp "exp1" "flows.csv" "1,10"; mkdoc_exp "exp2" "nodes.csv" "a";
      mkdoc_exp "exp1" "links.csv" "b"]
  /\ In ("exp1", ["flows.csv"; "links.csv"])
        (experiment_files
           [mkdoc_exp "exp1" "flows.csv" "1,10"; mkdoc_exp "exp2" "nodes.csv" "a";
            mkdoc_exp "exp1" "links.csv" "b"]).
Proof.
  assert (H : In (mkdoc_exp "exp1" "flows.csv" "1,10")
                 [mkdoc_exp "exp1" "flows.csv" "1,10"; mkdoc_exp "exp2" "nodes.csv" "a";
                  mkdoc_exp "exp1" "links.csv" "b"]) by (left; reflexivity).
  split; [exact H |].
  exact (proj2 (proj2 (experiment_files_groups_by_name _)) _ H).
Defined.

(** ** The numbers of the regular-expression handler *)

Section Numbers.

Lemma substr_cons x a s : substr a s -> substr a (String x s).
Proof. intros (p & q & ->). now exists (String x p), q. Qed.

Lemma findall_numbers_spec s :
  (forall token, In token (findall_numbers s) ->
     Py.truthy token = true /\ all_num_chars token = true /\ substr token s)
  /\ (forall x r, s = String x r -> is_num_char x = true ->
        exists w ws t, findall_numbers s = w :: ws /\ s = w +:+ t).
Proof.
  induction s as [|c s [IH1 IH2]].
  - split; [intros token [] | discriminate].
  - assert (Hrest : forall token, In token (findall_numbers s) ->
                      Py.truthy token = true /\ all_num_chars token = true
                      /\ substr token (String c s)).
    { intros token Hin. destruct (IH1 token Hin) as (H1 & H2 & H3).
      auto using substr_cons. }
    simpl. destruct (is_num_char c) eqn:Hc.
    + destruct s as [|c' s'].
      * split.
        -- intros token [<- | []]. simpl. rewrite Hc.
           repeat split. apply substr_refl.
        -- intros x r [= <- <-] _. exists (String c EmptyString), [], EmptyString.
           split; reflexivity.
      * destruct (is_num_char c') eqn:Hc'.
        -- destruct (IH2 c' s' eq_refl Hc') as (w & ws & t & Hw & Ht).
           rewrite Hw in *. split.
           ++ intros token [<- | Hin]; [| apply Hrest; now right].
              destruct (IH1 w (or_introl eq_refl)) as (H1 & H2 & _).
              simpl. rewrite Hc, H2. repeat split.
              exists EmptyString, t. rewrite Ht. reflexivity.
           ++ intros x r [= <- <-] _. exists (String c w), ws, t.
              split; [reflexivity |]. now rewrite Ht.
        -- split.
           ++ intros token [<- | Hin]; [| now apply Hrest].
              simpl. rewrite Hc. repeat split.
              exists EmptyString, (String c' s'). reflexivity.
           ++ intros x r [= <- <-] _.
              exists (String c EmptyString), (findall_numbers (String c' s')), (String c' s').
              split; reflexivity.
    + split; [exact Hrest |]. intros x r [= <- <-] Hx. congruence.
Qed.

(** X18. Every token that the regular-expression handler hands to
    [float] is non-empty, consists of digits and dots only and occurs in
    the text; a text without a digit or a dot gives no token, so that the
    handler returns nothing for it. *)
Theorem findall_numbers_tokens (P : Pandas) (doc : Doc) (text : string) :
  (forall token, In token (findall_numbers text) ->
     Py.truthy token = true /\ all_num_chars token = true /\ substr token text)
  /\ (no_num_char text = true ->
      findall_numbers text = [] /\ regex_average P doc text = None).
Proof.
  split; [apply findall_numbers_spec |].
  intros H.
  assert (Hnil : findall_numbers text = []).
  { induction text as [|c s IH]; [reflexivity |].
    simpl in *. apply andb_true_iff in H as [Hc Hs].
    apply negb_true_iff in Hc. rewrite Hc. now apply IH. }
  split; [exact Hnil |]. unfold regex_average. now rewrite Hnil.
Qed.

End Numbers.

Lemma findall_numbers_tokens_witness :
  In "12.5" (findall_numbers "bw=12.5 Mbit")
  /\ no_num_char "no numbers here" = true
  /\ substr "12.5" "bw=12.5 Mbit"
  /\ regex_average exact_pandas demo_notes "no numbers here" = None.
Proof.
  assert (H1 : In "12.5" (findall_numbers "bw=12.5 Mbit")) by (left; reflexivity).
  assert (H2 : no_num_char "no numbers here" = true) by reflexivity.
  split; [exact H1 | split; [exact H2 |]].
  split.
  - exact (proj2 (proj2 (proj1 (findall_numbers_tokens exact_pandas demo_notes
                                  "bw=12.5 Mbit") _ H1))).
  - exact (proj2 (proj2 (findall_numbers_tokens exact_pandas demo_notes
                           "no numbers here") H2)).
Defined.

(** ** More on the re-run job *)

Section ReRunEdges.

Context (J : Job).

Lemma run_in_background_missing simulation_id oid sys :
  ObjectId J simulation_id = Ok oid ->
  store sys !! oid = None ->
  run_in_background J simulation_id sys
  = (Ok tt, {| store := store sys; threads := threads sys;
               log := log sys ++ [EvFind oid] |}).
Proof.
  intros Hid Hrec. unfold run_in_background, run_job, find_one. unfold_monad.
  now rewrite Hid, Hrec.
Qed.

Lemma filter_job_app (l1 l2 : list Event) :
  List.filter is_job_event (l1 ++ l2)
  = List.filter is_job_event l1 ++ List.filter is_job_event l2.
Proof. apply List.filter_app. Qed.

(** X19. A re-run request changes nothing when there is nothing to
    re-run: an id that is no object id raises out of [re_run_experiment]
    before the store is touched or a thread is started, and for an id
    without a record neither the request nor its thread creates a record
    or launches a job. *)
Theorem re_run_without_record (simulation_id : string) (sys : System) :
  (forall msg, ObjectId J simulation_id = Raise msg ->
               re_run_experiment J simulation_id sys = (Raise msg, sys))
  /\ (forall oid,
        ObjectId J simulation_id = Ok oid ->
        store sys !! oid = None ->
        store (snd (re_run_experiment J simulation_id sys)) = store sys
        /\ forall sys2,
             step J (RunThread simulation_id)
                  (snd (re_run_experiment J simulation_id sys)) sys2 ->
             store sys2 = store sys
             /\ List.filter is_job_event (log sys2) = List.filter is_job_event (log sys)).
Proof.
  split.
  - intros msg Hid. unfold re_run_experiment. unfold_monad. now rewrite Hid.
  - intros oid Hid Hrec.
    assert (Hsys1 : snd (re_run_experiment J simulation_id sys)
                    = {| store := store sys;
                         threads := threads sys ++ [simulation_id];
                         log := (log sys ++ [EvUpdate oid {[ "state" := "Re-Running" ]}])
                                ++ [EvSpawn simulation_id] |}).
    { unfold re_run_experiment, update_one, spawn. unfold_monad. rewrite Hid. simpl.
      now rewrite alter_id'. }
    rewrite Hsys1. split; [reflexivity |].
    intros sys2 Hstep.
    inversion Hstep as [s before after sid Hthreads Hl Hs Heq |]; subst.
    rewrite (run_in_background_missing simulation_id oid) by assumption.
    simpl. split; [reflexivity |].
    rewrite !filter_job_app. simpl. now rewrite !app_nil_r.
Qed.

(** The fields that a re-run writes. *)
Lemma status_fields_only (fields : gmap string string) (key : string) :
  fields = {[ "state" := "Re-Running" ]}
  \/ (exists t, fields = {[ "state" := "Finished"; "end_time" := t ]})
  \/ (exists m, fields = {[ "state" := "Error"; "error" := m ]}) ->
  key <> "state" -> key <> "end_time" -> key <> "error" ->
  fields !! key = None.
Proof.
  intros [-> | [[t ->] | [m ->]]] H1 H2 H3.
  - now apply lookup_singleton_ne.
  - rewrite lookup_insert_ne by congruence. now apply lookup_singleton_ne.
  - rewrite lookup_insert_ne by congruence. now apply lookup_singleton_ne.
Qed.

Lemma alter_frame (fields : gmap string string) (oid' : string)
    (store0 : gmap string (gmap string string)) (oid key : string) :
  fields !! key = None ->
  (alter (fun e => fields ∪ e) oid' store0 !! oid ≫= (.!! key))
  = (store0 !! oid ≫= (.!! key))
  /\ (is_Some (alter (fun e : gmap string string => fields ∪ e) oid' store0 !! oid)
      <-> is_Some (store0 !! oid)).
Proof.
  intros Hf. split; [| apply lookup_alter_is_Some].
  destruct (decide (oid' = oid)) as [-> | Hne].
  - rewrite lookup_alter_eq. destruct (store0 !! oid) as [e|]; [| reflexivity].
    simpl. now rewrite lookup_union_r.
  - now rewrite lookup_alter_ne.
Qed.

Lemma step_frame sys sys' oid key :
  any_step J sys sys' ->
  key <> "state" -> key <> "end_time" -> key <> "error" ->
  field_of sys' oid key = field_of sys oid key
  /\ (is_Some (store sys' !! oid) <-> is_Some (store sys !! oid)).
Proof.
  intros [l Hstep] H1 H2 H3. unfold field_of. destruct Hstep.
  - destruct (ObjectId J simulation_id) as [oid'|msg] eqn:Hid.
    + set (start := {| store := store sys; threads := before ++ after; log := log sys |}).
      destruct (store sys !! oid') as [e|] eqn:Hrec.
      * destruct (run_in_background_found J simulation_id oid' start e Hid Hrec)
          as [Hs _].
        rewrite Hs. apply alter_frame, status_fields_only; auto.
        destruct (job_outcome J e) as [[]|m]; eauto.
      * subst start. rewrite (run_in_background_missing simulation_id oid') by assumption.
        simpl. tauto.
    + unfold run_in_background, run_job. unfold_monad. rewrite Hid. simpl. tauto.
  - unfold re_run_experiment, update_one, spawn. unfold_monad.
    destruct (ObjectId J simulation_id) as [oid'|msg]; simpl; [| tauto].
    apply alter_frame, status_fields_only; auto.
Qed.

(** X20. However many re-run requests and threads run, no record is
    created or removed, and no field of any record other than [state],
    [end_time] and [error] changes: the parameters and the name of every
    experiment stay as they were. *)
Theorem re_runs_touch_only_status (sys sys' : System) (oid key : string) :
  rtc (any_step J) sys sys' ->
  key <> "state" -> key <> "end_time" -> key <> "error" ->
  field_of sys' oid key = field_of sys oid key
  /\ (is_Some (store sys' !! oid) <-> is_Some (store sys !! oid)).
Proof.
  intros Hsteps H1 H2 H3.
  induction Hsteps as [s | s1 s2 s3 Hstep _ IH]; [tauto |].
  destruct (step_frame s1 s2 oid key Hstep H1 H2 H3) as [Hf Hs].
  destruct IH as [IHf IHs]. split; [congruence | tauto].
Qed.


End ReRunEdges.

Lemma re_run_without_record_witness :
  ObjectId demo_job "not-an-id" = Raise "invalid ObjectId"
  /\ re_run_experiment demo_job "not-an-id" (demo_system "1,4,2,ecmp,7")
     = (Raise "invalid ObjectId", demo_system "1,4,2,ecmp,7").
Proof.
  assert (H : ObjectId demo_job "not-an-id" = Raise "invalid ObjectId") by reflexivity.
  split; [exact H |].
  exact (proj1 (re_run_without_record demo_job "not-an-id" (demo_system "1,4,2,ecmp,7"))
           _ H).
Defined.

Lemma re_runs_touch_only_status_witness :
  rtc (any_step demo_job) (demo_system "1,4,2,ecmp,7")
      (snd (re_run_experiment demo_job demo_oid (demo_system "1,4,2,ecmp,7")))
  /\ "params" <> "state" /\ "params" <> "end_time" /\ "params" <> "error"
  /\ field_of (snd (re_run_experiment demo_job demo_oid (demo_system "1,4,2,ecmp,7")))
              demo_oid "params"
     = Some "1,4,2,ecmp,7".
Proof.
  assert (H0 : rtc (any_step demo_job) (demo_system "1,4,2,ecmp,7")
                 (snd (re_run_experiment demo_job demo_oid (demo_system "1,4,2,ecmp,7")))).
  { apply rtc_once. exists (ReRunRequest demo_oid). constructor. }
  assert (H1 : "params" <> "state") by discriminate.
  assert (H2 : "params" <> "end_time") by discriminate.
  assert (H3 : "params" <> "error") by discriminate.
  repeat (split; [assumption |]).
  rewrite (proj1 (re_runs_touch_only_status demo_job _ _ demo_oid "params" H0 H1 H2 H3)).
  reflexivity.
Defined.


(** ** The page of an experiment *)

Section PageFacts.

Context (J : Job).





End PageFacts.



Section PageReads.

Context (J : Job).




(** X26. The table of parameters of the page needs at least five fields:
    with fewer than four commas building it raises [IndexError], with
    four or more it shows the first five fields and ignores the rest. *)
Theorem params_dict_needs_five_fields (params : string) :
  (count_char "," params < 4 -> params_dict params = Raise "list index out of range")
  /\ (4 <= count_char "," params ->
      exists num_jobs num_cores ring_size routing seed rest,
        Py.split "," params = num_jobs :: num_cores :: ring_size :: routing :: seed :: rest
        /\ params_dict params
           = Ok [("Num Jobs", num_jobs); ("Num Cores", num_cores);
                 ("Ring Size", ring_size); ("Routing Algorithm", routing);
                 ("Seed", seed)]).
Proof.
  pose proof (length_split "," params) as Hlen. unfold params_dict.
  destruct (Py.split "," params) as [|a [|b [|c [|d [|e rest]]]]]; simpl in Hlen;
    (split; [intros Hc | intros Hc]); try lia; try reflexivity.
  exists a, b, c, d, e, rest. split; reflexivity.
Qed.

Lemma preselect_spec {A} (eqb : A -> A -> bool) (possible : list A) (x : A) :
  (forall a b, eqb a b = true <-> a = b) ->
  (In x possible -> nth_error possible (preselect eqb possible x) = Some x)
  /\ (~ In x possible -> preselect eqb possible x = 0)
  /\ (possible <> [] -> preselect eqb possible x < length possible).
Proof.
  intros Heq. unfold preselect.
  assert (Hex : existsb (fun y => eqb y x) possible = true <-> In x possible).
  { rewrite existsb_exists. split.
    - intros (y & Hy & He). apply Heq in He. now subst.
    - intros Hx. exists x. split; [exact Hx | now apply Heq]. }
  assert (Hidx : In x possible ->
                 nth_error possible (list_index eqb x possible) = Some x
                 /\ list_index eqb x possible < length possible).
  { induction possible as [|y l IH]; [intros [] |].
    simpl. destruct (eqb y x) eqn:E.
    - apply Heq in E; subst. intros _. split; [reflexivity | lia].
    - intros [-> | Hin]; [assert (Hxx : eqb x x = true) by (now apply Heq); congruence |].
      assert (Hex' : existsb (fun y0 => eqb y0 x) l = true <-> In x l).
      { rewrite existsb_exists. split.
        - intros (z & Hz & He). apply Heq in He. now subst.
        - intros Hx. exists x. split; [exact Hx | now apply Heq]. }
      destruct (IH Hex' Hin) as [H1 H2]. split; [exact H1 | lia]. }
  destruct (existsb (fun y => eqb y x) possible) eqn:E.
  - assert (Hin : In x possible) by now apply Hex.
    destruct (Hidx Hin) as [H1 H2]. split; [auto |]. split; [tauto | auto].
  - assert (Hnin : ~ In x possible) by (intros H; apply Hex in H; congruence).
    split; [tauto |]. split; [auto |].
    destruct possible; [congruence | simpl; lia].
Qed.

(** X27. The option that each select box of the edit form shows first is
    the stored value when the box offers it and the first option
    otherwise; the index is always within the options. *)
Theorem select_boxes_preselect (params_array : list string) :
  (forall i, core_index J params_array = Ok i ->
     i < length possible_cores
     /\ exists field value,
          nth_error params_array 1 = Some field /\ py_int J field = Ok value
          /\ (In value possible_cores -> nth_error possible_cores i = Some value)
          /\ (~ In value possible_cores -> i = 0))
  /\ (forall i, ring_index J params_array = Ok i ->
        i < length possible_ring
        /\ exists field value,
             nth_error params_array 2 = Some field /\ py_int J field = Ok value
             /\ (In value possible_ring -> nth_error possible_ring i = Some value)
             /\ (~ In value possible_ring -> i = 0))
  /\ (forall i, routing_index params_array = Ok i ->
        i < length possible_routings
        /\ exists field,
             nth_error params_array 3 = Some field
             /\ (In field possible_routings -> nth_error possible_routings i = Some field)
             /\ (~ In field possible_routings -> i = 0)).
Proof.
  unfold core_index, ring_index, routing_index, getitem_list.
  unfold mbind, Res_bind.
  split; [| split]; intros i.
  - destruct (nth_error params_array 1) as [field|]; [| discriminate].
    destruct (py_int J field) as [value|msg] eqn:Hint; [| discriminate].
    intros [= <-].
    destruct (preselect_spec Z.eqb possible_cores value Z.eqb_eq) as (H1 & H2 & H3).
    split; [apply H3; discriminate |]. exists field, value. auto.
  - destruct (nth_error params_array 2) as [field|]; [| discriminate].
    destruct (py_int J field) as [value|msg] eqn:Hint; [| discriminate].
    intros [= <-].
    destruct (preselect_spec Z.eqb possible_ring value Z.eqb_eq) as (H1 & H2 & H3).
    split; [apply H3; discriminate |]. exists field, value. auto.
  - destruct (nth_error params_array 3) as [field|]; [| discriminate].
    intros [= <-].
    destruct (preselect_spec String.eqb possible_routings field String.eqb_eq)
      as (H1 & H2 & H3).
    split; [apply H3; discriminate |]. exists field. auto.
Qed.

End PageReads.



Lemma params_dict_needs_five_fields_witness :
  count_char "," "1,4,2" < 4 /\ params_dict "1,4,2" = Raise "list index out of range".
Proof.
  assert (H : count_char "," "1,4,2" < 4) by (vm_compute; lia).
  split; [exact H |].
  exact (proj1 (params_dict_needs_five_fields "1,4,2") H).
Defined.

Lemma select_boxes_preselect_witness :
  core_index demo_job ["1"; "4"; "2"; "ecmp"; "7"] = Ok 1
  /\ 1 < length possible_cores.
Proof.
  assert (H : core_index demo_job ["1"; "4"; "2"; "ecmp"; "7"] = Ok 1) by reflexivity.
  split; [exact H |].
  exact (proj1 (proj1 (select_boxes_preselect demo_job ["1"; "4"; "2"; "ecmp"; "7"]) 1 H)).
Defined.

(** ** The database client *)

(** X28. [get_db_client] never raises. It returns a client exactly when
    the URI is set and not empty and the connection with its ping
    succeeds; without a URI it attempts no connection; and it writes
    exactly one message, a success with a client and an error without. *)
Theorem get_db_client_connects_or_reports (mongo_uri : option string)
    (connect : string -> ConnectOutcome) :
  (forall uri,
     fst (get_db_client mongo_uri connect) = Some uri
     <-> mongo_uri = Some uri /\ Py.truthy uri = true /\ connect uri = Connected)
  /\ (mongo_uri = None \/ mongo_uri = Some EmptyString ->
      get_db_client mongo_uri connect
      = (None, [DbMessage (StError "MongoDB URI not found in environment variables!")]))
  /\ exists m,
       (snd (get_db_client mongo_uri connect) = [DbMessage m]
        \/ exists uri, snd (get_db_client mongo_uri connect) = [DbConnect uri; DbMessage m])
       /\ match fst (get_db_client mongo_uri connect) with
          | Some _ => exists text, m = StSuccess text
          | None => exists text, m = StError text
          end.
Proof.
  unfold get_db_client. split; [| split].
  - intros uri. destruct mongo_uri as [u|]; [| split; [discriminate | intros [? _]; discriminate]].
    destruct (Py.truthy u) eqn:Ht.
    + destruct (connect u) eqn:Hc; simpl; split;
        try discriminate; try (intros ([= <-] & _ & Hc'); congruence);
        try (intros [= <-]; now auto).
    + simpl. split; [discriminate |]. intros ([= <-] & Ht' & _). congruence.
  - intros [-> | ->]; reflexivity.
  - destruct mongo_uri as [u|]; [| simpl; eexists; split; [left; reflexivity | eauto]].
    destruct (Py.truthy u); [| simpl; eexists; split; [left; reflexivity | eauto]].
    destruct (connect u); simpl; eexists; (split; [right; eexists; reflexivity | eauto]).
Qed.

Lemma get_db_client_connects_or_reports_witness :
  get_db_client (Some EmptyString) (fun _ => Connected)
  = (None, [DbMessage (StError "MongoDB URI not found in environment variables!")]).
Proof.
  exact (proj1 (proj2 (get_db_client_connects_or_reports (Some EmptyString)
                         (fun _ => Connected)))
           (or_intror eq_refl)).
Defined.
